(** * website-analyzer.js: the rendered-page extraction engine

    A shallow embedding of [WebsiteAnalyzer]
    (src/local-files/spiders/website-analyzer.js) and the properties its
    specification states about it.

    The analyzer drives a browser.  What the browser hands back (the
    rendered element tree, computed styles, boxes, the selector engine) is
    modelled as data: a tree of nodes, from which the DOM calls the source
    makes ([querySelectorAll], [parentElement], [children], [textContent],
    [getComputedStyle]) are computed.  The page is live: each call the
    analyzer makes into it finds the document of that moment, or fails.
    The analyzer's own code (the collectors, the object literals they
    build, the try/catch/finally around a page run) is translated function
    by function and keeps the names of the source.  The properties an
    element gets from its own content (a form control named [id] or
    [children] that hides the property of the form) are not modelled:
    [el.id], [el.children] and the like are read off the element tree. *)

From Stdlib Require Import ZArith String Ascii List Lia.
From stdpp Require Import base list strings pretty.

#[local] Set Warnings "-register-all".

Local Open Scope string_scope.
Local Open Scope Z_scope.

(* ===================================================================== *)
(** * JavaScript strings

    Strings are byte strings; the text handled by the analyzer's own string
    code (selectors, class names, CSS values) is ASCII.  [toLowerCase] and
    [trim] act on ASCII letters and ASCII white space and leave every other
    byte alone. *)
(* ===================================================================== *)

(** The double quote character, U+0022. *)
Definition dquote : ascii := ascii_of_nat 34.
Definition dq : string := String dquote EmptyString.

(** A string used as a condition: empty is falsy. *)
Definition truthy (s : string) : bool := negb (s =? "")%string.

(** [s.split(sep)] for a one-character separator. *)
Fixpoint split (sep : ascii) (s : string) : list string :=
  match s with
  | EmptyString => [EmptyString]
  | String c s' =>
      if Ascii.eqb c sep then EmptyString :: split sep s'
      else match split sep s' with
           | [] => [String c EmptyString]
           | t :: ts => String c t :: ts
           end
  end.

(** [l.join(sep)]. *)
Fixpoint join (sep : string) (l : list string) : string :=
  match l with
  | [] => ""
  | [x] => x
  | x :: l' => x +:+ sep +:+ join sep l'
  end.

(** [hay.includes(needle)]. *)
Fixpoint includes (hay needle : string) : bool :=
  String.prefix needle hay
  || match hay with
     | EmptyString => false
     | String _ hay' => includes hay' needle
     end.

Fixpoint drop_chars (n : nat) (s : string) : string :=
  match n, s with
  | O, _ => s
  | S n', String _ s' => drop_chars n' s'
  | S _, EmptyString => EmptyString
  end.

(** [s.replace(/pat/, '')] for a pattern of literal characters: the first
    occurrence of [pat] is deleted. *)
Fixpoint delete_first (pat s : string) : string :=
  if String.prefix pat s then drop_chars (String.length pat) s
  else match s with
       | EmptyString => EmptyString
       | String c s' => String c (delete_first pat s')
       end.

(** [s.replace(/[...]/g, '')] for a character class: every character of
    the class is deleted. *)
Fixpoint delete_chars (cls : ascii -> bool) (s : string) : string :=
  match s with
  | EmptyString => EmptyString
  | String c s' =>
      if cls c then delete_chars cls s' else String c (delete_chars cls s')
  end.

Definition lower_ascii (c : ascii) : ascii :=
  let n := nat_of_ascii c in
  if ((65 <=? n) && (n <=? 90))%nat then ascii_of_nat (n + 32) else c.

Fixpoint toLowerCase (s : string) : string :=
  match s with
  | EmptyString => EmptyString
  | String c s' => String (lower_ascii c) (toLowerCase s')
  end.

Definition is_space (c : ascii) : bool :=
  let n := nat_of_ascii c in
  ((n =? 32) || ((9 <=? n) && (n <=? 13)))%nat.

Fixpoint trim_start (s : string) : string :=
  match s with
  | EmptyString => EmptyString
  | String c s' => if is_space c then trim_start s' else s
  end.

Fixpoint trim_end (s : string) : string :=
  match s with
  | EmptyString => EmptyString
  | String c s' =>
      let r := trim_end s' in
      if is_space c && (r =? "")%string then EmptyString else String c r
  end.

Definition trim (s : string) : string := trim_end (trim_start s).

(* ===================================================================== *)
(** * JavaScript values

    The analyzer builds plain objects and arrays and serialises them as
    JSON.  An object is its list of fields in property order.  For the
    keys the analyzer writes itself, which are names, that is the order of
    insertion ([assoc_set]); for keys that come from the page, [own_set]
    puts array indices first.  Numbers are only ever counted, compared and
    copied by the analyzer, never computed with, so the model takes them
    in [Z]. *)
(* ===================================================================== *)

Inductive JValue : Type :=
  | JNull
  | JBool (b : bool)
  | JNum (n : Z)
  | JStr (s : string)
  | JArr (items : list JValue)
  | JObj (fields : list (string * JValue)).

Definition Fields : Type := list (string * JValue).

(** [o[k] = v]: an existing key keeps its place and takes the new value, a
    new key goes last.  The same function is [Map.prototype.set]. *)
Fixpoint assoc_set {V : Type} (k : string) (v : V) (o : list (string * V))
  : list (string * V) :=
  match o with
  | [] => [(k, v)]
  | (k', v') :: o' =>
      if (k' =? k)%string then (k', v) :: o' else (k', v') :: assoc_set k v o'
  end.

Fixpoint assoc_get {V : Type} (k : string) (o : list (string * V)) : option V :=
  match o with
  | [] => None
  | (k', v') :: o' => if (k' =? k)%string then Some v' else assoc_get k o'
  end.

Definition assoc_keys {V : Type} (o : list (string * V)) : list string :=
  map fst o.

(** An object literal [{k1: v1, ..., kn: vn}]: the properties are defined
    left to right, so a key written twice keeps the value written last. *)
Definition literal (kvs : Fields) : Fields :=
  fold_left (fun o kv => assoc_set (fst kv) (snd kv) o) kvs [].

Definition obj (kvs : Fields) : JValue := JObj (literal kvs).

(** Property read [v.k]; [None] is [undefined]. *)
Definition get (k : string) (v : JValue) : option JValue :=
  match v with
  | JObj fs => assoc_get k fs
  | _ => None
  end.

Definition keys (v : JValue) : list string :=
  match v with
  | JObj fs => assoc_keys fs
  | _ => []
  end.

Definition is_digit (c : ascii) : bool :=
  let n := nat_of_ascii c in ((48 <=? n) && (n <=? 57))%nat.

(** The number a string of decimal digits writes, read after [acc];
    [None] when a character is no digit. *)
Fixpoint decimal (s : string) (acc : Z) : option Z :=
  match s with
  | EmptyString => Some acc
  | String c s' =>
      if is_digit c
      then decimal s' (10 * acc + Z.of_nat (nat_of_ascii c) - 48)
      else None
  end.

(** An array index among property keys: the canonical decimal form of an
    integer from 0 to 2^32 - 2. *)
Definition array_index (k : string) : option Z :=
  match k with
  | EmptyString => None
  | String c rest =>
      if Ascii.eqb c "0" && negb (rest =? "")%string then None
      else match decimal k 0 with
           | Some i => if i <? 4294967295 then Some i else None
           | None => None
           end
  end.

(** A new array-index key goes in front of the first key that is no
    smaller index. *)
Fixpoint insert_index (i : Z) (k : string) (v : JValue) (o : Fields) : Fields :=
  match o with
  | [] => [(k, v)]
  | (k', v') :: o' =>
      match array_index k' with
      | Some j =>
          if j <? i then (k', v') :: insert_index i k v o'
          else (k, v) :: (k', v') :: o'
      | None => (k, v) :: (k', v') :: o'
      end
  end.

(** [o[k] = v] on a plain object whose keys come from data: the own
    properties are kept in the order in which they are listed and
    serialised, array indices in ascending order first and the other keys
    in the order of their creation; assigning a string to [__proto__]
    creates no property. *)
Definition own_set (k : string) (v : JValue) (o : Fields) : Fields :=
  if (k =? "__proto__")%string then o
  else match assoc_get k o with
       | Some _ => assoc_set k v o
       | None =>
           match array_index k with
           | Some i => insert_index i k v o
           | None => (o ++ [(k, v)])%list
           end
       end.

(** The keys of an object are in property order: the array indices come
    first, in ascending order, and no other key before one of them. *)
Fixpoint property_order (ks : list string) : Prop :=
  match ks with
  | [] => True
  | k :: ks' =>
      property_order ks'
      /\ match array_index k with
         | Some i =>
             Forall (fun k' => match array_index k' with
                               | Some j => i <= j
                               | None => True
                               end) ks'
         | None => Forall (fun k' => array_index k' = None) ks'
         end
  end.

(** [x || null] for a string. *)
Definition str_or_null (s : string) : JValue :=
  if truthy s then JStr s else JNull.

Definition JNat (n : nat) : JValue := JNum (Z.of_nat n).
Definition strings (l : list string) : JValue := JArr (map JStr l).

(* ===================================================================== *)
(** * The rendered document *)
(* ===================================================================== *)

Record Rect : Type := mkRect {
  rect_x : Z; rect_y : Z; rect_width : Z; rect_height : Z;
  rect_top : Z; rect_right : Z; rect_bottom : Z; rect_left : Z
}.

(** What the browser knows about one element, apart from its place in the
    tree.  [el_svg] marks the elements whose [className] is not a string
    (an SVGAnimatedString object): the source tests
    [typeof el.className === 'string'] for them.  [el_computed] is the
    computed style declaration. *)

(** A computed style declaration.  [listed] are the property names it
    enumerates, [computed[0], computed[1], ...] in order, which in a
    browser are the longhand properties; [values] is what
    [getPropertyValue] and the named accessors return, by property name,
    for the listed names and for the shorthands ([border-color],
    [border-radius]) alike. *)
Record Style : Type := mkStyle {
  listed : list string;
  values : list (string * string)
}.

Record ElemInfo : Type := mkElem {
  nodeName : string;
  el_attributes : list (string * string);
  el_svg : bool;
  el_rect : Rect;
  el_computed : Style;
  scrollWidth : Z;
  scrollHeight : Z
}.

Inductive Node : Type :=
  | TextNode (text : string)
  | ElementNode (e : ElemInfo) (childNodes : list Node).

(** An element as the page code holds it: a reference, which carries the
    element's place in the tree ([h_path], the child positions from the
    root down), what the browser knows about it, its child nodes and its
    [parentElement].  Two references are the same element ([===]) when
    they sit at the same place. *)
Inductive Handle : Type :=
  mkHandle (path : list nat) (e : ElemInfo) (kids : list Node)
           (parent : option Handle).

Definition h_path (h : Handle) : list nat :=
  match h with mkHandle p _ _ _ => p end.
Definition h_info (h : Handle) : ElemInfo :=
  match h with mkHandle _ e _ _ => e end.
Definition h_kids (h : Handle) : list Node :=
  match h with mkHandle _ _ k _ => k end.
Definition parentElement (h : Handle) : option Handle :=
  match h with mkHandle _ _ _ p => p end.

Definition same_element (a b : Handle) : bool :=
  bool_decide (h_path a = h_path b).

(** Document order: an element, then its children's subtrees left to
    right. *)
Fixpoint walk (parent : option Handle) (path : list nat) (n : Node)
  : list Handle :=
  match n with
  | TextNode _ => []
  | ElementNode e kids =>
      let h := mkHandle path e kids parent in
      h :: (fix walk_kids (i : nat) (ks : list Node) : list Handle :=
              match ks with
              | [] => []
              | k :: ks' =>
                  (walk (Some h) (path ++ [i]) k ++ walk_kids (S i) ks')%list
              end) O kids
  end.

Fixpoint walk_kids (h : Handle) (i : nat) (ks : list Node) : list Handle :=
  match ks with
  | [] => []
  | k :: ks' =>
      (walk (Some h) (h_path h ++ [i]) k ++ walk_kids h (S i) ks')%list
  end.

(** [el.children]: the element children, as references. *)
Fixpoint children_from (h : Handle) (i : nat) (ks : list Node) : list Handle :=
  match ks with
  | [] => []
  | TextNode _ :: ks' => children_from h (S i) ks'
  | ElementNode e kids :: ks' =>
      mkHandle (h_path h ++ [i]) e kids (Some h) :: children_from h (S i) ks'
  end.

Definition children (h : Handle) : list Handle := children_from h O (h_kids h).

(** [node.textContent]: the text of the descendants, in order. *)
Fixpoint node_text (n : Node) : string :=
  match n with
  | TextNode t => t
  | ElementNode _ kids =>
      (fix kids_text (ks : list Node) : string :=
         match ks with
         | [] => ""
         | k :: ks' => node_text k +:+ kids_text ks'
         end) kids
  end.

Definition textContent (h : Handle) : string :=
  node_text (ElementNode (h_info h) (h_kids h)).

(** [el.getAttribute(name)]. *)
Definition getAttribute (h : Handle) (name : string) : option string :=
  assoc_get name (el_attributes (h_info h)).

Definition attr_or_empty (h : Handle) (name : string) : string :=
  match getAttribute h name with Some v => v | None => "" end.

(** [el.id] reflects the [id] attribute. *)
Definition el_id (h : Handle) : string := attr_or_empty h "id".

(** [el.className]: the [class] attribute, when it is a string at all. *)
Definition className (h : Handle) : option string :=
  if el_svg (h_info h) then None else Some (attr_or_empty h "class").

Definition tagName (h : Handle) : string := nodeName (h_info h).

(** [window.getComputedStyle(el)] and [computed.getPropertyValue(p)]; a
    named access such as [computed.backgroundColor] is
    [getPropertyValue "background-color"]. *)
Definition getComputedStyle (h : Handle) : Style :=
  el_computed (h_info h).

Definition getPropertyValue (cs : Style) (p : string) : string :=
  match assoc_get p (values cs) with Some v => v | None => "" end.

Definition getBoundingClientRect (h : Handle) : Rect := el_rect (h_info h).

(* ===================================================================== *)
(** * The selector engine

    [document.querySelectorAll] is the browser's.  The selectors the
    analyzer passes to it are type selectors ([button]), the universal
    selector, attribute tests ([[src]], [[role="banner"]],
    [[class*="btn"]]), compounds of these ([meta[name="description"]]),
    descendant chains ([nav li]) and comma lists.  The engine below reads
    exactly this fragment; a string outside it is a syntax error, for which
    the browser throws. *)
(* ===================================================================== *)

Inductive AttrTest : Type :=
  | AttrHas (name : string)
  | AttrEq (name value : string)
  | AttrContains (name value : string).

Record Compound : Type := mkCompound {
  c_tag : option string;
  c_attrs : list AttrTest
}.

(** A descendant chain, outermost compound first. *)
Definition Complex : Type := list Compound.

Definition is_ident_char (c : ascii) : bool :=
  let n := nat_of_ascii c in
  (((97 <=? n) && (n <=? 122)) || ((65 <=? n) && (n <=? 90))
   || ((48 <=? n) && (n <=? 57)) || (n =? 45) || (n =? 95))%nat.

Inductive PState : Type :=
  | PStart
  | PTag (acc : string)
  | PStar
  | PName (acc : string)
  | PStarEq (name : string)
  | PEq (contains : bool) (name : string)
  | PValue (contains : bool) (name acc : string)
  | PClose (t : AttrTest)
  | PNext.

Definition snoc_char (s : string) (c : ascii) : string :=
  s +:+ String c EmptyString.

(** One compound selector, read a character at a time. *)
Fixpoint parse_compound (st : PState) (tag : option string)
    (attrs : list AttrTest) (s : string) : option Compound :=
  match s with
  | EmptyString =>
      match st with
      | PTag acc => Some (mkCompound (Some acc) attrs)
      | PStar => Some (mkCompound None attrs)
      | PNext => Some (mkCompound tag attrs)
      | _ => None
      end
  | String c s' =>
      match st with
      | PStart =>
          if Ascii.eqb c "*" then parse_compound PStar tag attrs s'
          else if Ascii.eqb c "[" then parse_compound (PName "") tag attrs s'
          else if is_ident_char c
               then parse_compound (PTag (String c "")) tag attrs s'
          else None
      | PTag acc =>
          if Ascii.eqb c "[" then parse_compound (PName "") (Some acc) attrs s'
          else if is_ident_char c
               then parse_compound (PTag (snoc_char acc c)) tag attrs s'
          else None
      | PStar =>
          if Ascii.eqb c "[" then parse_compound (PName "") None attrs s'
          else None
      | PName acc =>
          if is_ident_char c
          then parse_compound (PName (snoc_char acc c)) tag attrs s'
          else if (acc =? "")%string then None
          else if Ascii.eqb c "]"
               then parse_compound PNext tag (attrs ++ [AttrHas acc]) s'
          else if Ascii.eqb c "="
               then parse_compound (PEq false acc) tag attrs s'
          else if Ascii.eqb c "*" then parse_compound (PStarEq acc) tag attrs s'
          else None
      | PStarEq name =>
          if Ascii.eqb c "=" then parse_compound (PEq true name) tag attrs s'
          else None
      | PEq contains name =>
          if Ascii.eqb c dquote
          then parse_compound (PValue contains name "") tag attrs s'
          else None
      | PValue contains name acc =>
          if Ascii.eqb c dquote
          then parse_compound
                 (PClose (if contains then AttrContains name acc
                          else AttrEq name acc)) tag attrs s'
          else parse_compound (PValue contains name (snoc_char acc c))
                 tag attrs s'
      | PClose t =>
          if Ascii.eqb c "]" then parse_compound PNext tag (attrs ++ [t]) s'
          else None
      | PNext =>
          if Ascii.eqb c "[" then parse_compound (PName "") tag attrs s'
          else None
      end
  end.

Definition parse_complex (s : string) : option Complex :=
  match filter (fun t => truthy t = true) (split " " s) with
  | [] => None
  | parts => mapM (parse_compound PStart None []) parts
  end.

Definition parse_selector (s : string) : option (list Complex) :=
  mapM parse_complex (split "," s).

Definition attr_test (h : Handle) (t : AttrTest) : bool :=
  match t with
  | AttrHas n => bool_decide (is_Some (getAttribute h n))
  | AttrEq n v =>
      match getAttribute h n with
      | Some a => (a =? v)%string
      | None => false
      end
  | AttrContains n v =>
      match getAttribute h n with
      | Some a => truthy v && includes a v
      | None => false
      end
  end.

Definition match_compound (c : Compound) (h : Handle) : bool :=
  match c_tag c with
  | Some t => (toLowerCase (tagName h) =? toLowerCase t)%string
  | None => true
  end
  && forallb (attr_test h) (c_attrs c).

(** The chain of [parentElement]s, nearest first. *)
Fixpoint ancestors (h : Handle) : list Handle :=
  match h with
  | mkHandle _ _ _ (Some p) => p :: ancestors p
  | mkHandle _ _ _ None => []
  end.

(** [cs], innermost compound first, against the ancestors, nearest
    first: each compound needs an ancestor above the one matched before. *)
Fixpoint match_ancestors (cs : list Compound) (anc : list Handle) : bool :=
  match cs with
  | [] => true
  | c :: cs' =>
      (fix scan (anc : list Handle) : bool :=
         match anc with
         | [] => false
         | a :: anc' =>
             (match_compound c a && match_ancestors cs' anc') || scan anc'
         end) anc
  end.

Definition match_complex (cx : Complex) (h : Handle) : bool :=
  match rev cx with
  | [] => false
  | c :: outer => match_compound c h && match_ancestors outer (ancestors h)
  end.

Definition matches (sel : list Complex) (h : Handle) : bool :=
  existsb (fun cx => match_complex cx h) sel.

(* ===================================================================== *)
(** * A loaded page

    The page of a run is live: its scripts can change the document while
    the analyzer works, and every call the analyzer makes into the page
    ([page.evaluate], [page.title], [page.$eval]) is a round trip of its
    own, which finds the document as it stands at that moment or is
    rejected (the page navigated away, crashed or was closed).  A
    [Snapshot] is the document at one such call: the rendered tree under
    [documentElement] and the values the call can read from the window
    and the timing interface.  Within a call the page code runs to its
    end without interruption, so it reads one snapshot. *)
(* ===================================================================== *)

Record Snapshot : Type := mkSnapshot {
  documentElement : Node;
  page_title : string;
  userAgent : string;
  innerHeight : Z;
  performance_metrics : JValue
}.

(** [document.querySelectorAll('*')], every element in document order. *)
Definition all_elements (d : Snapshot) : list Handle :=
  walk None [] (documentElement d).

(** [document.querySelectorAll(selector)]; [None] when the call throws. *)
Definition querySelectorAll (d : Snapshot) (selector : string)
  : option (list Handle) :=
  match parse_selector selector with
  | Some sel => Some (filter (fun h => matches sel h = true) (all_elements d))
  | None => None
  end.

(** [document.querySelector(selector)]: the first match, [Some None] for
    [null]. *)
Definition querySelector (d : Snapshot) (selector : string)
  : option (option Handle) :=
  match querySelectorAll d selector with
  | Some l => Some (head l)
  | None => None
  end.

(** The tags of the element [document.body] can be. *)
Definition is_body_tag (t : string) : bool :=
  (t =? "body")%string || (t =? "frameset")%string.

(** [document.body]: the first child of the [html] root element that is
    a [body] or a [frameset]; [null] when there is none or the root is no
    [html] element. *)
Definition body (d : Snapshot) : option Handle :=
  match all_elements d with
  | root :: _ =>
      if (toLowerCase (tagName root) =? "html")%string
      then head (filter (fun h => is_body_tag (toLowerCase (tagName h)) = true)
                   (children root))
      else None
  | [] => None
  end.

(* ===================================================================== *)
(** * Results of code that may throw *)
(* ===================================================================== *)

Inductive Res (A : Type) : Type :=
  | Ok (a : A)
  | Throw (message : string).
Arguments Ok {A} a.
Arguments Throw {A} message.

Definition res_bind {A B : Type} (r : Res A) (k : A -> Res B) : Res B :=
  match r with
  | Ok a => k a
  | Throw m => Throw m
  end.

Definition from_option {A : Type} (message : string) (o : option A) : Res A :=
  match o with
  | Some a => Ok a
  | None => Throw message
  end.

Declare Scope res_scope.
Delimit Scope res_scope with res.
Notation "'let*' x ':=' r 'in' k" := (res_bind r (fun x => k))
  (at level 10, x name, r at level 100, k at level 200) : res_scope.

(** [document.querySelectorAll(sel)] and [document.querySelector(sel)]
    inside page code. *)
Definition qsa (d : Snapshot) (sel : string) : Res (list Handle) :=
  from_option "SyntaxError" (querySelectorAll d sel).

Definition qs (d : Snapshot) (sel : string) : Res (option Handle) :=
  from_option "SyntaxError" (querySelector d sel).

(** What a navigation leaves in [this.page]: the time the navigation
    took, the reading of the clock when the metadata object is built, and
    what each call of the run into the page finds. *)
Record Page : Type := mkPage {
  load_time : Z;
  metadata_time : string;
  at_call : nat -> Res Snapshot
}.

(** The calls of a page run, numbered in the order in which the source
    makes them. *)
Definition call_elementCount : nat := 0.
Definition call_domDepth : nat := 1.
Definition call_userAgent : nat := 2.
Definition call_title : nat := 3.
Definition call_description : nat := 4.
Definition call_performance : nat := 5.
Definition call_designTokens : nat := 6.
Definition call_elementData : nat := 7.
Definition call_layout : nat := 8.
Definition call_assets : nat := 9.
Definition call_patterns : nat := 10.

(** Selector strings with a quoted value. *)
Definition attr_contains (name value : string) : string :=
  "[" +:+ name +:+ "*=" +:+ dq +:+ value +:+ dq +:+ "]".
Definition attr_equals (name value : string) : string :=
  "[" +:+ name +:+ "=" +:+ dq +:+ value +:+ dq +:+ "]".

(* ===================================================================== *)
(** * collectDesignTokens (lines 127-193) *)
(* ===================================================================== *)

(** [set.add(x)] on a [Set] kept in insertion order. *)
Definition set_add (x : string) (s : list string) : list string :=
  if bool_decide (x ∈ s) then s else (s ++ [x])%list.

Record Tokens : Type := mkTokens {
  colors : list string;
  fonts : list string;
  spacing : list string;
  borderRadius : list string;
  boxShadows : list string;
  gradients : list string
}.

Definition no_tokens : Tokens := mkTokens [] [] [] [] [] [].

Definition transparent : string := "rgba(0, 0, 0, 0)".

(** [if (c && c !== 'rgba(0, 0, 0, 0)') tokens.colors.add(c)]. *)
Definition add_color (s : list string) (c : string) : list string :=
  if truthy c && negb (c =? transparent)%string then set_add c s else s.

(** [val && val !== '0px' && tokens.spacing.add(val)]. *)
Definition add_spacing (s : list string) (val : string) : list string :=
  if truthy val && negb (val =? "0px")%string then set_add val s else s.

(** The body of [elements.forEach(el => ...)]. *)
Definition token_step (tokens : Tokens) (el : Handle) : Tokens :=
  let computed := getComputedStyle el in
  let color := getPropertyValue computed "color" in
  let backgroundColor := getPropertyValue computed "background-color" in
  let borderColor := getPropertyValue computed "border-color" in
  let fontFamily := getPropertyValue computed "font-family" in
  let fontWeight := getPropertyValue computed "font-weight" in
  let marginValues :=
    [getPropertyValue computed "margin-top";
     getPropertyValue computed "margin-right";
     getPropertyValue computed "margin-bottom";
     getPropertyValue computed "margin-left"] in
  let paddingValues :=
    [getPropertyValue computed "padding-top";
     getPropertyValue computed "padding-right";
     getPropertyValue computed "padding-bottom";
     getPropertyValue computed "padding-left"] in
  let radius := getPropertyValue computed "border-radius" in
  let boxShadow := getPropertyValue computed "box-shadow" in
  let backgroundImage := getPropertyValue computed "background-image" in
  {| colors :=
       add_color (add_color (add_color (colors tokens) color) backgroundColor)
         borderColor;
     fonts :=
       if truthy fontFamily
       then set_add (fontFamily +:+ " " +:+ fontWeight) (fonts tokens)
       else fonts tokens;
     spacing :=
       fold_left add_spacing paddingValues
         (fold_left add_spacing marginValues (spacing tokens));
     borderRadius :=
       if truthy radius && negb (radius =? "0px")%string
       then set_add radius (borderRadius tokens) else borderRadius tokens;
     boxShadows :=
       if truthy boxShadow && negb (boxShadow =? "none")%string
       then set_add boxShadow (boxShadows tokens) else boxShadows tokens;
     gradients :=
       if truthy backgroundImage && includes backgroundImage "gradient"
       then set_add backgroundImage (gradients tokens) else gradients tokens |}.

(** The six sets once every element has been visited. *)
Definition design_tokens (d : Snapshot) : Tokens :=
  fold_left token_step (all_elements d) no_tokens.

(** The object handed back by the page code, each set as an array. *)
Definition collectDesignTokens_page (d : Snapshot) : JValue :=
  let tokens := design_tokens d in
  obj [("colors", strings (colors tokens));
       ("fonts", strings (fonts tokens));
       ("spacing", strings (spacing tokens));
       ("borderRadius", strings (borderRadius tokens));
       ("boxShadows", strings (boxShadows tokens));
       ("gradients", strings (gradients tokens))].

(* ===================================================================== *)
(** * collectElementData (lines 195-261) *)
(* ===================================================================== *)

(** [el.className && typeof el.className === 'string'
     ? el.className.split(' ').filter(c => c) : []]. *)
Definition class_list (el : Handle) : list string :=
  match className el with
  | Some cn =>
      if truthy cn then filter (fun c => truthy c = true) (split " " cn) else []
  | None => []
  end.

(** One pass of the [while] loop of [generateSelector]: the step for
    [element]. *)
Definition selector_step (element : Handle) : string :=
  let selector := toLowerCase (nodeName (h_info element)) in
  match className element with
  | Some cn =>
      if truthy cn
      then selector +:+ "."
           +:+ join "." (filter (fun c => truthy c = true) (split " " cn))
      else selector
  | None => selector
  end.

(** The [while] loop: each step is put in front of [path], then the walk
    moves to [parentNode]; above the root element that is the document,
    which is no element, and the loop ends. *)
Fixpoint selector_walk (element : Handle) (path : list string) : list string :=
  match element with
  | mkHandle _ _ _ (Some p) => selector_walk p (selector_step element :: path)
  | mkHandle _ _ _ None => selector_step element :: path
  end.

Definition is_body (d : Snapshot) (element : Handle) : bool :=
  match body d with
  | Some b => same_element element b
  | None => false
  end.

Definition generateSelector (d : Snapshot) (element : Handle) : string :=
  if truthy (el_id element) then "#" +:+ el_id element
  else if is_body d element then "body"
  else join " > " (selector_walk element []).

(** [array.indexOf(x)]: the first position holding [x], or -1. *)
Fixpoint indexOf_from (i : Z) (x : Handle) (l : list Handle) : Z :=
  match l with
  | [] => -1
  | y :: l' => if same_element y x then i else indexOf_from (i + 1) x l'
  end.

Definition indexOf (l : list Handle) (x : Handle) : Z := indexOf_from 0 x l.

Definition geometry (rect : Rect) : JValue :=
  obj [("x", JNum (rect_x rect)); ("y", JNum (rect_y rect));
       ("width", JNum (rect_width rect)); ("height", JNum (rect_height rect));
       ("top", JNum (rect_top rect)); ("right", JNum (rect_right rect));
       ("bottom", JNum (rect_bottom rect)); ("left", JNum (rect_left rect))].

(** [for (i...) cssStyles[computed[i]] = computed.getPropertyValue(computed[i])].
    The keys are CSS property names, none of which is an array index or
    [__proto__], so they stay in the order of their assignment. *)
Definition cssStyles (computed : Style) : JValue :=
  JObj (fold_left
          (fun o prop => assoc_set prop (JStr (getPropertyValue computed prop)) o)
          (listed computed) []).

(** [Array.from(el.attributes).reduce((attrs, attr) => ..., {})]: the
    names are the page's, so the assignments are [own_set]. *)
Definition attributes (el : Handle) : JValue :=
  JObj (fold_left (fun attrs attr => own_set (fst attr) (JStr (snd attr)) attrs)
          (el_attributes (h_info el)) []).

(** [s ? s.trim().substring(0, n) : null].  For ASCII text, which has one
    byte per character and no white space but the six characters of
    [is_space], [trim] and [substring] are those of JavaScript. *)
Definition text_excerpt (n : nat) (s : string) : JValue :=
  if truthy s then JStr (substring 0 n (trim s)) else JNull.

(** The record pushed for [el] at position [index]. *)
Definition element_record (d : Snapshot) (index : nat) (el : Handle) : JValue :=
  obj [("index", JNat index);
       ("tagName", JStr (toLowerCase (tagName el)));
       ("id", str_or_null (el_id el));
       ("classes", strings (class_list el));
       ("textContent", text_excerpt 200 (textContent el));
       ("geometry", geometry (getBoundingClientRect el));
       ("cssStyles", cssStyles (getComputedStyle el));
       ("selector", JStr (generateSelector d el));
       ("parentIndex",
         match parentElement el with
         | Some p => JNum (indexOf (all_elements d) p)
         | None => JNull
         end);
       ("childCount", JNat (length (children el)));
       ("attributes", attributes el)].

Definition collectElementData_page (d : Snapshot) : list JValue :=
  imap (element_record d) (all_elements d).

(* ===================================================================== *)
(** * collectLayoutStructure (lines 263-312) *)
(* ===================================================================== *)

(** [document.querySelector(tag) || document.querySelector('[role="r"]')]. *)
Definition landmark (d : Snapshot) (tag role : string) : Res (option Handle) :=
  (let* byTag := qs d tag in
   match byTag with
   | Some el => Ok (Some el)
   | None => qs d (attr_equals "role" role)
   end)%res.

(** The five entries of [sections], in the order of the literal. *)
Definition landmark_roles : list (string * (string * string)) :=
  [("header", ("header", "banner"));
   ("nav", ("nav", "navigation"));
   ("main", ("main", "main"));
   ("aside", ("aside", "complementary"));
   ("footer", ("footer", "contentinfo"))].

(** The value stored in [sectionInfo[key]].  The literal of the source
    writes the key [position] twice. *)
Definition section_info (element : option Handle) : JValue :=
  match element with
  | Some el =>
      let rect := getBoundingClientRect el in
      let computed := getComputedStyle el in
      obj [("exists", JBool true);
           ("dimensions", obj [("width", JNum (rect_width rect));
                               ("height", JNum (rect_height rect))]);
           ("position", obj [("x", JNum (rect_x rect));
                             ("y", JNum (rect_y rect))]);
           ("display", JStr (getPropertyValue computed "display"));
           ("position", JStr (getPropertyValue computed "position"))]
  | None => obj [("exists", JBool false)]
  end.

Fixpoint collect_sections (d : Snapshot)
    (roles : list (string * (string * string))) (sectionInfo : Fields)
  : Res Fields :=
  match roles with
  | [] => Ok sectionInfo
  | (key, (tag, role)) :: roles' =>
      (let* element := landmark d tag role in
       collect_sections d roles'
         (assoc_set key (section_info element) sectionInfo))%res
  end.

Definition collectLayoutStructure_page (d : Snapshot) : Res JValue :=
  (let* body := from_option "TypeError" (body d) in
   let* html := from_option "TypeError" (head (all_elements d)) in
   let* sectionInfo := collect_sections d landmark_roles [] in
   let* grid :=
     qsa d (attr_contains "style" "grid" +:+ ", " +:+ attr_contains "class" "grid") in
   let* flex :=
     qsa d (attr_contains "style" "flex" +:+ ", " +:+ attr_contains "class" "flex") in
   Ok (obj [("pageHeight",
              JNum (Z.max (scrollHeight (h_info body)) (scrollHeight (h_info html))));
            ("pageWidth",
              JNum (Z.max (scrollWidth (h_info body)) (scrollWidth (h_info html))));
            ("sections", JObj sectionInfo);
            ("layoutTypes", obj [("grid", JNat (length grid));
                                 ("flex", JNat (length flex))]);
            ("scrollable",
              JBool (innerHeight d <? scrollHeight (h_info body)))]))%res.

(* ===================================================================== *)
(** * identifyComponentPatterns (lines 367-422) *)
(* ===================================================================== *)

Definition componentSelectors : list string :=
  ["button"; attr_contains "class" "button"; attr_contains "class" "btn";
   "card"; attr_contains "class" "card";
   attr_contains "class" "nav"; "nav li";
   attr_contains "class" "modal"; attr_contains "class" "dialog";
   attr_contains "class" "form"; "form";
   attr_contains "class" "header"; attr_contains "class" "footer";
   attr_contains "class" "item"; attr_contains "class" "component"].

(** The character class of the first [replace]: the two square brackets,
    the double quote, the star and the equals sign. *)
Definition is_bracket_char (c : ascii) : bool :=
  Ascii.eqb c "[" || Ascii.eqb c "]" || Ascii.eqb c dquote
  || Ascii.eqb c "*" || Ascii.eqb c "=".

(** The two [replace] calls that turn a selector into its name: every
    character of the class is deleted, then the first [class]. *)
Definition componentName (selector : string) : string :=
  delete_first "class" (delete_chars is_bracket_char selector).

(** One entry of [variations]. *)
Definition variation (index : nat) (el : Handle) : JValue :=
  let rect := getBoundingClientRect el in
  let computed := getComputedStyle el in
  obj [("index", JNat index);
       ("classes",
         match className el with
         | Some cn => if truthy cn then strings (split " " cn) else JArr []
         | None => JArr []
         end);
       ("dimensions", obj [("width", JNum (rect_width rect));
                           ("height", JNum (rect_height rect))]);
       ("textContent", text_excerpt 50 (textContent el));
       ("backgroundColor", JStr (getPropertyValue computed "background-color"));
       ("color", JStr (getPropertyValue computed "color"))].

(** The value stored in the map for a selector and its matches. *)
Definition pattern_data (selector : string) (elements : list Handle) : Fields :=
  literal [("selector", JStr selector);
           ("count", JNat (length elements));
           ("variations", JArr (imap variation elements))].

Section Recognizer.

(** The selector engine of the page under analysis: [None] when
    [document.querySelectorAll] throws on the selector. *)
Variable engine : string -> option (list Handle).

(** The body of [componentSelectors.forEach(selector => ...)], with its
    [try]/[catch]: a throwing selector leaves [components] as it is. *)
Definition pattern_step (components : list (string * Fields))
    (selector : string) : list (string * Fields) :=
  match engine selector with
  | Some elements =>
      if (1 <? length elements)%nat
      then assoc_set (componentName selector)
             (pattern_data selector elements) components
      else components
  | None => components
  end.

Definition components_of (catalog : list string) : list (string * Fields) :=
  fold_left pattern_step catalog [].

(** [({ name, ...data })]. *)
Definition pattern_entry (entry : string * Fields) : JValue :=
  JObj (fold_left (fun o kv => assoc_set (fst kv) (snd kv) o) (snd entry)
          [("name", JStr (fst entry))]).

(** The page code of [identifyComponentPatterns] for a given catalog. *)
Definition patterns_of (catalog : list string) : list JValue :=
  map pattern_entry (components_of catalog).

(** No entry of [post] that shares the name [n] produces a pattern: on
    each of them the engine throws or finds at most one element. *)
Definition silent (n : string) (post : list string) : Prop :=
  forall s' els', s' ∈ post -> componentName s' = n ->
                  engine s' = Some els' -> (length els' <= 1)%nat.

End Recognizer.

Definition identifyComponentPatterns_page (d : Snapshot) : list JValue :=
  patterns_of (querySelectorAll d) componentSelectors.

(* ===================================================================== *)
(** * collectMetadata and collectPerformanceMetrics (lines 78-125) *)
(* ===================================================================== *)

(** A viewport object: [{ width, height }], or [{ name, width, height }]
    in the responsive pass. *)
Record Viewport : Type := mkViewport {
  vp_name : option string;
  vp_width : Z;
  vp_height : Z
}.

Definition viewport_value (viewport : Viewport) : JValue :=
  match vp_name viewport with
  | Some name => obj [("name", JStr name);
                      ("width", JNum (vp_width viewport));
                      ("height", JNum (vp_height viewport))]
  | None => obj [("width", JNum (vp_width viewport));
                 ("height", JNum (vp_height viewport))]
  end.

(** [getDepth(element, depth)]: [maxDepth] after the call.  Only element
    children are visited. *)
Fixpoint getDepth (element : Node) (depth maxDepth : nat) : nat :=
  match element with
  | TextNode _ => maxDepth
  | ElementNode _ kids =>
      (fix each (ks : list Node) (m : nat) : nat :=
         match ks with
         | [] => m
         | k :: ks' => each ks' (getDepth k (S depth) m)
         end) kids (Nat.max maxDepth depth)
  end.

(** The page code of the second call of [collectMetadata]:
    [getDepth(document.body)], which throws when there is no body. *)
Definition domDepth_page (d : Snapshot) : Res nat :=
  (let* b := from_option "TypeError" (body d) in
   Ok (getDepth (ElementNode (h_info b) (h_kids b)) 0 0))%res.

(** [page.$eval('meta[name=description]', el => el.content)] on the
    document the call finds. *)
Definition description (d : Snapshot) : JValue :=
  match querySelector d ("meta" +:+ attr_equals "name" "description") with
  | Some (Some el) => JStr (attr_or_empty el "content")
  | _ => JNull
  end.

(** The object assigned to [this.analysisData.metadata]: two calls for
    the element count and the depth, then the literal, whose fields are
    evaluated in order, with a call each for the user agent, the title and
    the description.  Only the last has a [catch], which turns every
    failure into [null]. *)
Definition collectMetadata_page (url : string) (viewport : Viewport) (loadTime : Z)
    (p : Page) : Res JValue :=
  (let* counted := at_call p call_elementCount in
   let elementCount := length (all_elements counted) in
   let* measured := at_call p call_domDepth in
   let* domDepth := domDepth_page measured in
   let* agent := at_call p call_userAgent in
   let* titled := at_call p call_title in
   Ok (obj [("url", JStr url);
            ("timestamp", JStr (metadata_time p));
            ("viewport", viewport_value viewport);
            ("loadTime", JNum loadTime);
            ("elementCount", JNat elementCount);
            ("domDepth", JNat domDepth);
            ("userAgent", JStr (userAgent agent));
            ("title", JStr (page_title titled));
            ("description",
              match at_call p call_description with
              | Ok described => description described
              | Throw _ => JNull
              end)]))%res.

(** [o.k = v] on a value held in a field. *)
Definition set_property (k : string) (v : JValue) (o : JValue) : JValue :=
  match o with
  | JObj fs => JObj (assoc_set k v fs)
  | other => other
  end.

(* ===================================================================== *)
(** * The analyzer object and the world around it *)
(* ===================================================================== *)

(** [this.analysisData].  The token sets are kept as arrays, the form in
    which [saveResults] writes them. *)
Record AnalysisData : Type := mkData {
  metadata : JValue;
  designTokens : JValue;
  layout : JValue;
  elements : list JValue;
  assets : JValue;
  componentPatterns : list JValue;
  responsive : JValue
}.

Definition initial_data : AnalysisData :=
  {| metadata := obj [];
     designTokens := obj [("colors", JArr []); ("fonts", JArr []);
                          ("spacing", JArr []); ("borderRadius", JArr []);
                          ("boxShadows", JArr []); ("gradients", JArr [])];
     layout := obj [];
     elements := [];
     assets := obj [("images", JArr []); ("fonts", JArr []);
                    ("stylesheets", JArr []); ("scripts", JArr []);
                    ("backgroundImages", JArr [])];
     componentPatterns := [];
     responsive := obj [] |}.

(** The state a run acts on: the browser process, the browsing contexts
    that are open, the number of contexts created and of navigations made
    so far, the console, the files written to disk, each with its path
    and the document in it, the exit code once the process has ended, and
    the analyzer's [analysisData]. *)
Record World : Type := mkWorld {
  browser_running : bool;
  contexts : list nat;
  contexts_created : nat;
  navigations : nat;
  console : list string;
  written : list (string * JValue);
  exit_code : option Z;
  data : AnalysisData
}.

Definition initial_world : World :=
  mkWorld false [] 0 0 [] [] None initial_data.

(** An [async] method: it runs in a world and either returns or throws. *)
Definition M (A : Type) : Type := World -> Res A * World.

Definition ret {A : Type} (a : A) : M A := fun w => (Ok a, w).
Definition throw {A : Type} (message : string) : M A :=
  fun w => (Throw message, w).
Definition bind {A B : Type} (m : M A) (k : A -> M B) : M B :=
  fun w => match m w with
           | (Ok a, w') => k a w'
           | (Throw e, w') => (Throw e, w')
           end.

Declare Scope m_scope.
Delimit Scope m_scope with M.
Notation "x <- m ;; k" := (bind m (fun x => k))
  (at level 100, m at next level, right associativity) : m_scope.
Notation "m ;; k" := (bind m (fun _ => k))
  (at level 100, right associativity) : m_scope.

(** [try { body } catch (error) { handler(error) }]. *)
Definition try_catch {A : Type} (body : M A) (handler : string -> M A) : M A :=
  fun w => match body w with
           | (Ok a, w') => (Ok a, w')
           | (Throw e, w') => handler e w'
           end.

(** [try { body } finally { finalizer }]: the finalizer runs on both
    paths, and the outcome of the body stands unless the finalizer
    throws. *)
Definition try_finally {A : Type} (body : M A) (finalizer : M unit) : M A :=
  fun w => match body w with
           | (r, w') =>
               match finalizer w' with
               | (Ok _, w'') => (r, w'')
               | (Throw e, w'') => (Throw e, w'')
               end
           end.

Definition lift {A : Type} (r : Res A) : M A := fun w => (r, w).

(** The ways a step changes the world, one field at a time. *)
Definition say (message : string) (w : World) : World :=
  mkWorld (browser_running w) (contexts w) (contexts_created w)
    (navigations w) (console w ++ [message]) (written w) (exit_code w)
    (data w).

Definition store (f : AnalysisData -> AnalysisData) (w : World) : World :=
  mkWorld (browser_running w) (contexts w) (contexts_created w)
    (navigations w) (console w) (written w) (exit_code w) (f (data w)).

Definition open_context (w : World) : World :=
  mkWorld (browser_running w) (contexts w ++ [contexts_created w])
    (S (contexts_created w)) (navigations w) (console w) (written w)
    (exit_code w) (data w).

Definition close_context (c : nat) (w : World) : World :=
  mkWorld (browser_running w) (filter (fun c' => c' <> c) (contexts w))
    (contexts_created w) (navigations w) (console w) (written w)
    (exit_code w) (data w).

Definition count_navigation (w : World) : World :=
  mkWorld (browser_running w) (contexts w) (contexts_created w)
    (S (navigations w)) (console w) (written w) (exit_code w) (data w).

Definition write_document (path : string) (document : JValue) (w : World)
  : World :=
  mkWorld (browser_running w) (contexts w) (contexts_created w)
    (navigations w) (console w) (written w ++ [(path, document)])
    (exit_code w) (data w).

Definition set_browser (running : bool) (w : World) : World :=
  mkWorld running (contexts w) (contexts_created w) (navigations w)
    (console w) (written w) (exit_code w) (data w).

Definition end_process (code : Z) (w : World) : World :=
  mkWorld (browser_running w) (contexts w) (contexts_created w)
    (navigations w) (console w) (written w) (Some code) (data w).

Definition update (f : AnalysisData -> AnalysisData) : M unit :=
  fun w => (Ok tt, store f w).

Definition read : M AnalysisData := fun w => (Ok (data w), w).

(** [this.log(message)]; the time stamp in front of each line is left
    out. *)
Definition log (message : string) : M unit :=
  fun w => (Ok tt, say message w).

(** [this.browser.newContext({ viewport })]: a new context, open. *)
Definition newContext : M nat :=
  fun w => (Ok (contexts_created w), open_context w).

(** [context.close()]. *)
Definition closeContext (c : nat) : M unit :=
  fun w => (Ok tt, close_context c w).

Definition desktop : Viewport := mkViewport None 1920 1080.

Definition viewports : list Viewport :=
  [mkViewport (Some "mobile") 375 667;
   mkViewport (Some "tablet") 768 1024;
   mkViewport (Some "desktop") 1920 1080].

(* ===================================================================== *)
(** * collectAssets: the background images (lines 345-359) *)
(* ===================================================================== *)

(** The two quote characters of the class of the pattern. *)
Definition is_quote (c : ascii) : bool :=
  Ascii.eqb c dquote || Ascii.eqb c "'".

(** The negated class of the group: any character but a quote and the
    closing parenthesis. *)
Definition url_char (c : ascii) : bool :=
  negb (is_quote c || Ascii.eqb c ")").

(** The optional quote: greedy, so a quote that is there is taken. *)
Definition skip_quote (s : string) : string :=
  match s with
  | String c s' => if is_quote c then s' else s
  | EmptyString => s
  end.

(** The group: the longest run of [url_char]s, and what follows it. *)
Fixpoint url_run (s : string) : string * string :=
  match s with
  | String c s' =>
      if url_char c
      then let (r, rest) := url_run s' in (String c r, rest)
      else ("", s)
  | EmptyString => ("", "")
  end.

(** The pattern behind [url(] at one position.  Backtracking finds
    nothing the greedy reading misses: a run cut short is followed by a
    [url_char], which is neither a quote nor the parenthesis, and a quote
    left to the group or to the parenthesis matches neither. *)
Definition match_after (s : string) : option string :=
  let (r, rest) := url_run (skip_quote s) in
  if truthy r then
    match skip_quote rest with
    | String c _ => if Ascii.eqb c ")" then Some r else None
    | EmptyString => None
    end
  else None.

(** [bgImage.match(/url\(...\)/)]: group 1 of the leftmost match, [None]
    for [null]. *)
Fixpoint match_url (s : string) : option string :=
  match (if String.prefix "url(" s then match_after (drop_chars 4 s)
         else None) with
  | Some u => Some u
  | None =>
      match s with
      | String _ s' => match_url s'
      | EmptyString => None
      end
  end.

(** The [selector] of a background image: the id, else a dot and what
    stands before the first space of the class name, else the tag. *)
Definition background_selector (el : Handle) : string :=
  if truthy (el_id el) then "#" +:+ el_id el
  else match className el with
       | Some cn =>
           if truthy cn then "." +:+ nth 0 (split " " cn) "undefined"
           else toLowerCase (tagName el)
       | None => toLowerCase (tagName el)
       end.

Definition background_record (el : Handle) (url : string) : JValue :=
  obj [("url", JStr url);
       ("element", JStr (toLowerCase (tagName el)));
       ("selector", JStr (background_selector el))].

(** The body of [document.querySelectorAll('*').forEach(el => ...)]. *)
Definition background_step (backgroundImages : list JValue) (el : Handle)
  : list JValue :=
  let computed := getComputedStyle el in
  let bgImage := getPropertyValue computed "background-image" in
  if truthy bgImage && negb (bgImage =? "none")%string
     && includes bgImage "url("
  then match match_url bgImage with
       | Some url => (backgroundImages ++ [background_record el url])%list
       | None => backgroundImages
       end
  else backgroundImages.

Definition backgroundImages_page (d : Snapshot) : list JValue :=
  fold_left background_step (all_elements d) [].

(* ===================================================================== *)
(** * saveResults: the default file name (lines 451-463) *)
(* ===================================================================== *)

(** [s.replace(/[...]/g, by)] for a class of single characters. *)
Fixpoint replace_chars (cls : ascii -> bool) (by_char : ascii) (s : string)
  : string :=
  match s with
  | EmptyString => EmptyString
  | String c s' =>
      String (if cls c then by_char else c) (replace_chars cls by_char s')
  end.

Definition is_dot (c : ascii) : bool := Ascii.eqb c ".".

Definition is_colon_or_dot (c : ascii) : bool :=
  Ascii.eqb c ":" || Ascii.eqb c ".".

(** The last component of [filename], for the host name of the analysed
    URL and the time as an ISO string. *)
Definition default_filename (domain iso : string) : string :=
  replace_chars is_dot "_" domain +:+ "_analysis_"
  +:+ replace_chars is_colon_or_dot "-" iso +:+ ".json".

(* ===================================================================== *)
(** * The methods of WebsiteAnalyzer

    A method [f] that evaluates code in the page hands the function
    [f_page] above to [page.evaluate] and stores what comes back. *)
(* ===================================================================== *)

Definition with_metadata (v : JValue) (a : AnalysisData) : AnalysisData :=
  mkData v (designTokens a) (layout a) (elements a) (assets a)
    (componentPatterns a) (responsive a).
Definition with_designTokens (v : JValue) (a : AnalysisData) : AnalysisData :=
  mkData (metadata a) v (layout a) (elements a) (assets a)
    (componentPatterns a) (responsive a).
Definition with_layout (v : JValue) (a : AnalysisData) : AnalysisData :=
  mkData (metadata a) (designTokens a) v (elements a) (assets a)
    (componentPatterns a) (responsive a).
Definition with_elements (v : list JValue) (a : AnalysisData) : AnalysisData :=
  mkData (metadata a) (designTokens a) (layout a) v (assets a)
    (componentPatterns a) (responsive a).
Definition with_assets (v : JValue) (a : AnalysisData) : AnalysisData :=
  mkData (metadata a) (designTokens a) (layout a) (elements a) v
    (componentPatterns a) (responsive a).
Definition with_componentPatterns (v : list JValue) (a : AnalysisData)
  : AnalysisData :=
  mkData (metadata a) (designTokens a) (layout a) (elements a) (assets a)
    v (responsive a).
Definition with_responsive (v : JValue) (a : AnalysisData) : AnalysisData :=
  mkData (metadata a) (designTokens a) (layout a) (elements a) (assets a)
    (componentPatterns a) v.

(** [this.browser = await chromium.launch(...)]. *)
Definition initialize : M unit :=
  (log "Initializing Playwright browser...";;
   fun w => (Ok tt, set_browser true w))%M.

(** [if (this.browser) await this.browser.close()]. *)
Definition close : M unit :=
  fun w => (Ok tt, set_browser false w).

Definition collectMetadata (url : string) (viewport : Viewport) (loadTime : Z)
    (p : Page) : M unit :=
  (log "Collecting metadata...";;
   m <- lift (collectMetadata_page url viewport loadTime p);;
   update (with_metadata m))%M.

(** [this.analysisData.metadata.performance = metrics]. *)
Definition collectPerformanceMetrics (p : Page) : M unit :=
  (log "Collecting performance metrics...";;
   d <- lift (at_call p call_performance);;
   update (fun a =>
     with_metadata (set_property "performance" (performance_metrics d)
                      (metadata a)) a))%M.

Definition collectDesignTokens (p : Page) : M unit :=
  (log "Extracting design tokens...";;
   d <- lift (at_call p call_designTokens);;
   update (with_designTokens (collectDesignTokens_page d)))%M.

Definition collectElementData (p : Page) : M unit :=
  (log "Collecting detailed element data...";;
   d <- lift (at_call p call_elementData);;
   update (with_elements (collectElementData_page d)))%M.

Definition collectLayoutStructure (p : Page) : M unit :=
  (log "Analyzing layout structure...";;
   d <- lift (at_call p call_layout);;
   l <- lift (collectLayoutStructure_page d);;
   update (with_layout l))%M.

Definition identifyComponentPatterns (p : Page) : M unit :=
  (log "Identifying component patterns...";;
   d <- lift (at_call p call_patterns);;
   update (with_componentPatterns (identifyComponentPatterns_page d)))%M.

(** The document [saveResults] writes: [analysisData] as JSON. *)
Definition document_of (a : AnalysisData) : JValue :=
  obj [("metadata", metadata a);
       ("designTokens", designTokens a);
       ("layout", layout a);
       ("elements", JArr (elements a));
       ("assets", assets a);
       ("componentPatterns", JArr (componentPatterns a));
       ("responsive", responsive a)].

(** What [saveResults] asks of the machine the analyzer runs on:
    [new URL(url).hostname], which throws for a string that is no URL;
    the absolute path of a file name in the directory of a host name,
    [path.resolve(path.join(__dirname, '..', 'web-output', domain, name))];
    the error, if any, with which creating that directory or writing that
    file fails; and the reading of the clock, [new Date().toISOString()],
    when the file name is made. *)
Record Host : Type := mkHost {
  hostname : string -> Res string;
  output_path : string -> string -> string;
  write_error : string -> option string;
  save_time : string
}.

(** A line feed. *)
Definition newline : string := String (ascii_of_nat 10) EmptyString.

Section Pipeline.

(** The web as a run meets it: what the n-th navigation of the run
    comes to, a loaded page or the error [page.goto] throws (a timeout
    after 60000 ms, an unreachable host). *)
Variable web : nat -> string -> Viewport -> Res Page.

(** The images, style sheets and scripts of [collectAssets] (lines
    318-342), in this order.  They are read from properties of the
    browser that the element model above does not carry. *)
Variable media : Snapshot -> JValue * JValue * JValue.

Variable host : Host.

(** [await this.page.goto(url, { waitUntil: 'domcontentloaded', timeout: 60000 })]. *)
Definition goto (url : string) (viewport : Viewport) : M Page :=
  fun w => (web (navigations w) url viewport, count_navigation w).

(** The object the page code of [collectAssets] returns. *)
Definition collectAssets_page (d : Snapshot) : JValue :=
  let '(images, stylesheets, scripts) := media d in
  obj [("images", images);
       ("stylesheets", stylesheets);
       ("scripts", scripts);
       ("backgroundImages", JArr (backgroundImages_page d));
       ("fonts", JArr [])].

Definition collectAssets (p : Page) : M unit :=
  (log "Collecting asset inventory...";;
   d <- lift (at_call p call_assets);;
   update (with_assets (collectAssets_page d)))%M.

(** [analyzePage(url, viewport)].  [context.newPage()] and the
    pass-through [page.route] change nothing the world records. *)
Definition analyzePage (url : string) (viewport : Viewport) : M unit :=
  (log ("Analyzing " +:+ url +:+ " at " +:+ pretty (vp_width viewport)
        +:+ "x" +:+ pretty (vp_height viewport));;
   context <- newContext;;
   try_finally
     (try_catch
        (p <- goto url viewport;;
         log "Page loaded, starting analysis...";;
         collectMetadata url viewport (load_time p) p;;
         collectPerformanceMetrics p;;
         collectDesignTokens p;;
         collectElementData p;;
         collectLayoutStructure p;;
         collectAssets p;;
         identifyComponentPatterns p)
        (fun error =>
           log ("Error analyzing page: " +:+ error);;
           throw error))
     (closeContext context))%M.

(** [viewport.name] used as a property key. *)
Definition name_key (viewport : Viewport) : string :=
  match vp_name viewport with
  | Some name => name
  | None => "undefined"
  end.

(** The [for (const viewport of viewports)] loop of [analyzeResponsive],
    threading [responsiveData]. *)
Fixpoint responsive_loop (url : string) (vps : list Viewport)
    (responsiveData : Fields) : M Fields :=
  match vps with
  | [] => ret responsiveData
  | viewport :: rest =>
      (log ("Testing " +:+ name_key viewport +:+ " viewport...");;
       analyzePage url viewport;;
       a <- read;;
       responsive_loop url rest
         (assoc_set (name_key viewport)
            (obj [("viewport", viewport_value viewport);
                  ("elementCount", JNat (length (elements a)));
                  ("layoutStructure", layout a);
                  ("designTokens", designTokens a)])
            responsiveData))%M
  end.

Definition analyzeResponsive (url : string) : M unit :=
  (log "Analyzing responsive behavior...";;
   responsiveData <- responsive_loop url viewports [];;
   update (with_responsive (JObj responsiveData)))%M.

(** [String(this.analysisData.metadata.url)], the argument of [new URL]. *)
Definition metadata_url (a : AnalysisData) : string :=
  match get "url" (metadata a) with
  | Some (JStr url) => url
  | _ => "undefined"
  end.

(** [saveResults()], called without a file name: the document goes to a
    file named after the host and the time, and the path of that file is
    returned. *)
Definition saveResults : M string :=
  (a <- read;;
   domain <- lift (hostname host (metadata_url a));;
   let outputPath :=
     output_path host domain (default_filename domain (save_time host)) in
   match write_error host outputPath with
   | Some error => throw error
   | None =>
       (fun w => (Ok tt, write_document outputPath (document_of a) w));;
       log ("Analysis saved to: " +:+ outputPath);;
       ret outputPath
   end)%M.

(** The [try] block of [main]. *)
Definition main_try (url : string) : M unit :=
  (initialize;;
   analyzePage url desktop;;
   analyzeResponsive url;;
   outputFile <- saveResults;;
   log (newline +:+ "Analysis complete! Results saved to: " +:+ outputFile))%M.

(** [main()], for [process.argv[2]].  [process.exit(1)] in the [catch]
    ends the process there; the [finally] is reached on the path without
    an error. *)
Definition main (argv2 : option string) (w : World) : World :=
  match argv2 with
  | Some url =>
      if truthy url then
        match main_try url w with
        | (Ok _, w') => snd (close w')
        | (Throw message, w') =>
            end_process 1 (snd (log ("Analysis failed: " +:+ message) w'))
        end
      else end_process 1 (snd (log "Usage: node website-analyzer.js <URL>" w))
  | None => end_process 1 (snd (log "Usage: node website-analyzer.js <URL>" w))
  end.

End Pipeline.

(** A page on which a run can be completed: every call the run needs
    goes through, and the documents found by the depth call and by the
    layout call have a body.  The description call may fail. *)
Definition serves (p : Page) : Prop :=
  (forall k, (k <= call_patterns)%nat -> k <> call_description ->
             exists d, at_call p k = Ok d)
  /\ (forall d, at_call p call_domDepth = Ok d -> is_Some (body d))
  /\ (forall d, at_call p call_layout = Ok d -> is_Some (body d)).

(** Of the runs over [vps] that start at navigation [n], those before the
    [k]-th each load a page on which the run can be completed. *)
Definition earlier_load (web : nat -> string -> Viewport -> Res Page)
    (url : string) (vps : list Viewport) (n k : nat) : Prop :=
  forall j vp, (j < k)%nat -> vps !! j = Some vp ->
               exists p, web (n + j)%nat url vp = Ok p /\ serves p.

(* ===================================================================== *)
(** * Token sets, value by value *)
(* ===================================================================== *)

(** [cond(x) && set.add(x)], the shape of every token rule. *)
Definition add_when (q : string -> bool) (s : list string) (x : string)
  : list string :=
  if q x then set_add x s else s.

(** Adding a list of values to a set, one after the other. *)
Definition absorb (xs : list string) (s : list string) : list string :=
  fold_left (fun s x => set_add x s) xs s.

(** A computed value of an element. *)
Definition style (el : Handle) (property : string) : string :=
  getPropertyValue (getComputedStyle el) property.

Definition color_ok (c : string) : bool :=
  truthy c && negb (c =? transparent)%string.
Definition length_ok (v : string) : bool :=
  truthy v && negb (v =? "0px")%string.
Definition shadow_ok (v : string) : bool :=
  truthy v && negb (v =? "none")%string.
Definition gradient_ok (v : string) : bool :=
  truthy v && includes v "gradient".

(** The values one element contributes to each set. *)
Definition color_values (el : Handle) : list string :=
  List.filter color_ok
    [style el "color"; style el "background-color"; style el "border-color"].
Definition font_values (el : Handle) : list string :=
  if truthy (style el "font-family")
  then [style el "font-family" +:+ " " +:+ style el "font-weight"] else [].
Definition spacing_values (el : Handle) : list string :=
  List.filter length_ok
    [style el "margin-top"; style el "margin-right";
     style el "margin-bottom"; style el "margin-left";
     style el "padding-top"; style el "padding-right";
     style el "padding-bottom"; style el "padding-left"].
Definition radius_values (el : Handle) : list string :=
  List.filter length_ok [style el "border-radius"].
Definition shadow_values (el : Handle) : list string :=
  List.filter shadow_ok [style el "box-shadow"].
Definition gradient_values (el : Handle) : list string :=
  List.filter gradient_ok [style el "background-image"].

(** The number of times [v] occurs in [l]. *)
Definition occurrences (v : string) (l : list string) : nat :=
  length (filter (fun x => x = v) l).

(** [l] holds the values that satisfy [q], each exactly once, and nothing
    else. *)
Definition holds_once (l : list string) (q : string -> Prop) : Prop :=
  forall v, (q v -> occurrences v l = 1%nat) /\ (~ q v -> occurrences v l = 0%nat).

(** Some element of the page satisfies [P]. *)
Definition found_on (d : Snapshot) (P : Handle -> Prop) : Prop :=
  exists el, el ∈ all_elements d /\ P el.

(** The value stored in [responsiveData] for a viewport, from the
    element records, the layout and the design tokens of its run. *)
Definition responsive_entry (viewport : Viewport) (elements : list JValue)
    (l tokens : JValue) : JValue :=
  obj [("viewport", viewport_value viewport);
       ("elementCount", JNat (length elements));
       ("layoutStructure", l);
       ("designTokens", tokens)].

(** The node reached from [n] by following child positions. *)
Fixpoint node_at (n : Node) (path : list nat) : option Node :=
  match path with
  | [] => Some n
  | i :: rest =>
      match n with
      | ElementNode _ kids =>
          match kids !! i with
          | Some k => node_at k rest
          | None => None
          end
      | TextNode _ => None
      end
  end.

(** The selector as the specification words it: the walk towards the
    root stops at the first element that has an id and puts that
    element's [#id] in front. *)
Fixpoint claimed_walk (element : Handle) (path : list string) {struct element}
  : list string :=
  match element with
  | mkHandle _ _ _ parent =>
      if truthy (el_id element) then ("#" +:+ el_id element) :: path
      else match parent with
           | Some p => claimed_walk p (selector_step element :: path)
           | None => selector_step element :: path
           end
  end.

Definition claimed_selector (d : Snapshot) (element : Handle) : string :=
  if truthy (el_id element) then "#" +:+ el_id element
  else if is_body d element then "body"
  else join " > " (claimed_walk element []).

(* ===================================================================== *)
(** * Reading selectors off the tree *)
(* ===================================================================== *)

(** The element's tag, lowercased, is [t]. *)
Definition has_tag (t : string) (h : Handle) : bool :=
  (toLowerCase (tagName h) =? t)%string.

(** The element has a [class] attribute in which [v] occurs. *)
Definition class_mentions (v : string) (h : Handle) : bool :=
  match getAttribute h "class" with
  | Some a => includes a v
  | None => false
  end.

(* ===================================================================== *)
(** * Pages used as examples *)
(* ===================================================================== *)

Definition box (x y width height : Z) : Rect :=
  mkRect x y width height y (x + width) (y + height) x.

Definition plain_style : Style :=
  mkStyle ["color"; "background-color"; "display"; "position"]
    [("color", "rgb(0, 0, 0)");
     ("background-color", "rgba(0, 0, 0, 0)");
     ("display", "block");
     ("position", "static")].

Definition element (tag : string) (attrs : list (string * string))
    (kids : list Node) : Node :=
  ElementNode (mkElem tag attrs false (box 0 0 100 20) plain_style 100 20) kids.

Definition page (root : Node) : Snapshot :=
  mkSnapshot root "Example" "Mozilla/5.0" 600 JNull.

(** One [<button class="btn">] and one [<button class="btn secondary">]. *)
Definition two_buttons : Snapshot :=
  page (element "HTML" []
          [element "HEAD" [] [];
           element "BODY" []
             [element "BUTTON" [("class", "btn")] [TextNode "Go"];
              element "BUTTON" [("class", "btn secondary")] [TextNode "More"]]]).

(** Two [<button class="button">]: the selectors [button] and
    [[class*="button"]] both match twice. *)
Definition two_button_classes : Snapshot :=
  page (element "HTML" []
          [element "HEAD" [] [];
           element "BODY" []
             [element "BUTTON" [("class", "button")] [TextNode "Yes"];
              element "BUTTON" [("class", "button")] [TextNode "No"]]]).

(** A paragraph inside [<div id="a">], and a [<header>] placed at (5, 7). *)
Definition nested_in_id : Snapshot :=
  page (element "HTML" []
          [element "HEAD" [] [];
           element "BODY" []
             [ElementNode
                (mkElem "HEADER" [] false (box 5 7 300 40) plain_style 300 40) [];
              element "DIV" [("id", "a")] [element "P" [] [TextNode "text"]]]]).

(** An element whose attribute names include array indices. *)
Definition numbered_attributes : Snapshot :=
  page (element "HTML" []
          [element "HEAD" [] [];
           element "BODY"
             [("data-x", "a"); ("2", "b"); ("1", "c"); ("title", "d")] []]).

(** The element at position [i] of the document order of [d]. *)
Definition element_at (d : Snapshot) (i : nat) : Handle :=
  nth i (all_elements d)
    (mkHandle [] (mkElem "" [] false (box 0 0 0 0) (mkStyle [] []) 0 0) []
       None).

(** A page whose document stays as it is, and one whose document is
    [before] for the calls ahead of the [n]-th and [after] from there
    on. *)
Definition still (d : Snapshot) : Page :=
  mkPage 12 "2024-01-01T00:00:00.000Z" (fun _ => Ok d).

Definition changing (n : nat) (before after : Snapshot) : Page :=
  mkPage 12 "2024-01-01T00:00:00.000Z"
    (fun k => if (k <? n)%nat then Ok before else Ok after).

(** A page that goes away before the [n]-th call. *)
Definition lost_at (n : nat) (d : Snapshot) : Page :=
  mkPage 12 "2024-01-01T00:00:00.000Z"
    (fun k => if (k <? n)%nat then Ok d
              else Throw "Execution context was destroyed").

(** A web on which every navigation loads the given page, and one on
    which no host can be reached. *)
Definition web_serving (p : Page) : nat -> string -> Viewport -> Res Page :=
  fun _ _ _ => Ok p.

Definition web_down : nat -> string -> Viewport -> Res Page :=
  fun _ _ _ => Throw "net::ERR_NAME_NOT_RESOLVED".

Definition no_media : Snapshot -> JValue * JValue * JValue :=
  fun _ => (JArr [], JArr [], JArr []).

Definition example_url : string := "http://example.test/".

(** A machine on which every URL has the host name [example.test], the
    output directory is [/out] and every write goes through. *)
Definition example_host : Host :=
  mkHost (fun _ => Ok "example.test")
    (fun domain name => "/out/" +:+ domain +:+ "/" +:+ name)
    (fun _ => None)
    "2024-01-01T00:00:01.000Z".

(** The world after one desktop run on [two_buttons]. *)
Definition after_one_run : World :=
  snd (analyzePage (web_serving (still two_buttons)) no_media example_url
         desktop initial_world).

(** A document whose root has a [frameset] in the place of a body. *)
Definition framed : Snapshot :=
  page (element "HTML" []
          [element "HEAD" [] [];
           element "FRAMESET" [] [element "FRAME" [] []]]).

(** A catalog whose second entry is not a selector. *)
Definition broken_catalog : list string :=
  ["button"; "[class*="; attr_contains "class" "btn"].

(* ===================================================================== *)
(** * What the other parts of the analyzer compute *)
(* ===================================================================== *)

(** The characters of a string. *)
Definition chars (s : string) : list ascii := list_ascii_of_string s.

(** How deep elements nest below an element: 0 for an element without
    element children.  Text nodes do not count. *)
Fixpoint nesting (n : Node) : nat :=
  match n with
  | TextNode _ => 0%nat
  | ElementNode _ kids =>
      (fix deepest (ks : list Node) : nat :=
         match ks with
         | [] => 0%nat
         | TextNode _ :: ks' => deepest ks'
         | (ElementNode _ _ as k) :: ks' => Nat.max (S (nesting k)) (deepest ks')
         end) kids
  end.

(** The same over a list of child nodes. *)
Fixpoint deepest (ks : list Node) : nat :=
  match ks with
  | [] => 0%nat
  | TextNode _ :: ks' => deepest ks'
  | (ElementNode _ _ as k) :: ks' => Nat.max (S (nesting k)) (deepest ks')
  end.

(** The loop over the children inside [getDepth]. *)
Fixpoint getDepth_each (ks : list Node) (depth m : nat) : nat :=
  match ks with
  | [] => m
  | k :: ks' => getDepth_each ks' depth (getDepth k (S depth) m)
  end.

Definition is_element (n : Node) : bool :=
  match n with
  | ElementNode _ _ => true
  | TextNode _ => false
  end.



(** The class tokens as [variation] takes them: the pieces of the split,
    empty ones included. *)
Definition raw_classes (el : Handle) : list string :=
  match className el with
  | Some cn => if truthy cn then split " " cn else []
  | None => []
  end.

(** The values of a list in the order of their first occurrence. *)
Definition first_occurrences (l : list string) : list string :=
  rev (remove_dups (rev l)).

(** The names a pattern can have: the sanitized catalog, each name
    once. *)
Definition pattern_names : list string :=
  remove_dups (map componentName componentSelectors).

(** In [l], every reference has [outer] as its parent or has its parent
    earlier in [l]. *)
Definition parents_first (outer : option Handle) (l : list Handle) : Prop :=
  forall i x, l !! i = Some x ->
    parentElement x = outer
    \/ exists j p, (j < i)%nat /\ l !! j = Some p /\ parentElement x = Some p.


(** The element has a [role] attribute with exactly this value. *)
Definition has_role (role : string) (h : Handle) : bool :=
  match getAttribute h "role" with
  | Some a => (a =? role)%string
  | None => false
  end.

(** The element has a [style] attribute in which [v] occurs. *)
Definition style_mentions (v : string) (h : Handle) : bool :=
  match getAttribute h "style" with
  | Some a => includes a v
  | None => false
  end.

(** The first element of the document, in document order, that passes a
    test. *)
Definition first_where (q : Handle -> bool) (d : Snapshot) : option Handle :=
  head (filter (fun h => q h = true) (all_elements d)).

(** The element a landmark resolves to: the first of the tag, and only
    when the document has none the first of the role. *)
Definition resolved (d : Snapshot) (tag role : string) : option Handle :=
  match first_where (has_tag tag) d with
  | Some el => Some el
  | None => first_where (has_role role) d
  end.

(** A [<div role="banner">] in front of a [<header>], and a
    [<div class="flexible" style="display: flex">]. *)
Definition role_before_tag : Snapshot :=
  page (element "HTML" []
          [element "HEAD" [] [];
           element "BODY" []
             [element "DIV" [("role", "banner")] [];
              element "HEADER" [] [];
              element "DIV" [("class", "flexible"); ("style", "display: flex")]
                []]]).

(** The URL recorded for an element, if any: the one the pattern finds
    in its computed background image, unless that is [none]. *)
Definition background_url (el : Handle) : option string :=
  if (style el "background-image" =? "none")%string then None
  else match_url (style el "background-image").

(** The records an element adds to [backgroundImages]. *)
Definition background_records (el : Handle) : list JValue :=
  match background_url el with
  | Some url =>
      [obj [("url", JStr url);
            ("element", JStr (toLowerCase (tagName el)));
            ("selector", JStr (background_selector el))]]
  | None => []
  end.

(** Nothing, or one quote of either kind. *)
Definition optional_quote (q : string) : Prop :=
  q = "" \/ q = "'" \/ q = dq.

(** A page whose body has a background image and an id. *)
Definition with_background : Snapshot :=
  page (element "HTML" []
          [element "HEAD" [] [];
           ElementNode
             (mkElem "BODY" [("id", "top")] false (box 0 0 100 20)
                (mkStyle ["background-image"]
                   [("background-image",
                      "url(" +:+ dq +:+ "/img/bg.png" +:+ dq +:+ ")")])
                100 20) []]).
(* ===================================================================== *)
(** * Facts about objects and maps *)
(* ===================================================================== *)

Lemma assoc_set_keys {V : Type} (k : string) (v : V) (o : list (string * V)) :
  assoc_keys (assoc_set k v o) =
  if bool_decide (k ∈ assoc_keys o) then assoc_keys o
  else (assoc_keys o ++ [k])%list.
Proof.
  induction o as [|[k' v'] o IH]; simpl; [done|].
  destruct (String.eqb_spec k' k) as [->|Hne].
  - rewrite bool_decide_true; [done|]. apply list_elem_of_here.
  - simpl. rewrite IH. unfold assoc_keys. simpl.
    destruct (decide (k ∈ map fst o)) as [Hin|Hnin].
    + rewrite !bool_decide_true; [done| |done].
      by apply list_elem_of_further.
    + rewrite !bool_decide_false; [done| |done].
      rewrite elem_of_cons. intros [?|?]; congruence.
Qed.

(** Reading after an assignment. *)
Lemma assoc_get_set {V : Type} (k k' : string) (v : V) (o : list (string * V)) :
  assoc_get k (assoc_set k' v o)
  = if (k' =? k)%string then Some v else assoc_get k o.
Proof.
  induction o as [|[k0 v0] o IH]; simpl.
  - done.
  - destruct (String.eqb_spec k0 k') as [->|Hne]; simpl.
    + by destruct (k' =? k)%string.
    + rewrite IH. destruct (String.eqb_spec k0 k) as [->|Hk]; [|done].
      by rewrite (proj2 (String.eqb_neq _ _)) by done.
Qed.

Lemma assoc_set_NoDup {V : Type} (k : string) (v : V) (o : list (string * V)) :
  NoDup (assoc_keys o) -> NoDup (assoc_keys (assoc_set k v o)).
Proof.
  intros Hnd. rewrite assoc_set_keys. case_bool_decide; [done|].
  apply NoDup_app. split; [done|]. split; [|apply NoDup_singleton].
  intros x Hx Hx'. apply list_elem_of_singleton in Hx'. by subst.
Qed.

Lemma assoc_key_elem {V : Type} (k : string) (v : V) (o : list (string * V)) :
  (k, v) ∈ o -> k ∈ assoc_keys o.
Proof.
  intros H. unfold assoc_keys. apply list_elem_of_fmap. by exists (k, v).
Qed.

Lemma assoc_set_elem {V : Type} (k : string) (v : V) (o : list (string * V))
    (k' : string) (v' : V) :
  NoDup (assoc_keys o) ->
  (k', v') ∈ assoc_set k v o <->
  (k' = k /\ v' = v) \/ (k' <> k /\ (k', v') ∈ o).
Proof.
  induction o as [|[k0 v0] o IH]; simpl; intros Hnd.
  - rewrite list_elem_of_singleton. split.
    + intros [= -> ->]. by left.
    + intros [[-> ->]|[_ H]]; [done|]. by apply elem_of_nil in H.
  - unfold assoc_keys in Hnd. simpl in Hnd. apply NoDup_cons in Hnd as [Hk0 Hnd].
    destruct (String.eqb_spec k0 k) as [->|Hne].
    + rewrite !elem_of_cons. split.
      * intros [[= -> ->]|Hin]; [by left|]. right. split; [|by right].
        intros ->. apply Hk0. by apply (assoc_key_elem k v').
      * intros [[-> ->]|[Hne [[= ? ?]|Hin]]]; [by left|done|by right].
    + rewrite !elem_of_cons, (IH Hnd). split.
      * intros [[= -> ->]|[[-> ->]|[Hne' Hin]]].
        -- right. split; [done|by left].
        -- by left.
        -- right. split; [done|by right].
      * intros [[-> ->]|[Hne' [[= -> ->]|Hin]]].
        -- right. by left.
        -- by left.
        -- right. right. by split.
Qed.

Lemma snoc_split {A : Type} (l pre post : list A) (x y : A) :
  (l ++ [x] = pre ++ y :: post)%list ->
  (post = [] /\ pre = l /\ y = x)
  \/ exists post', post = (post' ++ [x])%list /\ l = (pre ++ y :: post')%list.
Proof.
  destruct post as [|z post' _] using rev_ind; intros H.
  - left. apply app_inj_tail in H as [-> ->]. done.
  - right. exists post'.
    change (pre ++ y :: post' ++ [z])%list with (pre ++ (y :: post') ++ [z])%list in H.
    rewrite app_assoc in H. apply app_inj_tail in H as [-> ->]. done.
Qed.

(* ===================================================================== *)
(** * The pattern recognizer *)
(* ===================================================================== *)

(** The pattern that ends up in the output for a selector and its
    matches. *)
Lemma pattern_entry_data (s : string) (els : list Handle) :
  pattern_entry (componentName s, pattern_data s els) =
  obj [("name", JStr (componentName s));
       ("selector", JStr s);
       ("count", JNat (length els));
       ("variations", JArr (imap variation els))].
Proof. reflexivity. Qed.

Section RecognizerFacts.

Variable engine : string -> option (list Handle).

Lemma components_snoc (catalog : list string) (s : string) :
  components_of engine (catalog ++ [s]) =
  pattern_step engine (components_of engine catalog) s.
Proof. unfold components_of. by rewrite fold_left_app. Qed.

Lemma components_NoDup (catalog : list string) :
  NoDup (assoc_keys (components_of engine catalog)).
Proof.
  induction catalog as [|s catalog IH] using rev_ind.
  - apply NoDup_nil_2.
  - rewrite components_snoc. unfold pattern_step.
    destruct (engine s) as [els|]; [|done].
    destruct (1 <? length els)%nat; [|done]. by apply assoc_set_NoDup.
Qed.

Lemma silent_snoc (n : string) (post : list string) (s : string) :
  silent engine n (post ++ [s]) <->
  silent engine n post /\
  (componentName s = n -> forall els, engine s = Some els -> (length els <= 1)%nat).
Proof.
  unfold silent. split.
  - intros H. split.
    + intros s' els' Hin. apply H. apply elem_of_app. by left.
    + intros Hn els. apply H; [|done]. apply elem_of_app. right.
      by apply list_elem_of_singleton.
  - intros [H1 H2] s' els' Hin Hn He.
    apply elem_of_app in Hin as [Hin|Hin]; [by eapply H1|].
    apply list_elem_of_singleton in Hin as ->. by eapply H2.
Qed.

(** What the map holds once the catalog has been gone through: under each
    name, the data of the last catalog entry of that name that matched
    more than once. *)
Lemma components_spec (catalog : list string) (n : string) (f : Fields) :
  (n, f) ∈ components_of engine catalog <->
  exists pre s post els,
    catalog = (pre ++ s :: post)%list /\
    engine s = Some els /\ (1 < length els)%nat /\
    componentName s = n /\ f = pattern_data s els /\ silent engine n post.
Proof.
  revert n f. induction catalog as [|s catalog IH] using rev_ind; intros n f.
  - split.
    + intros H. by apply elem_of_nil in H.
    + intros (pre & s & post & els & H & _). by destruct pre.
  - rewrite components_snoc. unfold pattern_step.
    destruct (engine s) as [els|] eqn:He;
      [destruct (1 <? length els)%nat eqn:Hlen|].
    + apply Nat.ltb_lt in Hlen.
      rewrite assoc_set_elem by apply components_NoDup. rewrite IH. split.
      * intros [[-> ->]|[Hne (pre & s0 & post & els0 & -> & H1 & H2 & H3 & H4 & H5)]].
        -- exists catalog, s, [], els. repeat split; try done.
           intros s' els' Hin. by apply elem_of_nil in Hin.
        -- exists pre, s0, (post ++ [s])%list, els0.
           repeat split; try done; [by rewrite <- app_assoc|].
           apply silent_snoc. split; [done|]. intros Hn. by subst.
      * intros (pre & s0 & post & els0 & Hcat & H1 & H2 & H3 & H4 & H5).
        apply snoc_split in Hcat as [(-> & -> & ->)|(post' & -> & ->)].
        -- left. rewrite He in H1. injection H1 as ->. by subst.
        -- apply silent_snoc in H5 as [H5 H6]. right. split.
           ++ intros ->. specialize (H6 eq_refl els He). lia.
           ++ by exists pre, s0, post', els0.
    + apply Nat.ltb_ge in Hlen. rewrite IH. split.
      * intros (pre & s0 & post & els0 & -> & H1 & H2 & H3 & H4 & H5).
        exists pre, s0, (post ++ [s])%list, els0.
        repeat split; try done; [by rewrite <- app_assoc|].
        apply silent_snoc. split; [done|]. intros _ els' He'.
        rewrite He in He'. injection He' as <-. lia.
      * intros (pre & s0 & post & els0 & Hcat & H1 & H2 & H3 & H4 & H5).
        apply snoc_split in Hcat as [(-> & -> & ->)|(post' & -> & ->)].
        -- rewrite He in H1. injection H1 as ->. lia.
        -- apply silent_snoc in H5 as [H5 _]. by exists pre, s0, post', els0.
    + rewrite IH. split.
      * intros (pre & s0 & post & els0 & -> & H1 & H2 & H3 & H4 & H5).
        exists pre, s0, (post ++ [s])%list, els0.
        repeat split; try done; [by rewrite <- app_assoc|].
        apply silent_snoc. split; [done|]. intros _ els' He'. congruence.
      * intros (pre & s0 & post & els0 & Hcat & H1 & H2 & H3 & H4 & H5).
        apply snoc_split in Hcat as [(-> & -> & ->)|(post' & -> & ->)].
        -- congruence.
        -- apply silent_snoc in H5 as [H5 _]. by exists pre, s0, post', els0.
Qed.

(** The output, pattern by pattern. *)
Lemma patterns_spec (catalog : list string) (p : JValue) :
  p ∈ patterns_of engine catalog <->
  exists pre s post els,
    catalog = (pre ++ s :: post)%list /\
    engine s = Some els /\ (1 < length els)%nat /\
    silent engine (componentName s) post /\
    p = obj [("name", JStr (componentName s));
             ("selector", JStr s);
             ("count", JNat (length els));
             ("variations", JArr (imap variation els))].
Proof.
  unfold patterns_of. rewrite list_elem_of_fmap. split.
  - intros ([n f] & -> & Hin). apply components_spec in Hin
      as (pre & s & post & els & -> & H1 & H2 & <- & -> & H5).
    exists pre, s, post, els. by rewrite pattern_entry_data.
  - intros (pre & s & post & els & Hcat & H1 & H2 & H3 & ->).
    exists (componentName s, pattern_data s els). split.
    + by rewrite pattern_entry_data.
    + apply components_spec. by exists pre, s, post, els.
Qed.

(** The method's page code is [patterns_of] at the page's engine and the
    source's catalog. *)
Lemma identifyComponentPatterns_page_eq (d : Snapshot) :
  identifyComponentPatterns_page d
  = patterns_of (querySelectorAll d) componentSelectors.
Proof. reflexivity. Qed.

(** A selector on which the engine throws changes nothing. *)
Lemma pattern_step_throw (components : list (string * Fields)) (s : string) :
  engine s = None -> pattern_step engine components s = components.
Proof. intros H. unfold pattern_step. by rewrite H. Qed.






End RecognizerFacts.

(** A type selector keeps the elements of that tag. *)
Lemma querySelectorAll_button (d : Snapshot) :
  querySelectorAll d "button" =
  Some (filter (fun h => has_tag "button" h = true) (all_elements d)).
Proof.
  unfold querySelectorAll.
  change (parse_selector "button")
    with (Some [[mkCompound (Some "button") []]]).
  f_equal. apply list_filter_iff. intros h.
  unfold matches, match_complex, match_compound, has_tag. simpl.
  by rewrite !andb_true_r, orb_false_r.
Qed.

Lemma matches_class (v : string) (h : Handle) :
  matches [[mkCompound None [AttrContains "class" v]]] h =
  truthy v && class_mentions v h.
Proof.
  unfold matches, match_complex, match_compound, class_mentions. simpl.
  rewrite !andb_true_r, orb_false_r.
  destruct (getAttribute h "class"); [done|]. by rewrite andb_false_r.
Qed.

Lemma querySelectorAll_class_btn (d : Snapshot) :
  querySelectorAll d (attr_contains "class" "btn") =
  Some (filter (fun h => class_mentions "btn" h = true) (all_elements d)).
Proof.
  unfold querySelectorAll.
  change (parse_selector (attr_contains "class" "btn"))
    with (Some [[mkCompound None [AttrContains "class" "btn"]]]).
  f_equal. apply list_filter_iff. intros h. by rewrite matches_class.
Qed.

Lemma querySelectorAll_class_button (d : Snapshot) :
  querySelectorAll d (attr_contains "class" "button") =
  Some (filter (fun h => class_mentions "button" h = true) (all_elements d)).
Proof.
  unfold querySelectorAll.
  change (parse_selector (attr_contains "class" "button"))
    with (Some [[mkCompound None [AttrContains "class" "button"]]]).
  f_equal. apply list_filter_iff. intros h. by rewrite matches_class.
Qed.

(** Two filters that agree on the members of a list select the same
    members. *)
Lemma filter_agree {A : Type} (P Q : A -> Prop)
    `{forall x, Decision (P x)} `{forall x, Decision (Q x)} (l : list A) :
  (forall x, x ∈ l -> P x <-> Q x) -> filter P l = filter Q l.
Proof.
  induction l as [|x l IH]; intros Hl; [done|].
  rewrite !filter_cons.
  rewrite IH by (intros y Hy; apply Hl; by apply list_elem_of_further).
  pose proof (Hl x (list_elem_of_here x l)) as Hx.
  destruct (decide (P x)) as [HP|HP], (decide (Q x)) as [HQ|HQ]; tauto.
Qed.

Lemma filter_none {A : Type} (P : A -> Prop) `{forall x, Decision (P x)}
    (l : list A) :
  (forall x, x ∈ l -> ~ P x) -> filter P l = [].
Proof.
  induction l as [|x l IH]; intros Hl; [done|].
  rewrite filter_cons, decide_False by apply Hl, list_elem_of_here.
  apply IH. intros y Hy. by apply Hl, list_elem_of_further.
Qed.

(** Scenario A, for any page whose only buttons are a [btn] and a
    [btn secondary] and on which no other class mentions [btn] or
    [button]. *)
Lemma two_buttons_patterns (d : Snapshot) (b1 b2 : Handle) :
  filter (fun h => has_tag "button" h = true) (all_elements d) = [b1; b2] ->
  getAttribute b1 "class" = Some "btn" ->
  getAttribute b2 "class" = Some "btn secondary" ->
  forallb (fun h => has_tag "button" h
                    || negb (class_mentions "btn" h || class_mentions "button" h))
    (all_elements d) = true ->
  obj [("name", JStr "button"); ("selector", JStr "button");
       ("count", JNum 2);
       ("variations", JArr [variation 0 b1; variation 1 b2])]
    ∈ identifyComponentPatterns_page d
  /\ obj [("name", JStr "btn"); ("selector", JStr (attr_contains "class" "btn"));
          ("count", JNum 2);
          ("variations", JArr [variation 0 b1; variation 1 b2])]
       ∈ identifyComponentPatterns_page d.
Proof.
  intros Hb H1 H2 Hrest.
  assert (Hmember : forall h, h ∈ all_elements d -> has_tag "button" h = true ->
                              h = b1 \/ h = b2).
  { intros h Hin Ht.
    assert (Hf : h ∈ filter (fun h => has_tag "button" h = true) (all_elements d))
      by (by apply list_elem_of_filter).
    rewrite Hb in Hf. apply elem_of_cons in Hf as [->|Hf]; [by left|].
    apply list_elem_of_singleton in Hf. by right. }
  assert (Hother : forall h, h ∈ all_elements d -> has_tag "button" h = false ->
                             class_mentions "btn" h = false
                             /\ class_mentions "button" h = false).
  { intros h Hin Ht. rewrite forallb_forall in Hrest.
    specialize (Hrest h (proj1 (list_elem_of_In _ _) Hin)).
    rewrite Ht in Hrest. simpl in Hrest.
    apply negb_true_iff, orb_false_iff in Hrest. done. }
  assert (Hbtn : filter (fun h => class_mentions "btn" h = true) (all_elements d)
                 = [b1; b2]).
  { rewrite <- Hb. apply filter_agree. intros h Hin. split.
    - intros Hc. destruct (has_tag "button" h) eqn:Ht; [done|].
      destruct (Hother h Hin Ht). congruence.
    - intros Ht. destruct (Hmember h Hin Ht) as [->| ->];
        unfold class_mentions; [by rewrite H1|by rewrite H2]. }
  assert (Hbutton : filter (fun h => class_mentions "button" h = true)
                      (all_elements d) = []).
  { apply filter_none. intros h Hin Hc.
    destruct (has_tag "button" h) eqn:Ht.
    - destruct (Hmember h Hin Ht) as [->| ->]; unfold class_mentions in Hc;
        [rewrite H1 in Hc|rewrite H2 in Hc]; discriminate Hc.
    - destruct (Hother h Hin Ht). congruence. }
  rewrite identifyComponentPatterns_page_eq. split; apply patterns_spec.
  - exists [], "button", (tail componentSelectors), [b1; b2].
    split; [done|]. split; [by rewrite querySelectorAll_button, Hb|].
    split; [simpl; lia|]. split; [|done].
    intros s' els' Hin Hn He. simpl in Hin.
    apply elem_of_cons in Hin as [->|Hin].
    { rewrite querySelectorAll_class_button, Hbutton in He.
      injection He as <-. simpl. lia. }
    repeat (apply elem_of_cons in Hin as [->|Hin];
            [vm_compute in Hn; discriminate Hn|]).
    by apply elem_of_nil in Hin.
  - exists ["button"; attr_contains "class" "button"],
      (attr_contains "class" "btn"), (drop 3 componentSelectors), [b1; b2].
    split; [done|]. split; [by rewrite querySelectorAll_class_btn, Hbtn|].
    split; [simpl; lia|]. split; [|done].
    intros s' els' Hin Hn He. simpl in Hin.
    repeat (apply elem_of_cons in Hin as [->|Hin];
            [vm_compute in Hn; discriminate Hn|]).
    by apply elem_of_nil in Hin.
Qed.

(** C1 (amended).  A pattern is in the output of the Pattern Recognizer
    exactly when it is the pattern of a catalog selector that matches
    strictly more than one element and after which no catalog entry of the
    same sanitized name matches more than one element; so the output has a
    pattern for a catalog selector exactly under these two conditions.
    The count of a pattern is the number of matched elements and its
    variations hold one entry per matched element, in order.  In particular a page whose buttons are one
    [btn] and one [btn secondary] yields a [button] and a [btn] pattern,
    each with count 2 and two variations. *)
Theorem pattern_emitted_iff (d : Snapshot) :
  (forall p,
     p ∈ identifyComponentPatterns_page d <->
     exists pre s post els,
       componentSelectors = (pre ++ s :: post)%list /\
       querySelectorAll d s = Some els /\ (1 < length els)%nat /\
       silent (querySelectorAll d) (componentName s) post /\
       p = obj [("name", JStr (componentName s));
                ("selector", JStr s);
                ("count", JNat (length els));
                ("variations", JArr (imap variation els))])
  /\ (forall s,
        (exists p, p ∈ identifyComponentPatterns_page d
                   /\ get "selector" p = Some (JStr s))
        <-> exists pre post els,
              componentSelectors = (pre ++ s :: post)%list /\
              querySelectorAll d s = Some els /\ (1 < length els)%nat /\
              silent (querySelectorAll d) (componentName s) post)
  /\ (forall els, length (imap variation els) = length els)
  /\ (forall b1 b2,
        filter (fun h => has_tag "button" h = true) (all_elements d) = [b1; b2] ->
        getAttribute b1 "class" = Some "btn" ->
        getAttribute b2 "class" = Some "btn secondary" ->
        forallb (fun h => has_tag "button" h
                          || negb (class_mentions "btn" h
                                   || class_mentions "button" h))
          (all_elements d) = true ->
        obj [("name", JStr "button"); ("selector", JStr "button");
             ("count", JNum 2);
             ("variations", JArr [variation 0 b1; variation 1 b2])]
          ∈ identifyComponentPatterns_page d
        /\ obj [("name", JStr "btn");
                ("selector", JStr (attr_contains "class" "btn"));
                ("count", JNum 2);
                ("variations", JArr [variation 0 b1; variation 1 b2])]
             ∈ identifyComponentPatterns_page d).
Proof.
  split; [|split; [|split]].
  - intros p. rewrite identifyComponentPatterns_page_eq. apply patterns_spec.
  - intros s. rewrite identifyComponentPatterns_page_eq. split.
    + intros (p & Hin & Hsel).
      apply patterns_spec in Hin
        as (pre & s' & post & els & H1 & H2 & H3 & H4 & ->).
      injection Hsel as ->. by exists pre, post, els.
    + intros (pre & post & els & H1 & H2 & H3 & H4).
      eexists. split; [|shelve].
      apply patterns_spec. exists pre, s, post, els. split_and!; try done.
      Unshelve. reflexivity.
  - intros els. apply length_imap.
  - apply two_buttons_patterns.
Qed.

Lemma pattern_emitted_witness :
  obj [("name", JStr "button"); ("selector", JStr "button");
       ("count", JNum 2);
       ("variations", JArr [variation 0 (element_at two_buttons 3);
                            variation 1 (element_at two_buttons 4)])]
    ∈ identifyComponentPatterns_page two_buttons
  /\ obj [("name", JStr "btn");
          ("selector", JStr (attr_contains "class" "btn"));
          ("count", JNum 2);
          ("variations", JArr [variation 0 (element_at two_buttons 3);
                               variation 1 (element_at two_buttons 4)])]
       ∈ identifyComponentPatterns_page two_buttons.
Proof.
  apply (proj2 (proj2 (proj2 (pattern_emitted_iff two_buttons)))
           (element_at two_buttons 3) (element_at two_buttons 4));
    vm_compute; reflexivity.
Defined.

(** C1, as stated, fails: on a page with two [<button class="button">]
    the selector [button] matches two elements, and no pattern of the
    output is the pattern of that selector. *)
Lemma button_selector_shadowed :
  (exists els, querySelectorAll two_button_classes "button" = Some els
               /\ (1 < length els)%nat)
  /\ ~ (exists p, p ∈ identifyComponentPatterns_page two_button_classes
                  /\ get "selector" p = Some (JStr "button")).
Proof.
  split.
  - eexists. split; [vm_compute; reflexivity|]. simpl. lia.
  - intros (p & Hin & Hsel). revert p Hin Hsel.
    apply (proj1 (Forall_forall
                    (fun p => get "selector" p = Some (JStr "button") -> False) _)).
    vm_compute. repeat constructor. discriminate.
Qed.

(** C7.  A catalog selector on which the engine throws is skipped, and
    only that one: the patterns of a catalog that has the throwing entry
    are the patterns of the catalog without it, so the entries after it
    are processed as usual; and the method itself returns normally, in
    every world, whenever its call reaches the page, whatever the
    selector engine of the page does with the catalog. *)
Theorem throwing_selector_skipped (engine : string -> option (list Handle))
    (pre post : list string) (s : string) :
  engine s = None ->
  patterns_of engine (pre ++ s :: post) = patterns_of engine (pre ++ post)
  /\ forall p d w,
       at_call p call_patterns = Ok d ->
       fst (identifyComponentPatterns p w) = Ok tt
       /\ componentPatterns (data (snd (identifyComponentPatterns p w)))
          = identifyComponentPatterns_page d.
Proof.
  intros Hthrow. split.
  - unfold patterns_of, components_of. f_equal.
    rewrite !fold_left_app. simpl. by rewrite pattern_step_throw.
  - intros p d w Hd.
    unfold identifyComponentPatterns, bind, log, lift, update.
    by rewrite Hd.
Qed.

Lemma throwing_selector_skipped_witness :
  querySelectorAll two_buttons "[class*=" = None
  /\ patterns_of (querySelectorAll two_buttons) broken_catalog
     = patterns_of (querySelectorAll two_buttons)
         ["button"; attr_contains "class" "btn"].
Proof.
  split; [reflexivity|].
  apply (throwing_selector_skipped (querySelectorAll two_buttons)
           ["button"] [attr_contains "class" "btn"] "[class*=").
  reflexivity.
Defined.



(** On a page with two [<button class="button">] the single pattern
    named [button] is that of the later entry [[class*=button]]. *)
Example later_entry_wins :
  map (fun p => (get "name" p, get "selector" p, get "count" p))
    (identifyComponentPatterns_page two_button_classes)
  = [(Some (JStr "button"), Some (JStr (attr_contains "class" "button")),
      Some (JNum 2))].
Proof. vm_compute. reflexivity. Qed.

(* ===================================================================== *)
(** * The design-token sets *)
(* ===================================================================== *)

Lemma set_add_elem (x v : string) (s : list string) :
  v ∈ set_add x s <-> v ∈ s \/ v = x.
Proof.
  unfold set_add. case_bool_decide as Hx.
  - split; [by left|]. intros [?| ->]; done.
  - rewrite elem_of_app, list_elem_of_singleton. done.
Qed.

Lemma set_add_NoDup (x : string) (s : list string) :
  NoDup s -> NoDup (set_add x s).
Proof.
  intros Hnd. unfold set_add. case_bool_decide as Hx; [done|].
  apply NoDup_app. split; [done|]. split; [|apply NoDup_singleton].
  intros y Hy Hy'. apply list_elem_of_singleton in Hy'. by subst.
Qed.

Lemma absorb_app (xs ys s : list string) :
  absorb (xs ++ ys) s = absorb ys (absorb xs s).
Proof. unfold absorb. apply fold_left_app. Qed.

Lemma absorb_NoDup (xs s : list string) : NoDup s -> NoDup (absorb xs s).
Proof.
  revert s. induction xs as [|x xs IH]; intros s Hnd; [done|].
  simpl. by apply IH, set_add_NoDup.
Qed.

Lemma absorb_elem (xs s : list string) (v : string) :
  v ∈ absorb xs s <-> v ∈ s \/ v ∈ xs.
Proof.
  revert s. induction xs as [|x xs IH]; intros s; simpl.
  - split; [by left|]. intros [?|H]; [done|]. by apply elem_of_nil in H.
  - change (fold_left (fun s x => set_add x s) xs (set_add x s))
      with (absorb xs (set_add x s)).
    rewrite IH, set_add_elem, elem_of_cons. tauto.
Qed.

(** A run of guarded additions adds the values that pass the guard. *)
Lemma fold_add_when (q : string -> bool) (vals s : list string) :
  fold_left (add_when q) vals s = absorb (List.filter q vals) s.
Proof.
  revert s. induction vals as [|x vals IH]; intros s; [done|].
  simpl. unfold add_when at 2. destruct (q x); simpl; apply IH.
Qed.

(** One element's step, set by set. *)
Lemma token_step_sets (t : Tokens) (el : Handle) :
  colors (token_step t el) = absorb (color_values el) (colors t)
  /\ fonts (token_step t el) = absorb (font_values el) (fonts t)
  /\ spacing (token_step t el) = absorb (spacing_values el) (spacing t)
  /\ borderRadius (token_step t el) = absorb (radius_values el) (borderRadius t)
  /\ boxShadows (token_step t el) = absorb (shadow_values el) (boxShadows t)
  /\ gradients (token_step t el) = absorb (gradient_values el) (gradients t).
Proof.
  repeat split.
  - apply (fold_add_when color_ok
             [style el "color"; style el "background-color";
              style el "border-color"]).
  - unfold token_step, font_values, style. simpl.
    by destruct (truthy _).
  - apply (fold_add_when length_ok
             [style el "margin-top"; style el "margin-right";
              style el "margin-bottom"; style el "margin-left";
              style el "padding-top"; style el "padding-right";
              style el "padding-bottom"; style el "padding-left"]).
  - apply (fold_add_when length_ok [style el "border-radius"]).
  - apply (fold_add_when shadow_ok [style el "box-shadow"]).
  - apply (fold_add_when gradient_ok [style el "background-image"]).
Qed.

(** The sets after a run over a list of elements. *)
Lemma token_fold_sets (els : list Handle) (t : Tokens) :
  let t' := fold_left token_step els t in
  colors t' = absorb (flat_map color_values els) (colors t)
  /\ fonts t' = absorb (flat_map font_values els) (fonts t)
  /\ spacing t' = absorb (flat_map spacing_values els) (spacing t)
  /\ borderRadius t' = absorb (flat_map radius_values els) (borderRadius t)
  /\ boxShadows t' = absorb (flat_map shadow_values els) (boxShadows t)
  /\ gradients t' = absorb (flat_map gradient_values els) (gradients t).
Proof.
  revert t. induction els as [|el els IH]; intros t; [done|].
  simpl. destruct (IH (token_step t el)) as (H1 & H2 & H3 & H4 & H5 & H6).
  destruct (token_step_sets t el) as (E1 & E2 & E3 & E4 & E5 & E6).
  rewrite H1, H2, H3, H4, H5, H6, E1, E2, E3, E4, E5, E6.
  by rewrite !absorb_app.
Qed.

Lemma occurrences_absent (v : string) (l : list string) :
  v ∉ l -> occurrences v l = 0%nat.
Proof.
  intros Hv. unfold occurrences. rewrite filter_none; [done|].
  intros x Hx ->. done.
Qed.

Lemma occurrences_NoDup (v : string) (l : list string) :
  NoDup l -> v ∈ l -> occurrences v l = 1%nat.
Proof.
  induction l as [|x l IH]; intros Hnd Hv; [by apply elem_of_nil in Hv|].
  apply NoDup_cons in Hnd as [Hx Hnd]. unfold occurrences.
  rewrite filter_cons. destruct (decide (x = v)) as [->|Hne].
  - simpl. f_equal. by apply occurrences_absent.
  - apply elem_of_cons in Hv as [->|Hv]; [done|]. by apply IH.
Qed.

(** A duplicate-free list is described by its members. *)
Lemma holds_once_intro (l : list string) (q : string -> Prop) :
  NoDup l -> (forall v, v ∈ l <-> q v) -> holds_once l q.
Proof.
  intros Hnd Hq v. split; intros Hv.
  - by apply occurrences_NoDup, Hq.
  - apply occurrences_absent. by rewrite Hq.
Qed.

Lemma truthy_iff (v : string) : truthy v = true <-> v <> "".
Proof.
  unfold truthy. rewrite negb_true_iff. split.
  - intros H ->. discriminate H.
  - intros H. by apply String.eqb_neq.
Qed.

Lemma guard_iff (v bad : string) :
  truthy v && negb (v =? bad)%string = true <-> v <> "" /\ v <> bad.
Proof.
  rewrite andb_true_iff, truthy_iff, negb_true_iff, String.eqb_neq. done.
Qed.

Lemma prefix_iff (p s : string) :
  String.prefix p s = true <-> exists rest, s = p +:+ rest.
Proof.
  revert s. induction p as [|c p IH]; intros s.
  - split; [by exists s|]. intros _. by destruct s.
  - destruct s as [|c' s]; simpl.
    + split; [done|]. intros [rest H]. discriminate H.
    + destruct (ascii_dec c c') as [->|Hne].
      * rewrite IH. split; intros [rest H]; exists rest; [by rewrite H|].
        by injection H.
      * split; [done|]. intros [rest H]. injection H as H _. done.
Qed.

(** [includes hay needle] holds exactly when [needle] occurs in [hay]. *)
Lemma includes_iff (hay needle : string) :
  includes hay needle = true <->
  exists before after, hay = before +:+ needle +:+ after.
Proof.
  induction hay as [|c hay IH].
  - change (includes "" needle) with (String.prefix needle "" || false).
    rewrite orb_false_r, prefix_iff. split.
    + intros [rest H]. by exists "", rest.
    + intros (before & after & H). destruct before; [by exists after|].
      discriminate H.
  - change (includes (String c hay) needle)
      with (String.prefix needle (String c hay) || includes hay needle).
    rewrite orb_true_iff, prefix_iff, IH. split.
    + intros [[rest H]|(before & after & H)].
      * by exists "", rest.
      * exists (String c before), after. simpl. by rewrite H.
    + intros (before & after & H). destruct before as [|c' before].
      * left. by exists after.
      * right. exists before, after. simpl in H. by injection H.
Qed.

Lemma filter_elem (q : string -> bool) (vals : list string) (v : string) :
  v ∈ List.filter q vals <-> v ∈ vals /\ q v = true.
Proof. by rewrite !list_elem_of_In, filter_In. Qed.

Lemma color_values_elem (el : Handle) (v : string) :
  v ∈ color_values el <->
  (v = style el "color" \/ v = style el "background-color"
   \/ v = style el "border-color")
  /\ v <> "" /\ v <> "rgba(0, 0, 0, 0)".
Proof.
  unfold color_values. rewrite filter_elem. unfold color_ok.
  rewrite guard_iff, !elem_of_cons, elem_of_nil. unfold transparent. tauto.
Qed.

Lemma font_values_elem (el : Handle) (v : string) :
  v ∈ font_values el <->
  style el "font-family" <> ""
  /\ v = style el "font-family" +:+ " " +:+ style el "font-weight".
Proof.
  unfold font_values. destruct (truthy _) eqn:Ht.
  - apply truthy_iff in Ht. rewrite list_elem_of_singleton. tauto.
  - rewrite elem_of_nil. split; [done|]. intros [H _].
    apply truthy_iff in H. congruence.
Qed.

Lemma spacing_values_elem (el : Handle) (v : string) :
  v ∈ spacing_values el <->
  (v = style el "margin-top" \/ v = style el "margin-right"
   \/ v = style el "margin-bottom" \/ v = style el "margin-left"
   \/ v = style el "padding-top" \/ v = style el "padding-right"
   \/ v = style el "padding-bottom" \/ v = style el "padding-left")
  /\ v <> "" /\ v <> "0px".
Proof.
  unfold spacing_values. rewrite filter_elem. unfold length_ok.
  rewrite guard_iff, !elem_of_cons, elem_of_nil. tauto.
Qed.

Lemma radius_values_elem (el : Handle) (v : string) :
  v ∈ radius_values el <->
  v = style el "border-radius" /\ v <> "" /\ v <> "0px".
Proof.
  unfold radius_values. rewrite filter_elem. unfold length_ok.
  rewrite guard_iff, list_elem_of_singleton. tauto.
Qed.

Lemma shadow_values_elem (el : Handle) (v : string) :
  v ∈ shadow_values el <->
  v = style el "box-shadow" /\ v <> "" /\ v <> "none".
Proof.
  unfold shadow_values. rewrite filter_elem. unfold shadow_ok.
  rewrite guard_iff, list_elem_of_singleton. tauto.
Qed.

Lemma gradient_values_elem (el : Handle) (v : string) :
  v ∈ gradient_values el <->
  v = style el "background-image" /\ includes v "gradient" = true.
Proof.
  unfold gradient_values. rewrite filter_elem. unfold gradient_ok.
  rewrite andb_true_iff, list_elem_of_singleton, truthy_iff. split; [tauto|].
  intros [-> H]. repeat split; [|done]. intros E. rewrite E in H. discriminate H.
Qed.


(** Each set of a page: duplicate-free, with the values its elements
    contribute. *)
Lemma design_tokens_sets (d : Snapshot) :
  let t := design_tokens d in
  (NoDup (colors t)
   /\ forall v, v ∈ colors t <-> found_on d (fun el => v ∈ color_values el))
  /\ (NoDup (fonts t)
      /\ forall v, v ∈ fonts t <-> found_on d (fun el => v ∈ font_values el))
  /\ (NoDup (spacing t)
      /\ forall v, v ∈ spacing t <-> found_on d (fun el => v ∈ spacing_values el))
  /\ (NoDup (borderRadius t)
      /\ forall v, v ∈ borderRadius t
                   <-> found_on d (fun el => v ∈ radius_values el))
  /\ (NoDup (boxShadows t)
      /\ forall v, v ∈ boxShadows t
                   <-> found_on d (fun el => v ∈ shadow_values el))
  /\ (NoDup (gradients t)
      /\ forall v, v ∈ gradients t
                   <-> found_on d (fun el => v ∈ gradient_values el)).
Proof.
  assert (Hgen : forall (f : Handle -> list string) (l : list string),
             l = absorb (flat_map f (all_elements d)) [] ->
             NoDup l /\ forall v, v ∈ l <-> found_on d (fun el => v ∈ f el)).
  { intros f l ->. split; [apply absorb_NoDup, NoDup_nil_2|].
    intros v. rewrite absorb_elem. unfold found_on. split.
    - intros [H|H]; [by apply elem_of_nil in H|].
      apply list_elem_of_In, in_flat_map in H as (el & H1 & H2).
      exists el. split; by apply list_elem_of_In.
    - intros (el & H1 & H2). right. apply list_elem_of_In, in_flat_map.
      exists el. split; by apply list_elem_of_In. }
  destruct (token_fold_sets (all_elements d) no_tokens)
    as (H1 & H2 & H3 & H4 & H5 & H6).
  unfold design_tokens. cbv zeta.
  split; [exact (Hgen _ _ H1)|]. split; [exact (Hgen _ _ H2)|].
  split; [exact (Hgen _ _ H3)|]. split; [exact (Hgen _ _ H4)|].
  split; [exact (Hgen _ _ H5)|exact (Hgen _ _ H6)].
Qed.

(** C2.  Each design-token set holds every qualifying value exactly once
    and nothing else, so it has no duplicates; the colors never contain
    [rgba(0, 0, 0, 0)], the spacing never [0px], the box shadows never
    [none], and a background image is among the gradients only if
    [gradient] occurs in it. *)
Theorem design_tokens_exact (d : Snapshot) :
  let t := design_tokens d in
  holds_once (colors t) (fun v => found_on d (fun el =>
      (v = style el "color" \/ v = style el "background-color"
       \/ v = style el "border-color")
      /\ v <> "" /\ v <> "rgba(0, 0, 0, 0)"))
  /\ holds_once (fonts t) (fun v => found_on d (fun el =>
      style el "font-family" <> ""
      /\ v = style el "font-family" +:+ " " +:+ style el "font-weight"))
  /\ holds_once (spacing t) (fun v => found_on d (fun el =>
      (v = style el "margin-top" \/ v = style el "margin-right"
       \/ v = style el "margin-bottom" \/ v = style el "margin-left"
       \/ v = style el "padding-top" \/ v = style el "padding-right"
       \/ v = style el "padding-bottom" \/ v = style el "padding-left")
      /\ v <> "" /\ v <> "0px"))
  /\ holds_once (borderRadius t) (fun v => found_on d (fun el =>
      v = style el "border-radius" /\ v <> "" /\ v <> "0px"))
  /\ holds_once (boxShadows t) (fun v => found_on d (fun el =>
      v = style el "box-shadow" /\ v <> "" /\ v <> "none"))
  /\ holds_once (gradients t) (fun v => found_on d (fun el =>
      v = style el "background-image" /\ includes v "gradient" = true))
  /\ (NoDup (colors t) /\ NoDup (fonts t) /\ NoDup (spacing t)
      /\ NoDup (borderRadius t) /\ NoDup (boxShadows t)
      /\ NoDup (gradients t))
  /\ ("rgba(0, 0, 0, 0)" ∉ colors t)
  /\ ("0px" ∉ spacing t)
  /\ ("none" ∉ boxShadows t)
  /\ (forall v, v ∈ gradients t ->
                exists before after, v = before +:+ "gradient" +:+ after)
  /\ collectDesignTokens_page d
     = obj [("colors", strings (colors t)); ("fonts", strings (fonts t));
            ("spacing", strings (spacing t));
            ("borderRadius", strings (borderRadius t));
            ("boxShadows", strings (boxShadows t));
            ("gradients", strings (gradients t))].
Proof.
  destruct (design_tokens_sets d)
    as ((N1 & E1) & (N2 & E2) & (N3 & E3) & (N4 & E4) & (N5 & E5) & (N6 & E6)).
  cbv zeta.
  assert (Hsame : forall (P Q : Handle -> Prop),
             (forall el, P el <-> Q el) -> found_on d P <-> found_on d Q).
  { intros P Q HPQ. unfold found_on.
    split; intros (el & H1 & H2); exists el; split; try done; by apply HPQ. }
  split_and!; try done.
  - apply holds_once_intro; [done|]. intros v. rewrite E1.
    apply Hsame. intros el. apply color_values_elem.
  - apply holds_once_intro; [done|]. intros v. rewrite E2.
    apply Hsame. intros el. apply font_values_elem.
  - apply holds_once_intro; [done|]. intros v. rewrite E3.
    apply Hsame. intros el. apply spacing_values_elem.
  - apply holds_once_intro; [done|]. intros v. rewrite E4.
    apply Hsame. intros el. apply radius_values_elem.
  - apply holds_once_intro; [done|]. intros v. rewrite E5.
    apply Hsame. intros el. apply shadow_values_elem.
  - apply holds_once_intro; [done|]. intros v. rewrite E6.
    apply Hsame. intros el. apply gradient_values_elem.
  - intros H. apply E1 in H as (el & _ & H).
    apply color_values_elem in H as (_ & _ & H). done.
  - intros H. apply E3 in H as (el & _ & H).
    apply spacing_values_elem in H as (_ & _ & H). done.
  - intros H. apply E5 in H as (el & _ & H).
    apply shadow_values_elem in H as (_ & _ & H). done.
  - intros v H. apply E6 in H as (el & _ & H).
    apply gradient_values_elem in H as (_ & H). by apply includes_iff.
Qed.

(** A page whose backgrounds are all transparent gets its colors from
    the other sources only. *)
Example transparent_backgrounds :
  colors (design_tokens two_buttons) = ["rgb(0, 0, 0)"].
Proof. vm_compute. reflexivity. Qed.

(* ===================================================================== *)
(** * One page run *)
(* ===================================================================== *)

(** A selector that parses never makes the engine throw. *)
Lemma qs_parsed (d : Snapshot) (sel : string) (ast : list Complex) :
  parse_selector sel = Some ast -> exists r, qs d sel = Ok r.
Proof.
  intros H. unfold qs, querySelector, querySelectorAll. rewrite H. by eexists.
Qed.

Lemma qsa_parsed (d : Snapshot) (sel : string) (ast : list Complex) :
  parse_selector sel = Some ast -> exists r, qsa d sel = Ok r.
Proof. intros H. unfold qsa, querySelectorAll. rewrite H. by eexists. Qed.

Lemma collect_sections_total (d : Snapshot)
    (roles : list (string * (string * string))) (acc : Fields) :
  Forall (fun r => is_Some (parse_selector (fst (snd r)))
                   /\ is_Some (parse_selector (attr_equals "role" (snd (snd r)))))
    roles ->
  exists sections, collect_sections d roles acc = Ok sections.
Proof.
  intros Hroles. revert acc.
  induction Hroles as [|[key [tag role]] roles [[a1 H1] [a2 H2]] _ IH];
    intros acc; simpl; [by eexists|].
  simpl in H1, H2. unfold landmark.
  destruct (qs_parsed d tag a1 H1) as [r1 ->]. simpl.
  destruct r1 as [el|]; [apply IH|].
  destruct (qs_parsed d _ a2 H2) as [r2 ->]. simpl. apply IH.
Qed.

(** The layout pass fails only for want of a [body]. *)
Lemma collectLayoutStructure_page_total (d : Snapshot) (b : Handle) :
  body d = Some b -> exists l, collectLayoutStructure_page d = Ok l.
Proof.
  intros Hb. unfold collectLayoutStructure_page. rewrite Hb.
  cbn [from_option res_bind].
  assert (Hroot : exists html, head (all_elements d) = Some html).
  { unfold body in Hb. destruct (all_elements d) as [|root rest]; [done|].
    by exists root. }
  destruct Hroot as [html ->]. cbn [from_option res_bind].
  destruct (collect_sections_total d landmark_roles []) as [sections ->].
  { repeat constructor; by eexists. }
  cbn [res_bind].
  destruct (qsa_parsed d
              (attr_contains "style" "grid" +:+ ", " +:+ attr_contains "class" "grid")
              _ eq_refl) as [grid ->].
  cbn [res_bind].
  destruct (qsa_parsed d
              (attr_contains "style" "flex" +:+ ", " +:+ attr_contains "class" "flex")
              _ eq_refl) as [flex ->].
  cbn [res_bind]. by eexists.
Qed.

Ltac call_side :=
  unfold call_elementCount, call_domDepth, call_userAgent, call_title,
    call_description, call_performance, call_designTokens, call_elementData,
    call_layout, call_assets, call_patterns;
  first [lia|discriminate].

(** The metadata object is built when its four calls go through and the
    depth call finds a body; the object then holds what those calls
    found. *)
Lemma collectMetadata_page_inv (url : string) (viewport : Viewport) (t : Z)
    (p : Page) (m : JValue) :
  collectMetadata_page url viewport t p = Ok m ->
  exists counted measured b agent titled,
    at_call p call_elementCount = Ok counted
    /\ at_call p call_domDepth = Ok measured
    /\ body measured = Some b
    /\ at_call p call_userAgent = Ok agent
    /\ at_call p call_title = Ok titled
    /\ get "url" m = Some (JStr url)
    /\ get "viewport" m = Some (viewport_value viewport)
    /\ get "elementCount" m = Some (JNat (length (all_elements counted)))
    /\ get "domDepth" m
       = Some (JNat (getDepth (ElementNode (h_info b) (h_kids b)) 0 0))
    /\ get "title" m = Some (JStr (page_title titled))
    /\ exists fields, m = JObj fields.
Proof.
  unfold collectMetadata_page, domDepth_page.
  destruct (at_call p call_elementCount) as [counted|e]; [|done].
  destruct (at_call p call_domDepth) as [measured|e]; [|done].
  cbn [res_bind]. destruct (body measured) as [b|] eqn:Hb; [|done].
  cbn [from_option res_bind].
  destruct (at_call p call_userAgent) as [agent|e]; [|done].
  destruct (at_call p call_title) as [titled|e]; [|done].
  cbn [res_bind]. intros [= <-].
  exists counted, measured, b, agent, titled.
  split_and!; try done; try reflexivity. by eexists.
Qed.

Lemma collectMetadata_page_total (url : string) (viewport : Viewport)
    (t : Z) (p : Page) :
  serves p -> exists m, collectMetadata_page url viewport t p = Ok m.
Proof.
  intros (Hcalls & Hbody & _).
  destruct (Hcalls call_elementCount) as [counted H0]; [call_side..|].
  destruct (Hcalls call_domDepth) as [measured H1]; [call_side..|].
  destruct (Hcalls call_userAgent) as [agent H2]; [call_side..|].
  destruct (Hcalls call_title) as [titled H3]; [call_side..|].
  destruct (Hbody measured H1) as [b Hb].
  unfold collectMetadata_page, domDepth_page.
  rewrite H0, H1. cbn [res_bind]. rewrite Hb. cbn [from_option res_bind].
  rewrite H2, H3. cbn [res_bind]. by eexists.
Qed.

(** Storing the performance metrics keeps the other fields of the
    metadata. *)
Lemma set_property_other (k k' : string) (v : JValue) (fields : Fields) :
  k <> k' ->
  get k' (set_property k v (JObj fields)) = get k' (JObj fields).
Proof.
  intros Hne. unfold set_property, get.
  by rewrite assoc_get_set, (proj2 (String.eqb_neq _ _)).
Qed.

Section PageRun.

Variable web : nat -> string -> Viewport -> Res Page.
Variable media : Snapshot -> JValue * JValue * JValue.

(** A page run, step by step: what it returns and the world it leaves,
    by the outcome of the navigation and of each call into the page. *)
Lemma analyzePage_run (url : string) (viewport : Viewport) (w : World) :
  analyzePage web media url viewport w =
  let c := contexts_created w in
  let w0 :=
    count_navigation
      (open_context
         (say ("Analyzing " +:+ url +:+ " at " +:+ pretty (vp_width viewport)
               +:+ "x" +:+ pretty (vp_height viewport)) w)) in
  let failed e w' :=
    (Throw e, close_context c (say ("Error analyzing page: " +:+ e) w')) in
  match web (navigations w) url viewport with
  | Throw e => failed e w0
  | Ok p =>
      let w1 := say "Collecting metadata..."
                  (say "Page loaded, starting analysis..." w0) in
      match collectMetadata_page url viewport (load_time p) p with
      | Throw e => failed e w1
      | Ok m =>
      let w2 := say "Collecting performance metrics..."
                  (store (with_metadata m) w1) in
      match at_call p call_performance with
      | Throw e => failed e w2
      | Ok timed =>
      let w3 :=
        say "Extracting design tokens..."
          (store (fun a =>
                    with_metadata
                      (set_property "performance" (performance_metrics timed)
                         (metadata a)) a) w2) in
      match at_call p call_designTokens with
      | Throw e => failed e w3
      | Ok styled =>
      let w4 :=
        say "Collecting detailed element data..."
          (store (with_designTokens (collectDesignTokens_page styled)) w3) in
      match at_call p call_elementData with
      | Throw e => failed e w4
      | Ok recorded =>
      let w5 :=
        say "Analyzing layout structure..."
          (store (with_elements (collectElementData_page recorded)) w4) in
      match res_bind (at_call p call_layout) collectLayoutStructure_page with
      | Throw e => failed e w5
      | Ok l =>
      let w6 := say "Collecting asset inventory..."
                  (store (with_layout l) w5) in
      match at_call p call_assets with
      | Throw e => failed e w6
      | Ok listed =>
      let w7 :=
        say "Identifying component patterns..."
          (store (with_assets (collectAssets_page media listed)) w6) in
      match at_call p call_patterns with
      | Throw e => failed e w7
      | Ok matched =>
          (Ok tt,
           close_context c
             (store (with_componentPatterns
                       (identifyComponentPatterns_page matched)) w7))
      end end end end end end end
  end.
Proof.
  unfold analyzePage, collectMetadata, collectPerformanceMetrics,
    collectDesignTokens, collectElementData, collectLayoutStructure,
    collectAssets, identifyComponentPatterns, try_finally, try_catch, bind,
    goto, log, newContext, closeContext, lift, update, throw.
  cbv zeta.
  change (navigations
            (open_context
               (say ("Analyzing " +:+ url +:+ " at "
                     +:+ pretty (vp_width viewport)
                     +:+ "x" +:+ pretty (vp_height viewport)) w)))
    with (navigations w).
  destruct (web (navigations w) url viewport) as [p|e]; [|reflexivity].
  destruct (collectMetadata_page url viewport (load_time p) p) as [m|e];
    [|reflexivity].
  destruct (at_call p call_performance) as [timed|e]; [|reflexivity].
  destruct (at_call p call_designTokens) as [styled|e]; [|reflexivity].
  destruct (at_call p call_elementData) as [recorded|e]; [|reflexivity].
  destruct (at_call p call_layout) as [measured|e]; [|reflexivity].
  cbn [res_bind].
  destruct (collectLayoutStructure_page measured) as [l|e]; [|reflexivity].
  destruct (at_call p call_assets) as [listed|e]; [|reflexivity].
  destruct (at_call p call_patterns) as [matched|e]; reflexivity.
Qed.

Ltac page_run_cases url viewport w :=
  rewrite (analyzePage_run url viewport w); cbv zeta;
  destruct (web (navigations w) url viewport) as [?p|?e];
    [destruct (collectMetadata_page url viewport (load_time p) p) as [?m|?e];
     [destruct (at_call p call_performance) as [?timed|?e];
      [destruct (at_call p call_designTokens) as [?styled|?e];
       [destruct (at_call p call_elementData) as [?recorded|?e];
        [destruct (res_bind (at_call p call_layout) collectLayoutStructure_page)
           as [?l|?e];
         [destruct (at_call p call_assets) as [?listed|?e];
          [destruct (at_call p call_patterns) as [?matched|?e]|]|]|]|]|]|]|].

(** What a page run leaves of the world outside the fields it collects,
    whatever its outcome: the context it created is closed again, one
    navigation was made, nothing was written, and [responsive] is as it
    was. *)
Lemma analyzePage_frame (url : string) (viewport : Viewport) (w : World) :
  let w' := snd (analyzePage web media url viewport w) in
  browser_running w' = browser_running w
  /\ contexts w'
     = filter (fun c => c <> contexts_created w)
         (contexts w ++ [contexts_created w])%list
  /\ contexts_created w' = S (contexts_created w)
  /\ navigations w' = S (navigations w)
  /\ written w' = written w
  /\ exit_code w' = exit_code w
  /\ responsive (data w') = responsive (data w).
Proof. cbv zeta. page_run_cases url viewport w; by split_and!. Qed.

(** A failed navigation: the error reaches the caller as it is, and
    [analysisData] is untouched. *)
Lemma analyzePage_throws (url : string) (viewport : Viewport) (w : World)
    (e : string) :
  web (navigations w) url viewport = Throw e ->
  fst (analyzePage web media url viewport w) = Throw e
  /\ data (snd (analyzePage web media url viewport w)) = data w.
Proof. intros H. rewrite analyzePage_run, H. done. Qed.

(** A run that returns: the page was loaded, every call went through,
    and each field of [analysisData] but [responsive] holds what the call
    of its collector found. *)
Lemma analyzePage_ok_inv (url : string) (viewport : Viewport) (w w' : World) :
  analyzePage web media url viewport w = (Ok tt, w') ->
  exists p m timed styled recorded measured l listed matched,
    web (navigations w) url viewport = Ok p
    /\ collectMetadata_page url viewport (load_time p) p = Ok m
    /\ at_call p call_performance = Ok timed
    /\ at_call p call_designTokens = Ok styled
    /\ at_call p call_elementData = Ok recorded
    /\ at_call p call_layout = Ok measured
    /\ collectLayoutStructure_page measured = Ok l
    /\ at_call p call_assets = Ok listed
    /\ at_call p call_patterns = Ok matched
    /\ data w' =
       mkData (set_property "performance" (performance_metrics timed) m)
         (collectDesignTokens_page styled) l
         (collectElementData_page recorded)
         (collectAssets_page media listed)
         (identifyComponentPatterns_page matched)
         (responsive (data w)).
Proof.
  rewrite analyzePage_run. cbv zeta.
  destruct (web (navigations w) url viewport) as [p|e] eqn:Hp; [|done].
  destruct (collectMetadata_page url viewport (load_time p) p) as [m|e]
    eqn:Hm; [|done].
  destruct (at_call p call_performance) as [timed|e] eqn:H5; [|done].
  destruct (at_call p call_designTokens) as [styled|e] eqn:H6; [|done].
  destruct (at_call p call_elementData) as [recorded|e] eqn:H7; [|done].
  destruct (at_call p call_layout) as [measured|e] eqn:H8; [|done].
  cbn [res_bind].
  destruct (collectLayoutStructure_page measured) as [l|e] eqn:Hl; [|done].
  destruct (at_call p call_assets) as [listed|e] eqn:H9; [|done].
  destruct (at_call p call_patterns) as [matched|e] eqn:H10; [|done].
  intros [= <-].
  by exists p, m, timed, styled, recorded, measured, l, listed, matched.
Qed.

(** A run on a page that serves is completed. *)
Lemma analyzePage_succeeds (url : string) (viewport : Viewport) (w : World)
    (p : Page) :
  web (navigations w) url viewport = Ok p -> serves p ->
  fst (analyzePage web media url viewport w) = Ok tt.
Proof.
  intros Hp Hserves. rewrite analyzePage_run, Hp. cbv zeta.
  destruct (collectMetadata_page_total url viewport (load_time p) p Hserves)
    as [m ->].
  destruct Hserves as (Hcalls & _ & Hbody).
  destruct (Hcalls call_performance) as [timed ->]; [call_side..|].
  destruct (Hcalls call_designTokens) as [styled ->]; [call_side..|].
  destruct (Hcalls call_elementData) as [recorded ->]; [call_side..|].
  destruct (Hcalls call_layout) as [measured Hm]; [call_side..|].
  destruct (Hbody measured Hm) as [b Hb]. rewrite Hm. cbn [res_bind].
  destruct (collectLayoutStructure_page_total measured b Hb) as [l ->].
  destruct (Hcalls call_assets) as [listed ->]; [call_side..|].
  destruct (Hcalls call_patterns) as [matched ->]; [call_side..|].
  done.
Qed.

End PageRun.

Section Runs.

Variable web : nat -> string -> Viewport -> Res Page.
Variable media : Snapshot -> JValue * JValue * JValue.

Lemma analyzePage_closes (url : string) (viewport : Viewport) (w : World) :
  (contexts_created w
   ∉ contexts (snd (analyzePage web media url viewport w)))
  /\ (contexts w = [] ->
      contexts (snd (analyzePage web media url viewport w)) = []).
Proof.
  destruct (analyzePage_frame web media url viewport w)
    as (_ & -> & _). split.
  - intros H. apply list_elem_of_filter in H as [H _]. done.
  - intros ->. simpl. rewrite filter_cons, decide_False; [done|]. by intros H.
Qed.

(** One turn of the loop of [analyzeResponsive]. *)
Lemma responsive_loop_cons (url : string) (vp : Viewport)
    (vps : list Viewport) (acc : Fields) (w : World) :
  responsive_loop web media url (vp :: vps) acc w =
  match analyzePage web media url vp
          (say ("Testing " +:+ name_key vp +:+ " viewport...") w) with
  | (Ok _, w1) =>
      responsive_loop web media url vps
        (assoc_set (name_key vp)
           (responsive_entry vp (elements (data w1)) (layout (data w1))
              (designTokens (data w1))) acc) w1
  | (Throw e, w1) => (Throw e, w1)
  end.
Proof. reflexivity. Qed.

Lemma analyzeResponsive_eq (url : string) (w : World) :
  analyzeResponsive web media url w =
  match responsive_loop web media url viewports []
          (say "Analyzing responsive behavior..." w) with
  | (Ok r, w1) => (Ok tt, store (with_responsive (JObj r)) w1)
  | (Throw e, w1) => (Throw e, w1)
  end.
Proof. reflexivity. Qed.

(** The responsive loop leaves no context open, writes nothing and
    leaves [responsive] alone, however far it gets. *)
Lemma responsive_loop_frame (url : string) (vps : list Viewport)
    (acc : Fields) (w : World) :
  written (snd (responsive_loop web media url vps acc w)) = written w
  /\ responsive (data (snd (responsive_loop web media url vps acc w)))
     = responsive (data w)
  /\ (contexts w = [] ->
      contexts (snd (responsive_loop web media url vps acc w)) = []).
Proof.
  revert acc w. induction vps as [|vp vps IH]; intros acc w; [done|].
  rewrite responsive_loop_cons.
  set (w0 := say _ w).
  destruct (analyzePage_frame web media url vp w0)
    as (_ & _ & _ & _ & Hw & _ & Hr).
  destruct (analyzePage_closes url vp w0) as [_ Hc].
  destruct (analyzePage web media url vp w0) as [[[]|e] w1];
    cbn [fst snd] in *.
  - destruct (IH (assoc_set (name_key vp)
                    (responsive_entry vp (elements (data w1))
                       (layout (data w1)) (designTokens (data w1))) acc) w1)
      as (IH1 & IH2 & IH3).
    split; [by rewrite IH1, Hw|]. split; [by rewrite IH2, Hr|].
    intros H0. apply IH3, Hc. exact H0.
  - split; [exact Hw|]. split; [exact Hr|]. intros H0. apply Hc. exact H0.
Qed.

(** When the loop returns, every one of its navigations loaded a page, and
    the map has one entry per viewport, made from what the calls into the
    page loaded for it found. *)
Lemma responsive_loop_ok_inv (url : string) (vps : list Viewport)
    (acc r : Fields) (w w' : World) :
  responsive_loop web media url vps acc w = (Ok r, w') ->
  exists entries,
    Forall2 (fun vp entry =>
               exists k p styled recorded measured l,
                 vps !! k = Some vp
                 /\ web (navigations w + k)%nat url vp = Ok p
                 /\ at_call p call_designTokens = Ok styled
                 /\ at_call p call_elementData = Ok recorded
                 /\ at_call p call_layout = Ok measured
                 /\ collectLayoutStructure_page measured = Ok l
                 /\ entry
                    = (name_key vp,
                       responsive_entry vp (collectElementData_page recorded)
                         l (collectDesignTokens_page styled)))
      vps entries
    /\ r = fold_left (fun o kv => assoc_set (fst kv) (snd kv) o) entries acc.
Proof.
  revert acc w. induction vps as [|vp vps IH]; intros acc w.
  - intros [= <- <-]. exists []. split; [constructor|done].
  - rewrite responsive_loop_cons.
    set (w0 := say _ w).
    destruct (analyzePage_frame web media url vp w0)
      as (_ & _ & _ & Hn & _).
    destruct (analyzePage web media url vp w0) as [[[]|e] w1] eqn:Hrun;
      cbn [fst snd] in *; [|done].
    intros Hloop.
    apply analyzePage_ok_inv in Hrun
      as (p & m & timed & styled & recorded & measured & l & listed & matched
          & Hp & _ & _ & Hs & Hr & Hm & Hl & _ & _ & Hdata).
    rewrite Hdata in Hloop. cbn [elements layout designTokens] in Hloop.
    apply IH in Hloop as (entries & Hentries & ->).
    exists ((name_key vp,
             responsive_entry vp (collectElementData_page recorded) l
               (collectDesignTokens_page styled)) :: entries).
    split; [|reflexivity]. constructor.
    + exists 0%nat, p, styled, recorded, measured, l.
      rewrite Nat.add_0_r. done.
    + eapply Forall2_impl; [exact Hentries|].
      intros vp' entry (k & p' & s' & r' & m' & l' & Hk & Hp' & H').
      exists (S k), p', s', r', m', l'. split; [done|]. split; [|done].
      rewrite Hn in Hp'. subst w0. cbn [navigations say] in Hp'.
      by replace (navigations w + S k)%nat with (S (navigations w) + k)%nat
        by lia.
Qed.

End Runs.

Lemma filter_all {A : Type} (P : A -> Prop) `{forall x, Decision (P x)}
    (l : list A) :
  (forall x, P x) -> filter P l = l.
Proof.
  intros HP. induction l as [|x l IH]; [done|].
  by rewrite filter_cons, decide_True, IH.
Qed.

(** The universal selector returns every element, in document order. *)
Lemma querySelectorAll_star (d : Snapshot) :
  querySelectorAll d "*" = Some (all_elements d).
Proof.
  unfold querySelectorAll.
  change (parse_selector "*") with (Some [[mkCompound None []]]).
  f_equal. by apply filter_all.
Qed.

Lemma collectElementData_page_length (d : Snapshot) :
  length (collectElementData_page d) = length (all_elements d).
Proof. apply length_imap. Qed.

(** C3 (amended).  After a page run that returns, [metadata.elementCount]
    is the number of nodes [querySelectorAll('*')] returned at the first
    call of the metadata collector, and the [elements] sequence has the
    size of what it returned at the call of the element collector.  The
    two calls are two round trips into the live page; the two numbers are
    equal whenever the document has as many elements at the second as at
    the first, as it has when it did not change in between. *)
Theorem element_count_agrees (web : nat -> string -> Viewport -> Res Page)
    (media : Snapshot -> JValue * JValue * JValue) (url : string)
    (viewport : Viewport) (w w' : World) :
  analyzePage web media url viewport w = (Ok tt, w') ->
  exists p counted recorded nodes nodes',
    web (navigations w) url viewport = Ok p
    /\ at_call p call_elementCount = Ok counted
    /\ at_call p call_elementData = Ok recorded
    /\ querySelectorAll counted "*" = Some nodes
    /\ querySelectorAll recorded "*" = Some nodes'
    /\ get "elementCount" (metadata (data w')) = Some (JNat (length nodes))
    /\ length (elements (data w')) = length nodes'
    /\ (length nodes = length nodes' ->
        get "elementCount" (metadata (data w'))
        = Some (JNat (length (elements (data w')))))
    /\ (counted = recorded ->
        get "elementCount" (metadata (data w'))
        = Some (JNat (length (elements (data w'))))).
Proof.
  intros Hrun.
  apply analyzePage_ok_inv in Hrun
    as (p & m & timed & styled & recorded & measured & l & listed & matched
        & Hp & Hm & _ & _ & Hr & _ & _ & _ & _ & ->).
  apply collectMetadata_page_inv in Hm
    as (counted & measured' & b & agent & titled & Hc & _ & _ & _ & _ & _ & _
        & Hcount & _ & _ & fields & ->).
  exists p, counted, recorded, (all_elements counted), (all_elements recorded).
  cbn [elements metadata]. rewrite collectElementData_page_length.
  assert (Hget : get "elementCount"
                   (set_property "performance" (performance_metrics timed)
                      (JObj fields))
                 = Some (JNat (length (all_elements counted)))).
  { rewrite set_property_other by discriminate. exact Hcount. }
  split_and!; try done; try apply querySelectorAll_star.
  - intros Hlen. by rewrite Hget, Hlen.
  - intros ->. exact Hget.
Qed.

Lemma element_count_agrees_witness :
  exists p counted recorded nodes nodes',
    web_serving (still two_buttons) 0 example_url desktop = Ok p
    /\ at_call p call_elementCount = Ok counted
    /\ at_call p call_elementData = Ok recorded
    /\ querySelectorAll counted "*" = Some nodes
    /\ querySelectorAll recorded "*" = Some nodes'
    /\ get "elementCount" (metadata (data after_one_run))
       = Some (JNat (length nodes))
    /\ length (elements (data after_one_run)) = length nodes'.
Proof.
  destruct (element_count_agrees (web_serving (still two_buttons)) no_media
              example_url desktop initial_world after_one_run)
    as (p & counted & recorded & nodes & nodes' & H1 & H2 & H3 & H4 & H5
        & H6 & H7 & _).
  - vm_compute. reflexivity.
  - exists p, counted, recorded, nodes, nodes'.
    split; [exact H1|]. split; [exact H2|]. split; [exact H3|].
    split; [exact H4|]. split; [exact H5|]. split; [exact H6|exact H7].
Defined.

(** C3, as stated, fails: on a page whose document has five elements at
    the calls of the metadata collector and six at the call of the
    element collector the run returns with an [elementCount] of 5 and six
    element records. *)
Lemma element_counts_differ :
  exists w',
    analyzePage
      (web_serving (changing call_elementData two_buttons nested_in_id))
      no_media example_url desktop initial_world = (Ok tt, w')
    /\ get "elementCount" (metadata (data w')) = Some (JNum 5)
    /\ length (elements (data w')) = 6%nat
    /\ get "elementCount" (metadata (data w'))
       <> Some (JNat (length (elements (data w')))).
Proof.
  eexists. split; [vm_compute; reflexivity|].
  split; [reflexivity|]. split; [reflexivity|]. discriminate.
Qed.

Section ResponsivePass.

Variable web : nat -> string -> Viewport -> Res Page.
Variable media : Snapshot -> JValue * JValue * JValue.

(** The loop runs to its end when every navigation loads a page that
    serves. *)
Lemma responsive_loop_succeeds (url : string) (vps : list Viewport)
    (acc : Fields) (w : World) :
  (forall k vp, vps !! k = Some vp ->
                exists p, web (navigations w + k)%nat url vp = Ok p
                          /\ serves p) ->
  exists r w', responsive_loop web media url vps acc w = (Ok r, w').
Proof.
  revert acc w. induction vps as [|vp vps IH]; intros acc w Hweb;
    [by eexists _, _|].
  rewrite responsive_loop_cons.
  set (w0 := say _ w).
  destruct (Hweb 0%nat vp eq_refl) as (p & Hp & Hserves).
  rewrite Nat.add_0_r in Hp.
  pose proof (analyzePage_succeeds web media url vp w0 p Hp Hserves) as Hok.
  destruct (analyzePage_frame web media url vp w0)
    as (_ & _ & _ & Hn & _).
  destruct (analyzePage web media url vp w0) as [[[]|e] w1];
    cbn [fst snd] in *; [|done].
  apply IH. intros k vp' Hk.
  destruct (Hweb (S k) vp' Hk) as (p' & Hp' & Hs').
  exists p'. split; [|done]. rewrite Hn. subst w0. cbn [navigations say].
  by replace (S (navigations w) + k)%nat with (navigations w + S k)%nat by lia.
Qed.

End ResponsivePass.

(** C9.  The responsive pass over the three default viewports returns
    whenever each of its navigations loads a page that serves, and when
    it returns the [responsive] map has exactly the keys [mobile],
    [tablet], [desktop]; the value under each holds the viewport that was
    asked for, with its width and height, and only the element count, the
    layout and the design tokens found on the page loaded for it: no
    [elements], [assets] or [componentPatterns]. *)
Theorem responsive_map_shape (web : nat -> string -> Viewport -> Res Page)
    (media : Snapshot -> JValue * JValue * JValue) (url : string)
    (w : World) :
  ((forall k vp, viewports !! k = Some vp ->
                 exists p, web (navigations w + k)%nat url vp = Ok p
                           /\ serves p) ->
   exists w', analyzeResponsive web media url w = (Ok tt, w'))
  /\ forall w',
       analyzeResponsive web media url w = (Ok tt, w') ->
       keys (responsive (data w')) = ["mobile"; "tablet"; "desktop"]
       /\ forall vp, vp ∈ viewports ->
            exists k p styled recorded measured l entry,
              viewports !! k = Some vp
              /\ web (navigations w + k)%nat url vp = Ok p
              /\ at_call p call_designTokens = Ok styled
              /\ at_call p call_elementData = Ok recorded
              /\ at_call p call_layout = Ok measured
              /\ collectLayoutStructure_page measured = Ok l
              /\ get (name_key vp) (responsive (data w')) = Some entry
              /\ keys entry
                 = ["viewport"; "elementCount"; "layoutStructure"; "designTokens"]
              /\ get "viewport" entry = Some (viewport_value vp)
              /\ get "width" (viewport_value vp) = Some (JNum (vp_width vp))
              /\ get "height" (viewport_value vp) = Some (JNum (vp_height vp))
              /\ get "elementCount" entry
                 = Some (JNat (length (all_elements recorded)))
              /\ get "layoutStructure" entry = Some l
              /\ get "designTokens" entry
                 = Some (collectDesignTokens_page styled)
              /\ get "elements" entry = None
              /\ get "assets" entry = None
              /\ get "componentPatterns" entry = None.
Proof.
  split.
  - intros Hweb. rewrite analyzeResponsive_eq.
    set (w0 := say _ w).
    destruct (responsive_loop_succeeds web media url viewports [] w0 Hweb)
      as (r & w1 & ->).
    by eexists.
  - intros w'. rewrite analyzeResponsive_eq.
    set (w0 := say _ w).
    destruct (responsive_loop web media url viewports [] w0)
      as [[r|e] w1] eqn:Hloop; [|done].
    intros [= <-]. cbn [data store responsive with_responsive].
    apply responsive_loop_ok_inv in Hloop as (entries & Hentries & ->).
    change (navigations w0) with (navigations w) in Hentries.
    unfold viewports in Hentries.
    apply Forall2_cons_inv_l in Hentries
      as ([n1 e1] & t1 & (k1 & p1 & s1 & r1 & m1 & l1 & K1 & P1 & S1 & R1 & M1
                          & L1 & E1) & Hentries & ->).
    apply Forall2_cons_inv_l in Hentries
      as ([n2 e2] & t2 & (k2 & p2 & s2 & r2 & m2 & l2 & K2 & P2 & S2 & R2 & M2
                          & L2 & E2) & Hentries & ->).
    apply Forall2_cons_inv_l in Hentries
      as ([n3 e3] & t3 & (k3 & p3 & s3 & r3 & m3 & l3 & K3 & P3 & S3 & R3 & M3
                          & L3 & E3) & Hentries & ->).
    apply Forall2_nil_inv_l in Hentries as ->.
    injection E1 as -> ->. injection E2 as -> ->. injection E3 as -> ->.
    split; [reflexivity|].
    intros vp Hvp. unfold viewports in Hvp.
    repeat (apply elem_of_cons in Hvp as [->|Hvp]);
      [exists k1, p1, s1, r1, m1, l1|exists k2, p2, s2, r2, m2, l2
      |exists k3, p3, s3, r3, m3, l3|by apply elem_of_nil in Hvp];
      (eexists; split_and!; try done; try reflexivity;
       unfold responsive_entry; by rewrite collectElementData_page_length).
Qed.

Lemma still_serves (d : Snapshot) (b : Handle) :
  body d = Some b -> serves (still d).
Proof.
  intros Hb. split; [|split].
  - intros k _ _. by exists d.
  - intros d' [= <-]. by exists b.
  - intros d' [= <-]. by exists b.
Qed.

Lemma responsive_map_shape_witness :
  exists w',
    analyzeResponsive (web_serving (still two_buttons)) no_media example_url
      initial_world = (Ok tt, w')
    /\ keys (responsive (data w')) = ["mobile"; "tablet"; "desktop"].
Proof.
  destruct (proj1 (responsive_map_shape (web_serving (still two_buttons))
                     no_media example_url initial_world)) as [w' Hrun].
  - intros k vp _. eexists. split; [reflexivity|].
    apply (still_serves two_buttons (element_at two_buttons 2)).
    vm_compute. reflexivity.
  - exists w'. split; [exact Hrun|].
    apply (proj2 (responsive_map_shape (web_serving (still two_buttons))
                    no_media example_url initial_world) w' Hrun).
Defined.

Section Failure.

Variable web : nat -> string -> Viewport -> Res Page.
Variable media : Snapshot -> JValue * JValue * JValue.
Variable host : Host.

(** A navigation of the loop that fails makes the loop throw; the error
    is that navigation's when the runs before it went through. *)
Lemma responsive_loop_throws (url : string) (vps : list Viewport)
    (acc : Fields) (w : World) (k : nat) (vp : Viewport) (e : string) :
  vps !! k = Some vp ->
  web (navigations w + k)%nat url vp = Throw e ->
  exists e' w',
    responsive_loop web media url vps acc w = (Throw e', w')
    /\ (earlier_load web url vps (navigations w) k -> e' = e).
Proof.
  revert acc w k. induction vps as [|vp0 vps IH]; intros acc w k Hk He;
    [by destruct k|].
  rewrite responsive_loop_cons.
  set (w0 := say _ w).
  assert (Hn0 : navigations w0 = navigations w) by done.
  clearbody w0.
  destruct (analyzePage_frame web media url vp0 w0)
    as (_ & _ & _ & Hn & _).
  destruct k as [|k].
  - injection Hk as ->. rewrite Nat.add_0_r, <- Hn0 in He.
    destruct (analyzePage_throws web media url vp w0 e He) as [Hf _].
    destruct (analyzePage web media url vp w0) as [r w1].
    cbn [fst] in Hf. subst r. by eexists _, _.
  - simpl in Hk.
    destruct (analyzePage web media url vp0 w0) as [[[]|e0] w1] eqn:Hrun;
      cbn [fst snd] in *.
    + edestruct (IH (assoc_set (name_key vp0)
                       (responsive_entry vp0 (elements (data w1))
                          (layout (data w1)) (designTokens (data w1))) acc)
                   w1 k Hk) as (e' & w' & Hloop & He').
      { rewrite Hn, Hn0.
        by replace (S (navigations w) + k)%nat with (navigations w + S k)%nat
          by lia. }
      exists e', w'. split; [done|]. intros Hearly. apply He'.
      intros j vp' Hj Hvp'. rewrite Hn, Hn0.
      destruct (Hearly (S j) vp' ltac:(lia) Hvp') as (p & Hp & Hs).
      exists p. split; [|done].
      by replace (S (navigations w) + j)%nat with (navigations w + S j)%nat
        by lia.
    + exists e0, w1. split; [done|]. intros Hearly.
      destruct (Hearly 0%nat vp0 ltac:(lia) eq_refl) as (p & Hp & Hs).
      rewrite Nat.add_0_r, <- Hn0 in Hp.
      pose proof (analyzePage_succeeds web media url vp0 w0 p Hp Hs) as Hok.
      rewrite Hrun in Hok. discriminate Hok.
Qed.

(** [saveResults], step by step. *)
Lemma saveResults_eq (w : World) :
  saveResults host w =
  match hostname host (metadata_url (data w)) with
  | Throw e => (Throw e, w)
  | Ok domain =>
      let outputPath :=
        output_path host domain (default_filename domain (save_time host)) in
      match write_error host outputPath with
      | Some e => (Throw e, w)
      | None =>
          (Ok outputPath,
           say ("Analysis saved to: " +:+ outputPath)
             (write_document outputPath (document_of (data w)) w))
      end
  end.
Proof.
  unfold saveResults, bind, read, lift. 
  destruct (hostname host (metadata_url (data w))) as [domain|e]; [|done].
  cbv zeta.
  by destruct (write_error host
                 (output_path host domain
                    (default_filename domain (save_time host)))).
Qed.

(** The [try] block of [main], run by run. *)
Lemma main_try_eq (url : string) (w : World) :
  main_try web media host url w =
  match analyzePage web media url desktop
          (set_browser true (say "Initializing Playwright browser..." w)) with
  | (Ok _, w1) =>
      match analyzeResponsive web media url w1 with
      | (Ok _, w2) =>
          match saveResults host w2 with
          | (Ok outputFile, w3) =>
              (Ok tt,
               say (newline +:+ "Analysis complete! Results saved to: "
                    +:+ outputFile) w3)
          | (Throw e, w3) => (Throw e, w3)
          end
      | (Throw e, w2) => (Throw e, w2)
      end
  | (Throw e, w1) => (Throw e, w1)
  end.
Proof. reflexivity. Qed.

(** The same for the [try] block of [main], whose runs are the desktop
    run and the three of the responsive pass. *)
Lemma main_try_throws (url : string) (w : World) (k : nat) (vp : Viewport)
    (e : string) :
  (desktop :: viewports) !! k = Some vp ->
  web (navigations w + k)%nat url vp = Throw e ->
  exists e' w',
    main_try web media host url w = (Throw e', w')
    /\ written w' = written w
    /\ (contexts w = [] -> contexts w' = [])
    /\ (earlier_load web url (desktop :: viewports) (navigations w) k -> e' = e).
Proof.
  intros Hk He. rewrite main_try_eq.
  set (w0 := set_browser _ _).
  assert (Hn0 : navigations w0 = navigations w) by done.
  assert (Hw0 : written w0 = written w) by done.
  assert (Hc0 : contexts w0 = contexts w) by done.
  clearbody w0.
  destruct (analyzePage_frame web media url desktop w0)
    as (_ & _ & _ & Hn & Hw & _).
  destruct (analyzePage_closes web media url desktop w0) as [_ Hc].
  destruct k as [|k].
  - injection Hk as <-. rewrite Nat.add_0_r, <- Hn0 in He.
    destruct (analyzePage_throws web media url desktop w0 e He) as [Hf _].
    destruct (analyzePage web media url desktop w0) as [r w1].
    cbn [fst snd] in *. subst r. exists e, w1.
    split_and!; [done|congruence|intros H; apply Hc; congruence|done].
  - simpl in Hk.
    destruct (analyzePage web media url desktop w0) as [[[]|e0] w1] eqn:Hrun;
      cbn [fst snd] in *.
    + rewrite analyzeResponsive_eq.
      set (w2 := say _ w1).
      assert (Hn2 : navigations w2 = navigations w1) by done.
      assert (Hw2 : written w2 = written w1) by done.
      assert (Hc2 : contexts w2 = contexts w1) by done.
      clearbody w2.
      destruct (responsive_loop_frame web media url viewports [] w2)
        as (Hfw & _ & Hfc).
      destruct (responsive_loop_throws url viewports [] w2 k vp e Hk)
        as (e' & w' & Hloop & He').
      { rewrite Hn2, Hn, Hn0.
        by replace (S (navigations w) + k)%nat with (navigations w + S k)%nat
          by lia. }
      rewrite Hloop in *. cbn [fst snd] in *. exists e', w'.
      split_and!; [done|congruence| |].
      * intros H. apply Hfc. rewrite Hc2. apply Hc. congruence.
      * intros Hearly. apply He'. intros j vp' Hj Hvp'.
        destruct (Hearly (S j) vp' ltac:(lia) Hvp') as (p & Hp & Hs).
        exists p. split; [|done]. rewrite Hn2, Hn, Hn0.
        by replace (S (navigations w) + j)%nat with (navigations w + S j)%nat
          by lia.
    + exists e0, w1. split_and!; [done|congruence| |].
      * intros H. apply Hc. congruence.
      * intros Hearly.
        destruct (Hearly 0%nat desktop ltac:(lia) eq_refl) as (p & Hp & Hs).
        rewrite Nat.add_0_r, <- Hn0 in Hp.
        pose proof (analyzePage_succeeds web media url desktop w0 p Hp Hs)
          as Hok.
        rewrite Hrun in Hok. discriminate Hok.
Qed.

End Failure.

(** C8.  When a navigation of a run of [main] fails, the run of
    [analyzePage] throws that error to its caller, the process ends with
    exit code 1 after printing it, and no document is written; the
    browsing context of every page run is closed when the run ends,
    whether it returned or threw, so that no context is open when the
    next run starts. *)
Theorem navigation_failure_aborts
    (web : nat -> string -> Viewport -> Res Page)
    (media : Snapshot -> JValue * JValue * JValue) (host : Host)
    (url : string) (w : World) (k : nat) (vp : Viewport) (e : string) :
  truthy url = true ->
  (desktop :: viewports) !! k = Some vp ->
  web (navigations w + k)%nat url vp = Throw e ->
  let w' := main web media host (Some url) w in
  exit_code w' = Some 1
  /\ written w' = written w
  /\ (contexts w = [] -> contexts w' = [])
  /\ (earlier_load web url (desktop :: viewports) (navigations w) k ->
      last (console w') = Some ("Analysis failed: " +:+ e))
  /\ forall url0 vp0 w0,
       let run := analyzePage web media url0 vp0 w0 in
       (contexts_created w0 ∉ contexts (snd run))
       /\ (contexts w0 = [] -> contexts (snd run) = [])
       /\ written (snd run) = written w0
       /\ forall e0, web (navigations w0) url0 vp0 = Throw e0 ->
                     fst run = Throw e0 /\ data (snd run) = data w0.
Proof.
  intros Hurl Hk He. cbv zeta. unfold main. rewrite Hurl.
  destruct (main_try_throws web media host url w k vp e Hk He)
    as (e' & w1 & -> & Hw & Hc & Hmsg).
  unfold end_process, log. cbn [snd exit_code written contexts console].
  split_and!; try done.
  - intros Hearly. rewrite (Hmsg Hearly). apply last_snoc.
  - intros url0 vp0 w0.
    destruct (analyzePage_frame web media url0 vp0 w0)
      as (_ & _ & _ & _ & Hw0 & _).
    destruct (analyzePage_closes web media url0 vp0 w0) as [H1 H2].
    split_and!; try done. intros e0. apply analyzePage_throws.
Qed.

Lemma navigation_failure_aborts_witness :
  exit_code (main web_down no_media example_host (Some example_url)
               initial_world) = Some 1
  /\ written (main web_down no_media example_host (Some example_url)
                initial_world) = []
  /\ contexts (main web_down no_media example_host (Some example_url)
                 initial_world) = [].
Proof.
  destruct (navigation_failure_aborts web_down no_media example_host
              example_url initial_world 0 desktop "net::ERR_NAME_NOT_RESOLVED"
              eq_refl eq_refl eq_refl) as (H1 & H2 & H3 & _).
  split; [exact H1|]. split; [exact H2|]. exact (H3 eq_refl).
Defined.

(* ===================================================================== *)
(** * The element tree in document order *)
(* ===================================================================== *)

(** Induction on nodes, with the hypothesis for every child. *)
Lemma Node_nested_ind (P : Node -> Prop) :
  (forall t, P (TextNode t)) ->
  (forall e kids, Forall P kids -> P (ElementNode e kids)) ->
  forall n, P n.
Proof.
  intros Htext Helem. fix IH 1. intros [t|e kids]; [apply Htext|].
  apply Helem. induction kids as [|k kids IHkids]; constructor; [apply IH|done].
Qed.

Lemma walk_element (parent : option Handle) (path : list nat) (e : ElemInfo)
    (kids : list Node) :
  walk parent path (ElementNode e kids) =
  mkHandle path e kids parent :: walk_kids (mkHandle path e kids parent) 0 kids.
Proof.
  simpl. f_equal.
  remember (mkHandle path e kids parent) as h eqn:Hh.
  assert (Hp : h_path h = path) by (by subst h).
  clear Hh. generalize 0%nat.
  induction kids as [|k kids IH]; intros i; [done|].
  simpl. by rewrite IH, Hp.
Qed.

Lemma walk_kids_elem (h h' : Handle) (i : nat) (ks : list Node) :
  h' ∈ walk_kids h i ks <->
  exists j k, ks !! j = Some k
              /\ h' ∈ walk (Some h) (h_path h ++ [i + j]%nat) k.
Proof.
  revert i. induction ks as [|k0 ks IH]; intros i; simpl.
  - rewrite elem_of_nil. split; [done|]. intros (j & k & H & _). by destruct j.
  - rewrite elem_of_app, IH. split.
    + intros [H|(j & k & Hk & H)].
      * exists 0%nat, k0. by rewrite Nat.add_0_r.
      * exists (S j), k. split; [done|].
        by replace (i + S j)%nat with (S i + j)%nat by lia.
    + intros ([|j] & k & Hk & H).
      * injection Hk as <-. left. by rewrite Nat.add_0_r in H.
      * right. exists j, k. split; [done|].
        by replace (S i + j)%nat with (i + S j)%nat by lia.
Qed.

(** Every reference of a walk sits at the place its path names. *)
Lemma walk_node_at (n : Node) :
  forall parent path h,
    h ∈ walk parent path n ->
    exists rel, h_path h = (path ++ rel)%list
                /\ node_at n rel = Some (ElementNode (h_info h) (h_kids h)).
Proof.
  induction n as [t|e kids IH] using Node_nested_ind; intros parent path h Hin.
  - by apply elem_of_nil in Hin.
  - rewrite walk_element in Hin. apply elem_of_cons in Hin as [->|Hin].
    + exists []. by rewrite app_nil_r.
    + apply walk_kids_elem in Hin as (j & k & Hk & Hin). simpl in Hin.
      rewrite Forall_forall in IH.
      destruct (IH k (list_elem_of_lookup_2 _ _ _ Hk) _ _ _ Hin)
        as (rel & Hpath & Hnode).
      exists (j :: rel). split.
      * by rewrite Hpath, <- app_assoc.
      * simpl. by rewrite Hk.
Qed.

(** Every reference of a walk is its root or has its parent in the walk,
    and is then an element child of that parent. *)
Lemma walk_parent (n : Node) :
  forall parent path h,
    h ∈ walk parent path n ->
    (h_path h = path /\ parentElement h = parent)
    \/ exists p e ks,
         parentElement h = Some p /\ p ∈ walk parent path n
         /\ ElementNode e ks ∈ h_kids p.
Proof.
  induction n as [t|e kids IH] using Node_nested_ind; intros parent path h Hin.
  - by apply elem_of_nil in Hin.
  - rewrite walk_element in Hin. apply elem_of_cons in Hin as [->|Hin];
      [by left|].
    right. pose proof Hin as Hin0.
    apply walk_kids_elem in Hin as (j & k & Hk & Hin). simpl in Hin.
    rewrite Forall_forall in IH.
    pose proof (list_elem_of_lookup_2 _ _ _ Hk) as Hkin.
    destruct (IH k Hkin _ _ _ Hin) as [[Hpath Hpar]|(p & e' & ks & Hpar & Hp & Hkid)].
    + destruct k as [t|e' ks]; [by apply elem_of_nil in Hin|].
      exists (mkHandle path e kids parent), e', ks.
      split; [done|]. split; [|done]. rewrite walk_element. apply list_elem_of_here.
    + exists p, e', ks. split; [done|]. split; [|done].
      rewrite walk_element. apply list_elem_of_further, walk_kids_elem.
      by exists j, k.
Qed.

Lemma children_from_element (h : Handle) (i : nat) (ks : list Node)
    (e : ElemInfo) (kids : list Node) :
  ElementNode e kids ∈ ks -> (1 <= length (children_from h i ks))%nat.
Proof.
  revert i. induction ks as [|k ks IH]; intros i Hin;
    [by apply elem_of_nil in Hin|].
  apply elem_of_cons in Hin as [<-|Hin]; simpl; [lia|].
  destruct k; simpl; [by apply IH|lia].
Qed.

Lemma indexOf_from_found (l : list Handle) (p : Handle) (i : Z) :
  p ∈ l ->
  exists j q, indexOf_from i p l = i + Z.of_nat j
              /\ l !! j = Some q /\ same_element q p = true.
Proof.
  revert i. induction l as [|y l IH]; intros i Hin;
    [by apply elem_of_nil in Hin|].
  simpl. destruct (same_element y p) eqn:Hy.
  - exists 0%nat, y. split; [lia|done].
  - apply elem_of_cons in Hin as [->|Hin].
    + unfold same_element in Hy. by rewrite bool_decide_true in Hy.
    + destruct (IH (i + 1) Hin) as (j & q & Hj & Hq & Hs).
      exists (S j), q. split; [lia|done].
Qed.

(** A parent found through [parentElement] is in the document, and the
    element the document holds at its place has an element child. *)
Lemma parent_in_document (d : Snapshot) (el p : Handle) :
  el ∈ all_elements d -> parentElement el = Some p ->
  exists j q,
    indexOf (all_elements d) p = Z.of_nat j
    /\ all_elements d !! j = Some q
    /\ same_element q p = true
    /\ (1 <= length (children q))%nat.
Proof.
  intros Hel Hpar. unfold all_elements in *.
  destruct (walk_parent _ _ _ _ Hel) as [[_ Hnone]|(p' & e & ks & Hp' & Hin & Hkid)];
    [congruence|].
  rewrite Hpar in Hp'. injection Hp' as <-.
  destruct (indexOf_from_found _ p 0 Hin) as (j & q & Hj & Hq & Hsame).
  exists j, q. split; [exact Hj|]. split; [done|]. split; [done|].
  pose proof (list_elem_of_lookup_2 _ _ _ Hq) as Hqin.
  destruct (walk_node_at _ _ _ _ Hqin) as (rq & Hrq & Hnq).
  destruct (walk_node_at _ _ _ _ Hin) as (rp & Hrp & Hnp).
  unfold same_element in Hsame. apply bool_decide_eq_true in Hsame.
  simpl in Hrq, Hrp. rewrite Hrq, Hrp in Hsame. subst rq.
  rewrite Hnq in Hnp. injection Hnp as _ Hkids.
  unfold children. rewrite Hkids. by eapply children_from_element.
Qed.

(** C4.  The records of one pass carry the indices 0, 1, ... in order, one
    per element.  The [parentIndex] of a record is [null] when the element
    has no parent element; otherwise it is the index of a record of the
    same sequence, the record of the parent, whose [childCount] is at
    least 1. *)
Theorem parent_links_valid (d : Snapshot) :
  let records := collectElementData_page d in
  length records = length (all_elements d)
  /\ (forall i r, records !! i = Some r -> get "index" r = Some (JNat i))
  /\ forall i r,
       records !! i = Some r ->
       exists el,
         all_elements d !! i = Some el
         /\ match parentElement el with
            | None => get "parentIndex" r = Some JNull
            | Some p =>
                exists j q r' c,
                  get "parentIndex" r = Some (JNat j)
                  /\ (j < length records)%nat
                  /\ records !! j = Some r'
                  /\ all_elements d !! j = Some q
                  /\ same_element q p = true
                  /\ get "index" r' = Some (JNat j)
                  /\ get "childCount" r' = Some (JNat c)
                  /\ (1 <= c)%nat
            end.
Proof.
  cbv zeta. unfold collectElementData_page.
  split; [apply length_imap|]. split.
  - intros i r Hr. apply list_lookup_imap_Some in Hr as (el & _ & ->).
    reflexivity.
  - intros i r Hr. apply list_lookup_imap_Some in Hr as (el & Hel & ->).
    exists el. split; [done|].
    destruct (parentElement el) as [p|] eqn:Hpar.
    + destruct (parent_in_document d el p (list_elem_of_lookup_2 _ _ _ Hel) Hpar)
        as (j & q & Hj & Hq & Hsame & Hkids).
      exists j, q, (element_record d j q), (length (children q)).
      split_and!; try done.
      * unfold element_record. rewrite Hpar, Hj. reflexivity.
      * rewrite length_imap. by eapply lookup_lt_Some.
      * rewrite list_lookup_imap, Hq. reflexivity.
    + unfold element_record. rewrite Hpar. reflexivity.
Qed.

Example parent_links_of_two_buttons :
  map (fun r => (get "index" r, get "parentIndex" r, get "childCount" r))
    (collectElementData_page two_buttons)
  = [(Some (JNum 0), Some JNull, Some (JNum 2));
     (Some (JNum 1), Some (JNum 0), Some (JNum 0));
     (Some (JNum 2), Some (JNum 0), Some (JNum 2));
     (Some (JNum 3), Some (JNum 2), Some (JNum 0));
     (Some (JNum 4), Some (JNum 2), Some (JNum 0))].
Proof. vm_compute. reflexivity. Qed.

(* ===================================================================== *)
(** * Selectors and landmarks *)
(* ===================================================================== *)

Lemma Handle_parent_ind (P : Handle -> Prop) :
  (forall path e kids, P (mkHandle path e kids None)) ->
  (forall path e kids p, P p -> P (mkHandle path e kids (Some p))) ->
  forall h, P h.
Proof.
  intros Hroot Hstep. fix IH 1. intros [path e kids [p|]].
  - apply Hstep, IH.
  - apply Hroot.
Qed.

(** The loop of [generateSelector] goes all the way up: one step per
    element from the root element down to the element itself. *)
Lemma selector_walk_steps (el : Handle) (path : list string) :
  selector_walk el path
  = (map selector_step (rev (el :: ancestors el)) ++ path)%list.
Proof.
  revert path. induction el as [p e kids|p e kids parent IH]
    using Handle_parent_ind; intros path; [done|].
  cbn [selector_walk]. rewrite IH.
  change (ancestors (mkHandle p e kids (Some parent)))
    with (parent :: ancestors parent).
  change (rev (mkHandle p e kids (Some parent) :: parent :: ancestors parent))
    with (rev (parent :: ancestors parent) ++ [mkHandle p e kids (Some parent)])%list.
  by rewrite map_app, <- app_assoc.
Qed.

(** Where no element on the way has an id, the walk of the specification
    is the walk of the code. *)
Lemma claimed_walk_no_ids (el : Handle) (path : list string) :
  el_id el = "" -> Forall (fun a => el_id a = "") (ancestors el) ->
  claimed_walk el path = selector_walk el path.
Proof.
  revert path. induction el as [p e kids|p e kids parent IH]
    using Handle_parent_ind; intros path Hid Hanc.
  - cbn [claimed_walk selector_walk]. by rewrite Hid.
  - cbn [claimed_walk selector_walk]. rewrite Hid. cbn [truthy String.eqb negb].
    change (ancestors (mkHandle p e kids (Some parent)))
      with (parent :: ancestors parent) in Hanc.
    apply Forall_cons in Hanc as [Hp Hanc]. by apply IH.
Qed.

Lemma append_empty (s : string) : s +:+ "" = s.
Proof.
  induction s as [|c s IH]; [done|].
  change (String c s +:+ "") with (String c (s +:+ "")). by rewrite IH.
Qed.

(** [document.body], when there is one, is a child of the [html] root
    element and is a [body] or a [frameset]. *)
Lemma body_is_child (d : Snapshot) (b : Handle) :
  body d = Some b ->
  exists root,
    head (all_elements d) = Some root
    /\ toLowerCase (tagName root) = "html"
    /\ b ∈ children root
    /\ (toLowerCase (tagName b) = "body"
        \/ toLowerCase (tagName b) = "frameset").
Proof.
  unfold body. destruct (all_elements d) as [|root rest]; [done|].
  destruct (String.eqb_spec (toLowerCase (tagName root)) "html") as [Hr|];
    [|done].
  destruct (filter _ (children root)) as [|x l] eqn:Hf; [done|].
  intros [= ->]. exists root. split; [done|]. split; [done|].
  assert (Hin : b ∈ filter
                      (fun h => is_body_tag (toLowerCase (tagName h)) = true)
                      (children root)) by (rewrite Hf; apply list_elem_of_here).
  apply list_elem_of_filter in Hin as [Htag Hin]. split; [done|].
  unfold is_body_tag in Htag. apply orb_true_iff in Htag as [H|H];
    apply String.eqb_eq in H; tauto.
Qed.

(** C6 (amended).  The selector of an element is [#id] when the element
    itself has an id and [body] when it is [document.body], the [body] or
    [frameset] child of the root element; otherwise it is built by walking
    from the element up to the root element, one step per element met,
    each step the lowercased tag name followed, when the class name is a
    non-empty string, by a dot and the dot-joined class tokens, the steps
    joined by [ > ].  The ids of ancestors play no part: the walk never
    stops before the root.  It agrees with the walk that stops at the
    first ancestor with an id whenever no ancestor has one. *)
Theorem selector_walks_to_root (d : Snapshot) (el : Handle) :
  generateSelector d el
  = (if truthy (el_id el) then "#" +:+ el_id el
     else if is_body d el then "body"
     else join " > " (map selector_step (rev (el :: ancestors el))))
  /\ (is_body d el = true
      <-> exists b, body d = Some b /\ h_path el = h_path b)
  /\ (forall b,
        body d = Some b ->
        exists root,
          head (all_elements d) = Some root
          /\ toLowerCase (tagName root) = "html"
          /\ b ∈ children root
          /\ (toLowerCase (tagName b) = "body"
              \/ toLowerCase (tagName b) = "frameset"))
  /\ (forall a,
        selector_step a
        = toLowerCase (nodeName (h_info a))
          +:+ match className a with
              | Some cn => if truthy cn then "." +:+ join "." (class_list a)
                           else ""
              | None => ""
              end)
  /\ (Forall (fun a => el_id a = "") (ancestors el) ->
      generateSelector d el = claimed_selector d el).
Proof.
  split; [|split; [|split; [|split]]].
  - unfold generateSelector. by rewrite selector_walk_steps, app_nil_r.
  - unfold is_body, same_element. destruct (body d) as [b|].
    + rewrite bool_decide_eq_true. split; [by exists b|].
      by intros (b' & [= <-] & H).
    + split; [done|]. by intros (b & H & _).
  - apply body_is_child.
  - intros a. unfold selector_step, class_list.
    destruct (className a) as [cn|]; [|by rewrite append_empty].
    destruct (truthy cn); [done|by rewrite append_empty].
  - intros Hanc. unfold generateSelector, claimed_selector.
    destruct (truthy (el_id el)) eqn:Hid; [done|].
    destruct (is_body d el); [done|]. f_equal. symmetry.
    apply claimed_walk_no_ids; [|done].
    unfold truthy in Hid. apply negb_false_iff in Hid.
    by apply String.eqb_eq.
Qed.

Lemma selector_walks_to_root_witness :
  generateSelector two_buttons (element_at two_buttons 4)
  = "html > body > button.btn.secondary"
  /\ generateSelector two_buttons (element_at two_buttons 4)
     = claimed_selector two_buttons (element_at two_buttons 4).
Proof.
  split; [vm_compute; reflexivity|].
  apply (proj2 (proj2 (proj2 (proj2 (selector_walks_to_root two_buttons
                                       (element_at two_buttons 4)))))).
  vm_compute. repeat constructor.
Defined.

(** C6, as stated, fails: the paragraph inside [<div id="a">] gets the
    full path from [html], not a path that stops at [#a]. *)
Lemma selector_ignores_ancestor_id :
  (exists a, a ∈ ancestors (element_at nested_in_id 5) /\ el_id a = "a")
  /\ generateSelector nested_in_id (element_at nested_in_id 5)
     = "html > body > div > p"
  /\ claimed_selector nested_in_id (element_at nested_in_id 5) = "#a > p"
  /\ generateSelector nested_in_id (element_at nested_in_id 5)
     <> claimed_selector nested_in_id (element_at nested_in_id 5).
Proof.
  split_and!.
  - exists (element_at nested_in_id 4). split; [|reflexivity].
    vm_compute. apply list_elem_of_here.
  - vm_compute. reflexivity.
  - vm_compute. reflexivity.
  - vm_compute. discriminate.
Qed.

(** The record of a landmark: either [{exists: false}], or four fields in
    which [position] is the CSS position mode, the second of the two
    values the literal writes under that key. *)
Lemma section_info_shape (el : Handle) :
  section_info None = obj [("exists", JBool false)]
  /\ keys (section_info (Some el))
     = ["exists"; "dimensions"; "position"; "display"]
  /\ get "position" (section_info (Some el)) = Some (JStr (style el "position"))
  /\ get "x" (section_info (Some el)) = None
  /\ get "y" (section_info (Some el)) = None.
Proof. by split_and!. Qed.

(** C5.  On a page whose [<header>] lies at (5, 7) with [position: static],
    the record of the header has the keys [exists], [dimensions],
    [position] and [display]; [position] holds the string [static], and
    the coordinates 5 and 7 are nowhere in the record.  The claim asks for
    both the geometric position and the position mode. *)
Theorem header_position_lost :
  rect_x (getBoundingClientRect (element_at nested_in_id 3)) = 5
  /\ rect_y (getBoundingClientRect (element_at nested_in_id 3)) = 7
  /\ querySelector nested_in_id "header" = Some (Some (element_at nested_in_id 3))
  /\ exists layout sections,
       collectLayoutStructure_page nested_in_id = Ok layout
       /\ get "sections" layout = Some sections
       /\ keys sections = ["header"; "nav"; "main"; "aside"; "footer"]
       /\ get "header" sections
          = Some (JObj [("exists", JBool true);
                        ("dimensions", JObj [("width", JNum 300);
                                             ("height", JNum 40)]);
                        ("position", JStr "static");
                        ("display", JStr "block")])
       /\ get "nav" sections = Some (JObj [("exists", JBool false)]).
Proof.
  split_and!; try (vm_compute; reflexivity).
  eexists _, _. split_and!; vm_compute; reflexivity.
Qed.

(* ===================================================================== *)
(** * Depth, text excerpts, class tokens and the objects built in a loop *)
(* ===================================================================== *)

Lemma nesting_element (e : ElemInfo) (kids : list Node) :
  nesting (ElementNode e kids) = deepest kids.
Proof.
  simpl. induction kids as [|k kids IH]; [done|].
  destruct k; simpl; by rewrite IH.
Qed.

Lemma getDepth_element (e : ElemInfo) (kids : list Node) (depth m : nat) :
  getDepth (ElementNode e kids) depth m
  = getDepth_each kids depth (Nat.max m depth).
Proof.
  simpl. generalize (Nat.max m depth).
  induction kids as [|k kids IH]; intros m'; [done|]. simpl. by rewrite IH.
Qed.

Lemma getDepth_nesting (n : Node) :
  forall depth m,
    getDepth n depth m
    = if is_element n then Nat.max m (depth + nesting n)%nat else m.
Proof.
  induction n as [t|e kids IH] using Node_nested_ind; intros depth m; [done|].
  rewrite getDepth_element, nesting_element. cbn [is_element].
  assert (Hgen : forall m', getDepth_each kids depth m'
                            = Nat.max m' (if bool_decide (deepest kids = 0%nat)
                                          then 0 else depth + deepest kids)%nat).
  { clear m. induction IH as [|k kids Hk _ IHkids]; intros m'.
    - simpl. lia.
    - simpl. rewrite IHkids, Hk. destruct k as [t|e' ks]; cbn [is_element].
      + done.
      + repeat case_bool_decide; lia. }
  rewrite Hgen. case_bool_decide; lia.
Qed.

Lemma children_from_nil (h : Handle) (i : nat) (ks : list Node) :
  children_from h i ks = [] <-> deepest ks = 0%nat.
Proof.
  revert i. induction ks as [|k ks IH]; intros i; [done|].
  destruct k as [t|e kids]; simpl; [apply IH|].
  split; [done|]. lia.
Qed.

Lemma deepest_bound (h : Handle) (ks : list Node) :
  Forall (fun k => forall p path, is_element k = true ->
                                  (nesting k < length (walk p path k))%nat) ks ->
  forall i, (deepest ks <= length (walk_kids h i ks))%nat.
Proof.
  induction 1 as [|k ks Hk _ IH]; intros i; simpl; [lia|].
  rewrite length_app. specialize (IH (S i)).
  destruct k as [t|e kids]; [simpl; lia|].
  specialize (Hk (Some h) (h_path h ++ [i])%list eq_refl). lia.
Qed.

(** An element nests less deep than it has elements. *)
Lemma nesting_bound (n : Node) :
  forall p path, is_element n = true ->
                 (nesting n < length (walk p path n))%nat.
Proof.
  induction n as [t|e kids IH] using Node_nested_ind; intros p path Hn; [done|].
  rewrite walk_element, nesting_element. simpl length.
  pose proof (deepest_bound (mkHandle path e kids p) kids IH 0%nat). lia.
Qed.

(** X1.  [metadata.domDepth] is the nesting depth of elements below the
    [body] of the document its call finds: 0 exactly when [body] has no
    element child, text nodes never counting, and always less than the
    number of elements in [body]'s subtree. *)
Theorem domDepth_is_nesting (url : string) (viewport : Viewport) (t : Z)
    (p : Page) (m : JValue) :
  collectMetadata_page url viewport t p = Ok m ->
  exists d b,
    at_call p call_domDepth = Ok d
    /\ body d = Some b
    /\ get "domDepth" m
       = Some (JNat (nesting (ElementNode (h_info b) (h_kids b))))
    /\ (nesting (ElementNode (h_info b) (h_kids b)) = 0%nat
        <-> children b = [])
    /\ (nesting (ElementNode (h_info b) (h_kids b))
        < length (walk (parentElement b) (h_path b)
                    (ElementNode (h_info b) (h_kids b))))%nat.
Proof.
  intros Hm. apply collectMetadata_page_inv in Hm
    as (counted & d & b & agent & titled & _ & Hd & Hb & _ & _ & _ & _ & _
        & Hdepth & _).
  exists d, b. split; [done|]. split; [done|]. split; [|split].
  - by rewrite Hdepth, getDepth_nesting.
  - rewrite nesting_element. unfold children. symmetry. apply children_from_nil.
  - by apply nesting_bound.
Qed.

Lemma domDepth_is_nesting_witness :
  exists m d b,
    collectMetadata_page example_url desktop 12 (still two_buttons) = Ok m
    /\ at_call (still two_buttons) call_domDepth = Ok d
    /\ body d = Some b
    /\ get "domDepth" m = Some (JNum 1).
Proof.
  destruct (collectMetadata_page example_url desktop 12 (still two_buttons))
    as [m|e] eqn:Hm; [|vm_compute in Hm; discriminate Hm].
  destruct (domDepth_is_nesting example_url desktop 12 (still two_buttons) m Hm)
    as (d & b & Hd & Hb & Hdepth & _).
  exists m, d, b. split; [reflexivity|]. split; [exact Hd|]. split; [exact Hb|].
  rewrite Hdepth. injection Hd as <-. vm_compute in Hb. injection Hb as <-.
  reflexivity.
Defined.

(** A document with a [frameset] in the place of a body: the frameset is
    [document.body], so its selector is [body] and the depth is counted
    below it. *)
Example frameset_is_body :
  body framed = Some (element_at framed 2)
  /\ generateSelector framed (element_at framed 2) = "body"
  /\ domDepth_page framed = Ok 1%nat.
Proof. vm_compute. by split_and!. Qed.

(* ---- strings ---- *)











Lemma split_nonempty (sep : ascii) (s : string) : split sep s <> [].
Proof.
  destruct s as [|c s]; [done|]. simpl.
  destruct (Ascii.eqb c sep); [done|]. by destruct (split sep s).
Qed.

(** Splitting at a character and joining with it gives the string back. *)
Lemma join_split (sep : ascii) (s : string) :
  join (String sep "") (split sep s) = s.
Proof.
  induction s as [|c s IH]; [done|]. simpl.
  destruct (Ascii.eqb_spec c sep) as [->|Hne].
  - pose proof (split_nonempty sep s) as Hn.
    destruct (split sep s) as [|t ts]; [done|].
    change (join (String sep "") ("" :: t :: ts))
      with (String sep (join (String sep "") (t :: ts))).
    by rewrite IH.
  - pose proof (split_nonempty sep s) as Hn.
    destruct (split sep s) as [|t ts]; [done|].
    destruct ts as [|t' ts].
    + simpl in *. by rewrite IH.
    + change (join (String sep "") (String c t :: t' :: ts))
        with (String c (join (String sep "") (t :: t' :: ts))).
      by rewrite IH.
Qed.

(** No piece of a split holds the separator. *)
Lemma split_pieces (sep : ascii) (s t : string) :
  t ∈ split sep s -> sep ∉ chars t.
Proof.
  revert t. induction s as [|c s IH]; intros t; simpl.
  - intros Ht. apply list_elem_of_singleton in Ht as ->. apply not_elem_of_nil.
  - destruct (Ascii.eqb_spec c sep) as [->|Hne].
    + intros Ht. apply elem_of_cons in Ht as [->|Ht];
        [apply not_elem_of_nil|by apply IH].
    + pose proof (split_nonempty sep s) as Hn.
      destruct (split sep s) as [|t0 ts]; [done|].
      intros Ht. apply elem_of_cons in Ht as [->|Ht].
      * unfold chars. simpl. apply not_elem_of_cons. split; [done|].
        apply IH, list_elem_of_here.
      * by apply IH, list_elem_of_further.
Qed.

(** X3.  The [classes] of an element record are the tokens of the class
    name between single spaces: none of them is empty or holds a space.
    The [classes] of a pattern variation are the same pieces with the
    empty ones kept, so that joining them with spaces gives the class
    name back. *)
Theorem class_tokens (d : Snapshot) (i : nat) (el : Handle) :
  get "classes" (element_record d i el) = Some (strings (class_list el))
  /\ get "classes" (variation i el) = Some (strings (raw_classes el))
  /\ class_list el = filter (fun c => c <> "") (raw_classes el)
  /\ (forall t, t ∈ class_list el -> t <> "" /\ " "%char ∉ chars t)
  /\ (forall cn, className el = Some cn -> join " " (raw_classes el) = cn).
Proof.
  assert (Hfilter : forall l : list string,
             filter (fun c => truthy c = true) l = filter (fun c => c <> "") l).
  { intros l. apply list_filter_iff. intros c. apply truthy_iff. }
  split_and!.
  - reflexivity.
  - unfold variation, raw_classes.
    destruct (className el) as [cn|]; [destruct (truthy cn)|]; reflexivity.
  - unfold class_list, raw_classes.
    destruct (className el) as [cn|]; [destruct (truthy cn)|];
      first [done|apply Hfilter].
  - intros t Ht. unfold class_list in Ht.
    destruct (className el) as [cn|]; [destruct (truthy cn)|];
      try (by apply elem_of_nil in Ht).
    apply list_elem_of_filter in Ht as [Ht Hin]. apply truthy_iff in Ht.
    split; [done|]. by eapply split_pieces.
  - intros cn Hcn. unfold raw_classes. rewrite Hcn.
    destruct (truthy cn) eqn:Ht; [apply (join_split " ")|].
    unfold truthy in Ht. apply negb_false_iff, String.eqb_eq in Ht. by subst.
Qed.

(* ---- objects built by a loop of assignments ---- *)

(** Reading a key of an object filled by assignments in a loop gives the
    value assigned last under that key. *)
Lemma assoc_get_fold {A V : Type} (key : A -> string) (val : A -> V)
    (l : list A) (k : string) :
  assoc_get k (fold_left (fun o a => assoc_set (key a) (val a) o) l [])
  = assoc_get k (map (fun a => (key a, val a)) (rev l)).
Proof.
  induction l as [|a l IH] using rev_ind; [done|].
  rewrite fold_left_app, rev_app_distr. simpl.
  by rewrite assoc_get_set, IH.
Qed.

Lemma assoc_keys_fold_NoDup {A V : Type} (key : A -> string) (val : A -> V)
    (l : list A) :
  NoDup (assoc_keys (fold_left (fun o a => assoc_set (key a) (val a) o) l [])).
Proof.
  induction l as [|a l IH] using rev_ind; [apply NoDup_nil_2|].
  rewrite fold_left_app. simpl. by apply assoc_set_NoDup.
Qed.

Lemma assoc_get_const {A : Type} (val : string -> A) (names : list string)
    (k : string) :
  assoc_get k (map (fun p => (p, val p)) names)
  = if bool_decide (k ∈ names) then Some (val k) else None.
Proof.
  induction names as [|p names IH]; [done|]. simpl.
  destruct (String.eqb_spec p k) as [->|Hne].
  - rewrite bool_decide_true; [done|apply list_elem_of_here].
  - rewrite IH. apply option_eq. intros x.
    repeat case_bool_decide; try done.
    + exfalso. match goal with H : ¬ _ |- _ => apply H end.
      by apply list_elem_of_further.
    + exfalso. match goal with H : k ∈ p :: names |- _ =>
        apply elem_of_cons in H as [->|H] end; done.
Qed.

Lemma elem_of_rev {A : Type} (x : A) (l : list A) : x ∈ rev l <-> x ∈ l.
Proof. rewrite !list_elem_of_In. symmetry. apply in_rev. Qed.

(** X4.  [cssStyles] has one key per property name of the computed
    style, whatever the number of times the style lists it, and reading a
    key gives the value [getPropertyValue] returns for it; no other key
    is present. *)
Theorem cssStyles_lookup (computed : Style) (p : string) :
  get p (cssStyles computed)
  = (if bool_decide (p ∈ listed computed)
     then Some (JStr (getPropertyValue computed p)) else None)
  /\ NoDup (keys (cssStyles computed))
  /\ (p ∈ keys (cssStyles computed) <-> p ∈ listed computed).
Proof.
  assert (Hget : forall q, get q (cssStyles computed)
                 = if bool_decide (q ∈ listed computed)
                   then Some (JStr (getPropertyValue computed q)) else None).
  { intros q. unfold cssStyles, get.
    rewrite (assoc_get_fold (fun prop => prop)
               (fun prop => JStr (getPropertyValue computed prop))).
    rewrite (assoc_get_const (fun prop => JStr (getPropertyValue computed prop))).
    apply option_eq. intros x. repeat case_bool_decide; try done.
    - exfalso. match goal with H : ¬ _ |- _ => apply H end.
      by apply elem_of_rev.
    - exfalso. match goal with H : ¬ _ |- _ => apply H end.
      by apply (elem_of_rev q). }
  split; [apply Hget|]. split.
  - unfold cssStyles, keys.
    apply (assoc_keys_fold_NoDup (fun prop => prop)
             (fun prop => JStr (getPropertyValue computed prop))).
  - specialize (Hget p). unfold get, keys in *.
    destruct (cssStyles computed) as [| | | | |fs] eqn:Hc; try done.
    assert (Hk : forall (o : Fields) k, k ∈ assoc_keys o <-> is_Some (assoc_get k o)).
    { induction o as [|[k0 v0] o IHo]; intros k; simpl.
      - split; [intros H; by apply elem_of_nil in H|intros [x H]; done].
      - unfold assoc_keys. simpl. rewrite elem_of_cons.
        destruct (String.eqb_spec k0 k) as [->|Hne].
        + split; [by eexists|by left].
        + rewrite <- IHo. unfold assoc_keys. split; [|by right].
          intros [->|H]; done. }
    rewrite Hk, Hget. case_bool_decide; split; try done;
      first [by eexists|intros [x Hx]; done].
Qed.

Lemma assoc_get_rev {V : Type} (l : list (string * V)) (k : string) :
  NoDup (assoc_keys l) -> assoc_get k (rev l) = assoc_get k l.
Proof.
  induction l as [|[k0 v0] l IH]; intros Hnd; [done|].
  unfold assoc_keys in Hnd. simpl in Hnd. apply NoDup_cons in Hnd as [Hk0 Hnd].
  simpl.
  assert (Happ : forall (a b : list (string * V)),
             assoc_get k (a ++ b)
             = match assoc_get k a with Some v => Some v | None => assoc_get k b end).
  { induction a as [|[k1 v1] a IHa]; intros b; [done|]. simpl.
    destruct (k1 =? k)%string; [done|apply IHa]. }
  rewrite Happ, (IH Hnd). simpl.
  destruct (String.eqb_spec k0 k) as [->|Hne].
  - destruct (assoc_get k l) as [v|] eqn:Hv; [|done].
    exfalso. apply Hk0. clear -Hv.
    induction l as [|[k1 v1] l IHl]; [done|]. simpl in *.
    destruct (String.eqb_spec k1 k) as [->|Hne]; [by left|].
    right. by apply IHl.
  - by destruct (assoc_get k l).
Qed.

Lemma assoc_get_None {V : Type} (k : string) (o : list (string * V)) :
  assoc_get k o = None <-> k ∉ assoc_keys o.
Proof.
  unfold assoc_keys. induction o as [|[k0 v0] o IH]; simpl.
  - split; [intros _ H; by apply elem_of_nil in H|done].
  - rewrite not_elem_of_cons. destruct (String.eqb_spec k0 k) as [->|Hne].
    + split; [done|]. by intros [H _].
    + rewrite IH. split; [by split|by intros [_ H]].
Qed.

Lemma insert_index_get (i : Z) (k k' : string) (v : JValue) (o : Fields) :
  assoc_get k o = None ->
  assoc_get k' (insert_index i k v o)
  = if (k =? k')%string then Some v else assoc_get k' o.
Proof.
  induction o as [|[k0 v0] o IH]; simpl; [done|].
  destruct (String.eqb_spec k0 k) as [->|Hk0]; [done|]. intros Hk.
  destruct (array_index k0) as [j|]; [destruct (j <? i)|]; simpl; try done.
  rewrite (IH Hk). destruct (String.eqb_spec k0 k') as [->|Hne]; [|done].
  by rewrite (proj2 (String.eqb_neq _ _)) by done.
Qed.

Lemma insert_index_keys (i : Z) (k : string) (v : JValue) (o : Fields) :
  assoc_keys (insert_index i k v o) ≡ₚ k :: assoc_keys o.
Proof.
  unfold assoc_keys. induction o as [|[k0 v0] o IH]; simpl; [done|].
  destruct (array_index k0) as [j|]; [destruct (j <? i)|]; simpl; try done.
  rewrite IH. apply Permutation_swap.
Qed.

Lemma append_get {V : Type} (k k' : string) (v : V) (o : list (string * V)) :
  assoc_get k o = None ->
  assoc_get k' (o ++ [(k, v)])
  = if (k =? k')%string then Some v else assoc_get k' o.
Proof.
  induction o as [|[k0 v0] o IH]; simpl; [done|].
  destruct (String.eqb_spec k0 k) as [->|Hk0]; [done|]. intros Hk.
  rewrite (IH Hk). destruct (String.eqb_spec k0 k') as [->|Hne]; [|done].
  by rewrite (proj2 (String.eqb_neq _ _)) by done.
Qed.

(** Reading after an assignment. *)
Lemma own_set_get (k k' : string) (v : JValue) (o : Fields) :
  assoc_get k' (own_set k v o)
  = if (k =? "__proto__")%string then assoc_get k' o
    else if (k =? k')%string then Some v else assoc_get k' o.
Proof.
  unfold own_set. destruct (k =? "__proto__")%string; [done|].
  destruct (assoc_get k o) as [x|] eqn:Hk.
  - apply assoc_get_set.
  - destruct (array_index k) as [i|];
      [by apply insert_index_get|by apply append_get].
Qed.

Lemma own_set_keys (k : string) (v : JValue) (o : Fields) :
  assoc_keys (own_set k v o)
  ≡ₚ if bool_decide (k = "__proto__" \/ k ∈ assoc_keys o) then assoc_keys o
     else k :: assoc_keys o.
Proof.
  unfold own_set. destruct (String.eqb_spec k "__proto__") as [->|Hp].
  - by rewrite bool_decide_true by by left.
  - destruct (assoc_get k o) as [x|] eqn:Hk.
    + assert (Hin : k ∈ assoc_keys o).
      { destruct (decide (k ∈ assoc_keys o)) as [H|H]; [done|].
        apply assoc_get_None in H. congruence. }
      rewrite bool_decide_true by by right.
      by rewrite assoc_set_keys, bool_decide_true.
    + apply assoc_get_None in Hk.
      rewrite bool_decide_false by tauto.
      destruct (array_index k) as [i|]; [apply insert_index_keys|].
      unfold assoc_keys. rewrite map_app. simpl.
      symmetry. apply Permutation_cons_append.
Qed.

Lemma property_order_insert (i : Z) (k : string) (v : JValue) (o : Fields) :
  array_index k = Some i ->
  property_order (assoc_keys o) ->
  property_order (assoc_keys (insert_index i k v o)).
Proof.
  intros Hk. induction o as [|[k0 v0] o IH]; intros Ho.
  - simpl. rewrite Hk. done.
  - cbn [assoc_keys map fst property_order] in Ho. destruct Ho as [Ho Hhead].
    fold (assoc_keys o) in *. cbn [insert_index].
    destruct (array_index k0) as [j|] eqn:Hk0.
    + destruct (j <? i) eqn:Hji.
      * apply Z.ltb_lt in Hji.
        change (assoc_keys ((k0, v0) :: insert_index i k v o))
          with (k0 :: assoc_keys (insert_index i k v o)).
        cbn [property_order]. split; [by apply IH|]. rewrite Hk0.
        rewrite insert_index_keys. constructor; [rewrite Hk; lia|done].
      * apply Z.ltb_ge in Hji.
        change (assoc_keys ((k, v) :: (k0, v0) :: o))
          with (k :: k0 :: assoc_keys o).
        cbn [property_order]. rewrite Hk, Hk0. split; [by split|].
        constructor; [rewrite Hk0; lia|].
        eapply Forall_impl; [exact Hhead|]. intros x Hx. simpl in Hx.
        destruct (array_index x); [lia|done].
    + change (assoc_keys ((k, v) :: (k0, v0) :: o))
        with (k :: k0 :: assoc_keys o).
      cbn [property_order]. rewrite Hk, Hk0. split; [by split|].
      constructor; [by rewrite Hk0|].
      eapply Forall_impl; [exact Hhead|]. intros x Hx. simpl in Hx.
      by rewrite Hx.
Qed.

Lemma property_order_snoc (ks : list string) (k : string) :
  array_index k = None -> property_order ks -> property_order (ks ++ [k]).
Proof.
  intros Hk. induction ks as [|k0 ks IH]; intros Hks.
  - simpl. by rewrite Hk.
  - destruct Hks as [Hks Hhead]. simpl. split; [by apply IH|].
    destruct (array_index k0) as [j|].
    + apply Forall_app. split; [done|]. constructor; [by rewrite Hk|done].
    + apply Forall_app. split; [done|]. by constructor.
Qed.

Lemma own_set_order (k : string) (v : JValue) (o : Fields) :
  property_order (assoc_keys o) -> property_order (assoc_keys (own_set k v o)).
Proof.
  intros Ho. unfold own_set. destruct (k =? "__proto__")%string; [done|].
  destruct (assoc_get k o) as [x|] eqn:Hk.
  - rewrite assoc_set_keys, bool_decide_true; [done|].
    destruct (decide (k ∈ assoc_keys o)) as [H|H]; [done|].
    apply assoc_get_None in H. congruence.
  - destruct (array_index k) as [i|] eqn:Hi.
    + by apply property_order_insert.
    + unfold assoc_keys. rewrite map_app. by apply property_order_snoc.
Qed.

Lemma own_set_NoDup (k : string) (v : JValue) (o : Fields) :
  NoDup (assoc_keys o) -> NoDup (assoc_keys (own_set k v o)).
Proof.
  intros Ho. rewrite own_set_keys. case_bool_decide as H; [done|].
  apply NoDup_cons. split; [tauto|done].
Qed.

(** The keys that are no array index stay in the order of their
    creation. *)
Lemma own_set_names (k : string) (v : JValue) (o : Fields) :
  filter (fun x => array_index x = None) (assoc_keys (own_set k v o))
  = (filter (fun x => array_index x = None) (assoc_keys o)
     ++ if bool_decide (array_index k = None /\ k <> "__proto__"
                        /\ k ∉ assoc_keys o)
        then [k] else [])%list.
Proof.
  unfold own_set. destruct (String.eqb_spec k "__proto__") as [->|Hp].
  - rewrite bool_decide_false by tauto. by rewrite app_nil_r.
  - destruct (assoc_get k o) as [x|] eqn:Hk.
    + assert (Hin : k ∈ assoc_keys o).
      { destruct (decide (k ∈ assoc_keys o)) as [H|H]; [done|].
        apply assoc_get_None in H. congruence. }
      rewrite assoc_set_keys, bool_decide_true by done.
      rewrite bool_decide_false by tauto. by rewrite app_nil_r.
    + apply assoc_get_None in Hk.
      destruct (array_index k) as [i|] eqn:Hi.
      * rewrite bool_decide_false by (intros [H _]; done).
        rewrite app_nil_r. clear Hk.
        unfold assoc_keys. induction o as [|[k0 v0] o IH]; simpl.
        -- by rewrite filter_cons, decide_False by congruence.
        -- destruct (array_index k0) as [j|] eqn:Hk0;
             [destruct (j <? i)|]; simpl.
           ++ rewrite !filter_cons, !decide_False by congruence. exact IH.
           ++ by rewrite (filter_cons _ k), decide_False by congruence.
           ++ by rewrite (filter_cons _ k), decide_False by congruence.
      * rewrite bool_decide_true by done.
        unfold assoc_keys. rewrite map_app, filter_app. simpl.
        by rewrite filter_cons, decide_True by done.
Qed.

Lemma attributes_fold (attrs : list (string * string)) :
  let o := fold_left (fun o a => own_set (fst a) (JStr (snd a)) o) attrs [] in
  (forall k, assoc_get k o
             = if (k =? "__proto__")%string then None
               else JStr <$> assoc_get k (rev attrs))
  /\ NoDup (assoc_keys o)
  /\ property_order (assoc_keys o)
  /\ (forall k, k ∈ assoc_keys o <-> k ∈ map fst attrs /\ k <> "__proto__")
  /\ (NoDup (map fst attrs) ->
      filter (fun k => array_index k = None) (assoc_keys o)
      = filter (fun k => array_index k = None /\ k <> "__proto__")
          (map fst attrs)).
Proof.
  cbv zeta. induction attrs as [|[n x] attrs (IHget & IHnd & IHord & IHin & IHnames)]
    using rev_ind.
  - split_and!; try done.
    + intros k. simpl. by destruct (k =? "__proto__")%string.
    + apply NoDup_nil_2.
    + intros k. simpl. rewrite elem_of_nil. tauto.
  - rewrite fold_left_app. cbn [fold_left fst snd].
    set (o := fold_left (fun o a => own_set (fst a) (JStr (snd a)) o) attrs [])
      in *.
    split_and!.
    + intros k. rewrite own_set_get, rev_app_distr. simpl. rewrite IHget.
      destruct (String.eqb_spec n "__proto__") as [->|Hn];
        destruct (String.eqb_spec k "__proto__") as [->|Hk]; try done.
      * by rewrite (proj2 (String.eqb_neq _ _)) by done.
      * by rewrite (proj2 (String.eqb_neq _ _)) by done.
      * by destruct (n =? k)%string.
    + by apply own_set_NoDup.
    + by apply own_set_order.
    + intros k. rewrite own_set_keys, map_app, elem_of_app. simpl.
      rewrite list_elem_of_singleton.
      case_bool_decide as Hc.
      * rewrite IHin. split; [tauto|].
        intros [[H| ->] Hk]; [tauto|].
        destruct Hc as [Hc|Hc]; [done|]. by apply IHin in Hc.
      * rewrite elem_of_cons, IHin. split.
        -- intros [->|H]; [tauto|tauto].
        -- destruct (decide (k = n)) as [->|Hkn]; [by left|]. tauto.
    + intros Hnd. rewrite map_app in Hnd. simpl in Hnd.
      apply NoDup_app in Hnd as (Hnd & Hdis & _).
      rewrite own_set_names, (IHnames Hnd), map_app, filter_app. f_equal.
      simpl. rewrite filter_cons, filter_nil.
      assert (Hfresh : n ∉ assoc_keys o).
      { intros H. apply IHin in H as [H _]. apply (Hdis _ H).
        apply list_elem_of_here. }
      case_bool_decide as Hc.
      * by rewrite decide_True by tauto.
      * by rewrite decide_False by tauto.
Qed.

(** X5.  The [attributes] object of an element record has one key per
    attribute name other than [__proto__], which an assignment never
    creates, and reading a key gives the value of the last attribute of
    that name.  Its keys are in property order, not in attribute order:
    the names that are array indices come first, in ascending numeric
    order.  Attribute names being distinct, as they are on an element, the
    other names follow in the order of the attributes, and reading a name
    gives what [getAttribute] returns. *)
Theorem attributes_lookup (el : Handle) (name : string) :
  get name (attributes el)
  = (if (name =? "__proto__")%string then None
     else JStr <$> assoc_get name (rev (el_attributes (h_info el))))
  /\ NoDup (keys (attributes el))
  /\ (forall k, k ∈ keys (attributes el)
                <-> k ∈ map fst (el_attributes (h_info el)) /\ k <> "__proto__")
  /\ property_order (keys (attributes el))
  /\ (NoDup (map fst (el_attributes (h_info el))) ->
      filter (fun k => array_index k = None) (keys (attributes el))
      = filter (fun k => array_index k = None /\ k <> "__proto__")
          (map fst (el_attributes (h_info el)))
      /\ (name <> "__proto__" ->
          get name (attributes el) = JStr <$> getAttribute el name)).
Proof.
  destruct (attributes_fold (el_attributes (h_info el)))
    as (Hget & Hnd & Hord & Hin & Hnames).
  unfold attributes, get, keys.
  split; [apply Hget|]. split; [exact Hnd|]. split; [exact Hin|].
  split; [exact Hord|]. intros Hdistinct. split; [by apply Hnames|].
  intros Hname. rewrite Hget, (proj2 (String.eqb_neq _ _)) by done.
  unfold getAttribute. by rewrite assoc_get_rev.
Qed.

Lemma attributes_lookup_witness :
  keys (attributes (element_at numbered_attributes 2))
  = ["1"; "2"; "data-x"; "title"]
  /\ get "2" (attributes (element_at numbered_attributes 2))
     = Some (JStr "b").
Proof.
  split; [reflexivity|].
  destruct (attributes_lookup (element_at numbered_attributes 2) "2")
    as (_ & _ & _ & _ & H).
  destruct H as [_ H]; [apply (bool_decide_unpack _); vm_compute; reflexivity|].
  rewrite H; [reflexivity|discriminate].
Defined.

(* ---- names of patterns ---- *)

Lemma chars_delete_chars (cls : ascii -> bool) (s : string) (c : ascii) :
  c ∈ chars (delete_chars cls s) <-> c ∈ chars s /\ cls c = false.
Proof.
  unfold chars. induction s as [|c0 s IH]; simpl.
  - rewrite elem_of_nil. tauto.
  - destruct (cls c0) eqn:Hc0; simpl; rewrite ?elem_of_cons, IH.
    + split; [tauto|]. intros [[->|H] Hc]; [congruence|tauto].
    + split; [intros [->|H]; tauto|tauto].
Qed.

Lemma chars_drop_chars (n : nat) (s : string) (c : ascii) :
  c ∈ chars (drop_chars n s) -> c ∈ chars s.
Proof.
  revert s. induction n as [|n IH]; intros s; [done|].
  destruct s as [|c0 s]; [done|]. simpl. intros H.
  unfold chars. simpl. apply list_elem_of_further. by apply IH.
Qed.

Lemma chars_delete_first (pat s : string) (c : ascii) :
  c ∈ chars (delete_first pat s) -> c ∈ chars s.
Proof.
  induction s as [|c0 s IH].
  - cbn [delete_first]. destruct (String.prefix pat ""); [apply chars_drop_chars|done].
  - cbn [delete_first]. destruct (String.prefix pat (String c0 s)).
    + apply chars_drop_chars.
    + unfold chars. simpl. rewrite !elem_of_cons. intros [->|H]; [by left|].
      right. by apply IH.
Qed.

(** X6.  A pattern name holds none of the characters the sanitizer
    deletes (the square brackets, the double quote, the star and the
    equals sign), and every character of the name comes from the
    selector. *)
Theorem componentName_chars (selector : string) (c : ascii) :
  c ∈ chars (componentName selector) ->
  c ∈ chars selector /\ is_bracket_char c = false.
Proof.
  unfold componentName. intros H.
  by apply chars_delete_first, chars_delete_chars in H.
Qed.

Lemma componentName_chars_witness :
  "n"%char ∈ chars "[class*=nav]" /\ is_bracket_char "n" = false.
Proof.
  apply (componentName_chars "[class*=nav]" "n").
  vm_compute. apply list_elem_of_here.
Defined.

(* ===================================================================== *)
(** * The outcome of a run *)
(* ===================================================================== *)

(** The layout pass needs a body. *)
Lemma collectLayoutStructure_page_body (d : Snapshot) (l : JValue) :
  collectLayoutStructure_page d = Ok l -> is_Some (body d).
Proof.
  unfold collectLayoutStructure_page. destruct (body d) as [b|]; [|done].
  by eexists.
Qed.

Section PageOutcome.

Variable web : nat -> string -> Viewport -> Res Page.
Variable media : Snapshot -> JValue * JValue * JValue.
Variable host : Host.

(** A run returns only on a page that serves. *)
Lemma analyzePage_ok_serves (url : string) (viewport : Viewport)
    (w w' : World) :
  analyzePage web media url viewport w = (Ok tt, w') ->
  exists p, web (navigations w) url viewport = Ok p /\ serves p.
Proof.
  intros Hrun. apply analyzePage_ok_inv in Hrun
    as (p & m & timed & styled & recorded & measured & l & listed & matched
        & Hp & Hm & H5 & H6 & H7 & H8 & Hl & H9 & H10 & _).
  apply collectMetadata_page_inv in Hm
    as (counted & deep & b & agent & titled & H0 & H1 & Hb & H2 & H3 & _).
  exists p. split; [done|]. split; [|split].
  - intros k Hk Hk4. unfold call_patterns in Hk. unfold call_description in Hk4.
    assert (Hcases : k ∈ [0; 1; 2; 3; 5; 6; 7; 8; 9; 10]%nat).
    { do 11 (destruct k as [|k];
             [first [done|rewrite !elem_of_cons; tauto]|]). lia. }
    repeat (apply elem_of_cons in Hcases as [->|Hcases]; [by eexists|]).
    by apply elem_of_nil in Hcases.
  - intros d Hd. rewrite H1 in Hd. injection Hd as <-. by exists b.
  - intros d Hd. rewrite H8 in Hd. injection Hd as <-.
    by eapply collectLayoutStructure_page_body.
Qed.

(** The world a loop that returns leaves: one navigation and one context
    per viewport, and the [analysisData] of the last run. *)
Lemma responsive_loop_last (url : string) (vps : list Viewport)
    (acc r : Fields) (w w' : World) :
  responsive_loop web media url vps acc w = (Ok r, w') ->
  navigations w' = (navigations w + length vps)%nat
  /\ browser_running w' = browser_running w
  /\ exit_code w' = exit_code w
  /\ forall vp, last vps = Some vp ->
       exists p m timed styled recorded measured l listed matched,
         web (navigations w + length vps - 1)%nat url vp = Ok p
         /\ collectMetadata_page url vp (load_time p) p = Ok m
         /\ at_call p call_performance = Ok timed
         /\ at_call p call_designTokens = Ok styled
         /\ at_call p call_elementData = Ok recorded
         /\ at_call p call_layout = Ok measured
         /\ collectLayoutStructure_page measured = Ok l
         /\ at_call p call_assets = Ok listed
         /\ at_call p call_patterns = Ok matched
         /\ data w' =
            mkData (set_property "performance" (performance_metrics timed) m)
              (collectDesignTokens_page styled) l
              (collectElementData_page recorded)
              (collectAssets_page media listed)
              (identifyComponentPatterns_page matched)
              (responsive (data w)).
Proof.
  revert acc w. induction vps as [|vp0 vps IH]; intros acc w.
  - intros [= <- <-]. rewrite !Nat.add_0_r. by split_and!.
  - rewrite responsive_loop_cons.
    set (w0 := say _ w).
    destruct (analyzePage_frame web media url vp0 w0)
      as (Hb & _ & _ & Hn & _ & He & Hr).
    destruct (analyzePage web media url vp0 w0) as [[[]|e] w1] eqn:Hrun;
      cbn [fst snd] in *; [|done].
    intros Hloop. pose proof Hloop as Hloop0.
    apply IH in Hloop as (IHn & IHb & IHe & IHlast).
    subst w0. cbn [navigations browser_running exit_code say] in *.
    split_and!; [simpl; lia|congruence|congruence|].
    intros vp Hlast. destruct vps as [|vp1 vps].
    + injection Hlast as <-. injection Hloop0 as _ <-.
      apply analyzePage_ok_inv in Hrun
        as (p & m & timed & styled & recorded & measured & l & listed
            & matched & Hp & H).
      exists p, m, timed, styled, recorded, measured, l, listed, matched.
      cbn [navigations say length] in *.
      by replace (navigations w + 1 - 1)%nat with (navigations w) by lia.
    + destruct (IHlast vp Hlast)
        as (p & m & timed & styled & recorded & measured & l & listed
            & matched & Hp & H1 & H2 & H3 & H4 & H5 & H6 & H7 & H8 & Hdata).
      exists p, m, timed, styled, recorded, measured, l, listed, matched.
      split_and!; try done.
      * rewrite Hn in Hp. cbn [length] in *.
        by replace (navigations w + S (S (length vps)) - 1)%nat
          with (S (navigations w) + S (length vps) - 1)%nat by lia.
      * rewrite Hdata. f_equal. exact Hr.
Qed.

(** The [try] block of [main] on a web that serves every run and a
    machine that takes the file. *)
Lemma main_try_succeeds (url : string) (w : World) (domain : string) :
  (forall k vp, (desktop :: viewports) !! k = Some vp ->
                exists p, web (navigations w + k)%nat url vp = Ok p
                          /\ serves p) ->
  hostname host url = Ok domain ->
  write_error host
    (output_path host domain (default_filename domain (save_time host)))
  = None ->
  exists w1 w2 r,
    analyzePage web media url desktop
      (set_browser true (say "Initializing Playwright browser..." w))
    = (Ok tt, w1)
    /\ responsive_loop web media url viewports []
         (say "Analyzing responsive behavior..." w1) = (Ok r, w2)
    /\ main_try web media host url w
       = (Ok tt,
          say (newline +:+ "Analysis complete! Results saved to: "
               +:+ output_path host domain
                     (default_filename domain (save_time host)))
            (say ("Analysis saved to: "
                  +:+ output_path host domain
                        (default_filename domain (save_time host)))
               (write_document
                  (output_path host domain
                     (default_filename domain (save_time host)))
                  (document_of (data (store (with_responsive (JObj r)) w2)))
                  (store (with_responsive (JObj r)) w2)))).
Proof.
  intros Hweb Hhost Hwrite. rewrite main_try_eq.
  set (w0 := set_browser _ _).
  destruct (Hweb 0%nat desktop eq_refl) as (p0 & Hp0 & Hs0).
  rewrite Nat.add_0_r in Hp0.
  pose proof (analyzePage_succeeds web media url desktop w0 p0 Hp0 Hs0)
    as Hok.
  destruct (analyzePage_frame web media url desktop w0)
    as (_ & _ & _ & Hn & _).
  destruct (analyzePage web media url desktop w0) as [[[]|e] w1];
    cbn [fst snd] in *; [|done].
  rewrite analyzeResponsive_eq.
  destruct (responsive_loop_succeeds web media url viewports []
              (say "Analyzing responsive behavior..." w1)) as (r & w2 & Hloop).
  { intros k vp Hk. destruct (Hweb (S k) vp Hk) as (p & Hp & Hs).
    exists p. split; [|done]. cbn [navigations say]. rewrite Hn.
    subst w0. cbn [navigations say set_browser].
    by replace (S (navigations w) + k)%nat with (navigations w + S k)%nat by lia. }
  rewrite Hloop. exists w1, w2, r. split; [done|]. split; [done|].
  rewrite saveResults_eq.
  assert (Hurl : metadata_url (data (store (with_responsive (JObj r)) w2))
                 = url).
  { apply responsive_loop_last in Hloop as (_ & _ & _ & Hlast).
    destruct (Hlast _ eq_refl)
      as (p & m & timed & styled & recorded & measured & l & listed
          & matched & _ & Hm & _ & _ & _ & _ & _ & _ & _ & Hdata).
    apply collectMetadata_page_inv in Hm
      as (_ & _ & _ & _ & _ & _ & _ & _ & _ & _ & Hu & _ & _ & _ & _
          & fields & ->).
    unfold metadata_url. cbn [data store with_responsive metadata].
    rewrite Hdata. cbn [metadata].
    rewrite set_property_other by discriminate. by rewrite Hu. }
  rewrite Hurl, Hhost. cbv zeta. by rewrite Hwrite.
Qed.

End PageOutcome.

(** X7.  A page run returns exactly when its navigation loads a page
    that serves: every call the run makes goes through, the description
    call apart, and the depth call and the layout call each find a body.
    A run is not all or nothing.  When the navigation or the metadata
    collector fails, [analysisData] is left as it was; when a later call
    fails, the fields of the collectors that had finished hold the
    values of this page and the others their old values: after a failure
    of the element call, [metadata] and [designTokens] are new and
    [elements], [layout], [assets] and [componentPatterns] are old.  In
    no run that throws is [componentPatterns] assigned. *)
Theorem page_run_outcome (web : nat -> string -> Viewport -> Res Page)
    (media : Snapshot -> JValue * JValue * JValue) (url : string)
    (viewport : Viewport) (w : World) :
  let run := analyzePage web media url viewport w in
  (fst run = Ok tt <->
   exists p, web (navigations w) url viewport = Ok p /\ serves p)
  /\ (forall e p,
        web (navigations w) url viewport = Throw e
        \/ (web (navigations w) url viewport = Ok p
            /\ collectMetadata_page url viewport (load_time p) p = Throw e) ->
        fst run = Throw e /\ data (snd run) = data w)
  /\ (forall p m timed styled e,
        web (navigations w) url viewport = Ok p ->
        collectMetadata_page url viewport (load_time p) p = Ok m ->
        at_call p call_performance = Ok timed ->
        at_call p call_designTokens = Ok styled ->
        at_call p call_elementData = Throw e ->
        fst run = Throw e
        /\ data (snd run)
           = mkData (set_property "performance" (performance_metrics timed) m)
               (collectDesignTokens_page styled) (layout (data w))
               (elements (data w)) (assets (data w))
               (componentPatterns (data w)) (responsive (data w)))
  /\ (forall e, fst run = Throw e ->
                componentPatterns (data (snd run))
                = componentPatterns (data w)).
Proof.
  cbv zeta. split_and!.
  - split.
    + destruct (analyzePage web media url viewport w) as [[[]|e] w'] eqn:Hrun;
        [|done].
      intros _. by eapply analyzePage_ok_serves.
    + intros (p & Hp & Hs). by eapply analyzePage_succeeds.
  - intros e p [H|[Hp Hm]]; rewrite analyzePage_run; cbv zeta.
    + by rewrite H.
    + by rewrite Hp, Hm.
  - intros p m timed styled e Hp Hm H5 H6 H7.
    rewrite analyzePage_run. cbv zeta. by rewrite Hp, Hm, H5, H6, H7.
  - intros e. rewrite analyzePage_run. cbv zeta.
    destruct (web (navigations w) url viewport) as [p|e0]; [|done].
    destruct (collectMetadata_page url viewport (load_time p) p) as [m|e0];
      [|done].
    destruct (at_call p call_performance) as [timed|e0]; [|done].
    destruct (at_call p call_designTokens) as [styled|e0]; [|done].
    destruct (at_call p call_elementData) as [recorded|e0]; [|done].
    destruct (res_bind (at_call p call_layout) collectLayoutStructure_page)
      as [l|e0]; [|done].
    destruct (at_call p call_assets) as [listed|e0]; [|done].
    by destruct (at_call p call_patterns) as [matched|e0].
Qed.

(** A page that goes away before the element call: the run throws, the
    metadata of the page is stored and no element record is. *)
Example page_lost_midway :
  exists w',
    analyzePage (web_serving (lost_at call_elementData two_buttons)) no_media
      example_url desktop initial_world
    = (Throw "Execution context was destroyed", w')
    /\ get "elementCount" (metadata (data w')) = Some (JNum 5)
    /\ elements (data w') = [].
Proof. eexists. split; [vm_compute; reflexivity|]. by split. Qed.



(** X9.  A run of [main] in which each of the four navigations loads a
    page that serves, the URL has a host name and the machine takes the
    file makes four navigations, writes exactly one file, closes the
    browser, sets no exit code and leaves no context open; its last line
    on the console names the path of the file.  Every part of the
    document but [responsive] holds what the calls into the page of the
    last navigation found, the desktop viewport of the responsive pass:
    what the first run collected has been overwritten. *)
Theorem main_writes_last_page
    (web : nat -> string -> Viewport -> Res Page)
    (media : Snapshot -> JValue * JValue * JValue) (host : Host)
    (url domain : string) (w : World) :
  truthy url = true ->
  (forall k vp, (desktop :: viewports) !! k = Some vp ->
                exists p, web (navigations w + k)%nat url vp = Ok p
                          /\ serves p) ->
  hostname host url = Ok domain ->
  write_error host
    (output_path host domain (default_filename domain (save_time host)))
  = None ->
  let w' := main web media host (Some url) w in
  let path :=
    output_path host domain (default_filename domain (save_time host)) in
  exit_code w' = exit_code w
  /\ browser_running w' = false
  /\ navigations w' = (navigations w + 4)%nat
  /\ (contexts w = [] -> contexts w' = [])
  /\ last (console w')
     = Some (newline +:+ "Analysis complete! Results saved to: " +:+ path)
  /\ exists p styled recorded measured l listed matched document,
       web (navigations w + 3)%nat url (mkViewport (Some "desktop") 1920 1080)
       = Ok p
       /\ at_call p call_designTokens = Ok styled
       /\ at_call p call_elementData = Ok recorded
       /\ at_call p call_layout = Ok measured
       /\ collectLayoutStructure_page measured = Ok l
       /\ at_call p call_assets = Ok listed
       /\ at_call p call_patterns = Ok matched
       /\ written w' = (written w ++ [(path, document)])%list
       /\ keys document
          = ["metadata"; "designTokens"; "layout"; "elements"; "assets";
             "componentPatterns"; "responsive"]
       /\ get "designTokens" document = Some (collectDesignTokens_page styled)
       /\ get "layout" document = Some l
       /\ get "elements" document = Some (JArr (collectElementData_page recorded))
       /\ get "assets" document = Some (collectAssets_page media listed)
       /\ get "componentPatterns" document
          = Some (JArr (identifyComponentPatterns_page matched))
       /\ (exists metadata,
             get "metadata" document = Some metadata
             /\ get "url" metadata = Some (JStr url)
             /\ get "viewport" metadata
                = Some (viewport_value (mkViewport (Some "desktop") 1920 1080)))
       /\ exists r, get "responsive" document = Some r
                    /\ keys r = ["mobile"; "tablet"; "desktop"].
Proof.
  intros Hurl Hweb Hhost Hwrite. cbv zeta. unfold main. rewrite Hurl.
  destruct (main_try_succeeds web media host url w domain Hweb Hhost Hwrite)
    as (w1 & w2 & r & Hrun & Hloop & ->).
  destruct (analyzePage_frame web media url desktop
              (set_browser true (say "Initializing Playwright browser..." w)))
    as (_ & _ & _ & Hn1 & Hw1 & He1 & _).
  destruct (analyzePage_closes web media url desktop
              (set_browser true (say "Initializing Playwright browser..." w)))
    as [_ Hc1].
  rewrite Hrun in Hn1, Hw1, He1, Hc1. cbn [snd] in Hn1, Hw1, He1, Hc1.
  cbn [navigations written exit_code contexts set_browser say] in Hn1, Hw1, He1, Hc1.
  destruct (responsive_loop_frame web media url viewports []
              (say "Analyzing responsive behavior..." w1)) as (Hw2 & _ & Hc2).
  rewrite Hloop in Hw2, Hc2. cbn [snd written contexts say] in Hw2, Hc2.
  pose proof Hloop as Hloop0.
  apply (responsive_loop_last web media) in Hloop as (Hn2 & _ & He2 & Hlast).
  cbn [navigations exit_code say] in Hn2, He2.
  destruct (Hlast _ eq_refl)
    as (p & m & timed & styled & recorded & measured & l & listed & matched
        & Hp & Hm & _ & H6 & H7 & H8 & Hl & H9 & H10 & Hdata).
  cbn [navigations say length viewports] in Hp.
  replace (navigations w1 + 3 - 1)%nat with (navigations w + 3)%nat in Hp by lia.
  apply responsive_loop_ok_inv in Hloop0 as (entries & Hentries & ->).
  unfold viewports in Hentries.
  apply Forall2_cons_inv_l in Hentries
    as ([n1 e1] & t1 & (k1 & p1 & s1 & r1 & m1 & l1 & _ & _ & _ & _ & _ & _
                        & E1) & Hentries & ->).
  apply Forall2_cons_inv_l in Hentries
    as ([n2 e2] & t2 & (k2 & p2 & s2 & r2 & m2 & l2 & _ & _ & _ & _ & _ & _
                        & E2) & Hentries & ->).
  apply Forall2_cons_inv_l in Hentries
    as ([n3 e3] & t3 & (k3 & p3 & s3 & r3 & m3 & l3 & _ & _ & _ & _ & _ & _
                        & E3) & Hentries & ->).
  apply Forall2_nil_inv_l in Hentries as ->.
  injection E1 as -> ->. injection E2 as -> ->. injection E3 as -> ->.
  apply collectMetadata_page_inv in Hm
    as (_ & _ & _ & _ & _ & _ & _ & _ & _ & _ & Hu & Hv & _ & _ & _
        & fields & ->).
  unfold close.
  cbn [snd exit_code browser_running navigations contexts console written
       set_browser say write_document store data].
  rewrite Hdata.
  split_and!; try done.
  - congruence.
  - simpl in Hn2. lia.
  - intros H0. apply Hc2, Hc1, H0.
  - apply last_snoc.
  - exists p, styled, recorded, measured, l, listed, matched. eexists.
    split_and!; try done.
    + by rewrite Hw2, Hw1.
    + reflexivity.
    + reflexivity.
    + reflexivity.
    + reflexivity.
    + reflexivity.
    + reflexivity.
    + exists (set_property "performance" (performance_metrics timed)
                (JObj fields)).
      split; [reflexivity|].
      rewrite !set_property_other by discriminate. by split.
    + eexists. split; [reflexivity|]. reflexivity.
Qed.

Lemma main_writes_last_page_witness :
  exists document,
    written (main (web_serving (still two_buttons)) no_media example_host
               (Some example_url) initial_world)
    = [("/out/example.test/example_test_analysis_2024-01-01T00-00-01-000Z.json",
        document)]
    /\ get "elements" document
       = Some (JArr (collectElementData_page two_buttons)).
Proof.
  destruct (main_writes_last_page (web_serving (still two_buttons)) no_media
              example_host example_url "example.test" initial_world)
    as (_ & _ & _ & _ & _ & H).
  - reflexivity.
  - intros k vp _. eexists. split; [reflexivity|].
    apply (still_serves two_buttons (element_at two_buttons 2)).
    vm_compute. reflexivity.
  - reflexivity.
  - reflexivity.
  - destruct H as (p & styled & recorded & measured & l & listed & matched
                   & document & Hp & _ & Hr & _ & _ & _ & _ & Hw & _ & _ & _
                   & He & _).
    injection Hp as <-. injection Hr as <-.
    exists document. split; [exact Hw|exact He].
Defined.

(* ===================================================================== *)
(** * The order of the token arrays, the number of patterns, selectors that collide *)
(* ===================================================================== *)

Lemma absorb_snoc (xs s : list string) (x : string) :
  absorb (xs ++ [x]) s = set_add x (absorb xs s).
Proof. by rewrite absorb_app. Qed.

Lemma first_occurrences_snoc (l : list string) (x : string) :
  first_occurrences (l ++ [x]) = set_add x (first_occurrences l).
Proof.
  unfold first_occurrences, set_add. rewrite rev_app_distr. simpl.
  assert (Hin : x ∈ rev (remove_dups (rev l)) <-> x ∈ rev l).
  { by rewrite elem_of_rev, elem_of_remove_dups. }
  destruct (decide_rel elem_of x (rev l)) as [Hx|Hx];
    case_bool_decide as Hy; try done; tauto.
Qed.

Lemma absorb_first_occurrences (xs : list string) :
  absorb xs [] = first_occurrences xs.
Proof.
  induction xs as [|x xs IH] using rev_ind; [done|].
  by rewrite absorb_snoc, first_occurrences_snoc, IH.
Qed.

Lemma set_add_length (x : string) (s : list string) :
  (length (set_add x s) <= S (length s))%nat.
Proof.
  unfold set_add. case_bool_decide; [lia|]. rewrite length_app. simpl. lia.
Qed.

Lemma absorb_length (xs s : list string) :
  (length (absorb xs s) <= length s + length xs)%nat.
Proof.
  induction xs as [|x xs IH] using rev_ind; [simpl; lia|].
  rewrite absorb_snoc, length_app. simpl.
  pose proof (set_add_length x (absorb xs s)). lia.
Qed.

Lemma flat_map_length_le {A B : Type} (f : A -> list B) (k : nat) (l : list A) :
  (forall a, length (f a) <= k)%nat ->
  (length (flat_map f l) <= k * length l)%nat.
Proof.
  intros Hf. induction l as [|a l IH]; [simpl; lia|].
  simpl. rewrite length_app. specialize (Hf a). lia.
Qed.

Lemma list_filter_length_le {A : Type} (q : A -> bool) (l : list A) :
  (length (List.filter q l) <= length l)%nat.
Proof.
  induction l as [|a l IH]; [done|]. simpl. destruct (q a); simpl; lia.
Qed.

(** X10.  Each design-token array lists its values in the order in which
    the walk over the elements first met them: document order, and for
    one element color, background color, border color, and the four
    margins before the four paddings.  So the arrays are no longer than
    three, one and eight entries per element for colors, fonts and
    spacing, and one per element for the other three. *)
Theorem design_tokens_order (d : Snapshot) :
  let t := design_tokens d in
  let n := length (all_elements d) in
  colors t = first_occurrences (flat_map color_values (all_elements d))
  /\ fonts t = first_occurrences (flat_map font_values (all_elements d))
  /\ spacing t = first_occurrences (flat_map spacing_values (all_elements d))
  /\ borderRadius t
     = first_occurrences (flat_map radius_values (all_elements d))
  /\ boxShadows t
     = first_occurrences (flat_map shadow_values (all_elements d))
  /\ gradients t
     = first_occurrences (flat_map gradient_values (all_elements d))
  /\ (length (colors t) <= 3 * n)%nat
  /\ (length (fonts t) <= n)%nat
  /\ (length (spacing t) <= 8 * n)%nat
  /\ (length (borderRadius t) <= n)%nat
  /\ (length (boxShadows t) <= n)%nat
  /\ (length (gradients t) <= n)%nat.
Proof.
  cbv zeta. unfold design_tokens.
  destruct (token_fold_sets (all_elements d) no_tokens)
    as (H1 & H2 & H3 & H4 & H5 & H6).
  cbn [colors fonts spacing borderRadius boxShadows gradients no_tokens] in *.
  rewrite H1, H2, H3, H4, H5, H6.
  split_and!; try apply absorb_first_occurrences.
  - etrans; [apply absorb_length|]. simpl.
    apply (flat_map_length_le color_values 3). intros el.
    apply (list_filter_length_le color_ok
             [style el "color"; style el "background-color";
              style el "border-color"]).
  - etrans; [apply absorb_length|]. simpl.
    etrans; [apply (flat_map_length_le font_values 1)|lia]. intros el.
    unfold font_values. destruct (truthy _); simpl; lia.
  - etrans; [apply absorb_length|]. simpl.
    apply (flat_map_length_le spacing_values 8). intros el.
    apply (list_filter_length_le length_ok
             [style el "margin-top"; style el "margin-right";
              style el "margin-bottom"; style el "margin-left";
              style el "padding-top"; style el "padding-right";
              style el "padding-bottom"; style el "padding-left"]).
  - etrans; [apply absorb_length|]. simpl.
    etrans; [apply (flat_map_length_le radius_values 1)|lia]. intros el.
    apply (list_filter_length_le length_ok [style el "border-radius"]).
  - etrans; [apply absorb_length|]. simpl.
    etrans; [apply (flat_map_length_le shadow_values 1)|lia]. intros el.
    apply (list_filter_length_le shadow_ok [style el "box-shadow"]).
  - etrans; [apply absorb_length|]. simpl.
    etrans; [apply (flat_map_length_le gradient_values 1)|lia]. intros el.
    apply (list_filter_length_le gradient_ok [style el "background-image"]).
Qed.

Section PatternBound.

Variable engine : string -> option (list Handle).

Lemma components_keys_catalog (catalog : list string) (n : string) :
  n ∈ assoc_keys (components_of engine catalog) ->
  n ∈ map componentName catalog.
Proof.
  unfold assoc_keys. intros Hn. apply list_elem_of_fmap in Hn as ([n' f] & -> & Hin).
  apply components_spec in Hin as (pre & s & post & els & -> & _ & _ & <- & _).
  apply list_elem_of_fmap. exists s. split; [done|].
  apply elem_of_app. right. apply list_elem_of_here.
Qed.

Lemma patterns_length (catalog : list string) :
  (length (patterns_of engine catalog)
   <= length (remove_dups (map componentName catalog)))%nat.
Proof.
  unfold patterns_of. rewrite length_map.
  rewrite <- (length_map fst).
  apply submseteq_length, NoDup_submseteq; [apply components_NoDup|].
  intros n Hn. apply elem_of_remove_dups. by apply components_keys_catalog.
Qed.

End PatternBound.

(** X11.  Whatever the page, the recognizer emits at most twelve
    patterns, although its catalog has fifteen selectors, and the name of
    each is one of the twelve names the catalog sanitizes to. *)
Theorem patterns_at_most_twelve (d : Snapshot) :
  length componentSelectors = 15%nat
  /\ length pattern_names = 12%nat
  /\ (length (identifyComponentPatterns_page d) <= 12)%nat
  /\ forall p, p ∈ identifyComponentPatterns_page d ->
               exists n, n ∈ pattern_names /\ get "name" p = Some (JStr n).
Proof.
  assert (H12 : length pattern_names = 12%nat) by (vm_compute; reflexivity).
  split; [reflexivity|]. split; [exact H12|]. split.
  - rewrite identifyComponentPatterns_page_eq, <- H12. apply patterns_length.
  - intros p. rewrite identifyComponentPatterns_page_eq. intros Hp.
    apply patterns_spec in Hp as (pre & s & post & els & Hcat & _ & _ & _ & ->).
    exists (componentName s). split; [|reflexivity].
    apply elem_of_remove_dups, list_elem_of_fmap. exists s. split; [done|].
    rewrite Hcat. apply elem_of_app. right. apply list_elem_of_here.
Qed.

(** X12.  The selector the collector calls unique is not: it is made of
    the tags and classes on the way to the root only, so two elements
    with no id that have the same parent, the same tag and the same
    class name get the same selector. *)
Theorem sibling_selectors_collide (d : Snapshot) (a b : Handle) :
  parentElement a = parentElement b ->
  nodeName (h_info a) = nodeName (h_info b) ->
  className a = className b ->
  el_id a = "" -> el_id b = "" ->
  is_body d a = false -> is_body d b = false ->
  generateSelector d a = generateSelector d b.
Proof.
  intros Hpar Hname Hclass Hia Hib Hba Hbb.
  unfold generateSelector. rewrite Hia, Hib, Hba, Hbb. cbn [truthy String.eqb negb].
  assert (Hanc : ancestors a = ancestors b).
  { destruct a as [pa ea ka [p|]], b as [pb eb kb [q|]];
      simpl in Hpar; try done. by injection Hpar as ->. }
  assert (Hstep : selector_step a = selector_step b).
  { unfold selector_step. by rewrite Hname, Hclass. }
  rewrite !selector_walk_steps. cbn [rev]. rewrite !map_app. cbn [map].
  by rewrite Hanc, Hstep.
Qed.

Lemma sibling_selectors_collide_witness :
  same_element (element_at two_button_classes 3)
    (element_at two_button_classes 4) = false
  /\ generateSelector two_button_classes (element_at two_button_classes 3)
     = generateSelector two_button_classes (element_at two_button_classes 4).
Proof.
  split; [reflexivity|].
  apply (sibling_selectors_collide two_button_classes
           (element_at two_button_classes 3) (element_at two_button_classes 4));
    reflexivity.
Defined.

(* ===================================================================== *)
(** * Parents and children in the element records *)
(* ===================================================================== *)

Lemma parents_first_app (outer : option Handle) (l1 l2 : list Handle) :
  parents_first outer l1 -> parents_first outer l2 ->
  parents_first outer (l1 ++ l2).
Proof.
  intros H1 H2 i x Hx. apply lookup_app_Some in Hx as [Hx|[Hlen Hx]].
  - destruct (H1 i x Hx) as [H|(j & p & Hj & Hp & Hpar)]; [by left|].
    right. exists j, p. split; [done|]. split; [|done].
    by apply lookup_app_l_Some.
  - destruct (H2 _ x Hx) as [H|(j & p & Hj & Hp & Hpar)]; [by left|].
    right. exists (length l1 + j)%nat, p. split; [lia|]. split; [|done].
    rewrite lookup_app_r by lia.
    by replace (length l1 + j - length l1)%nat with j by lia.
Qed.

Lemma parents_first_cons (outer : option Handle) (h : Handle)
    (l : list Handle) :
  parentElement h = outer -> parents_first (Some h) l ->
  parents_first outer (h :: l).
Proof.
  intros Hh Hl [|i] x Hx.
  - injection Hx as <-. by left.
  - simpl in Hx. right.
    destruct (Hl i x Hx) as [H|(j & p & Hj & Hp & Hpar)].
    + exists 0%nat, h. split; [lia|done].
    + exists (S j), p. split; [lia|done].
Qed.

(** Document order puts every element behind its parent. *)
Lemma walk_parents_first (n : Node) :
  forall parent path, parents_first parent (walk parent path n).
Proof.
  induction n as [t|e kids IH] using Node_nested_ind; intros parent path.
  - intros i x Hx. by destruct i.
  - rewrite walk_element. apply parents_first_cons; [done|].
    generalize (mkHandle path e kids parent) as h. intros h.
    generalize 0%nat as i.
    induction IH as [|k ks Hk _ IHks]; intros i.
    + intros j x Hx. by destruct j.
    + cbn [walk_kids]. apply parents_first_app; [apply Hk|apply IHks].
Qed.

Lemma indexOf_from_le (l : list Handle) (p : Handle) (k : Z) (j : nat) :
  l !! j = Some p -> k <= indexOf_from k p l <= k + Z.of_nat j.
Proof.
  revert k j. induction l as [|y l IH]; intros k j Hj; [by destruct j|].
  simpl. destruct (same_element y p) eqn:Hy; [lia|].
  destruct j as [|j].
  - injection Hj as ->. unfold same_element in Hy.
    by rewrite bool_decide_true in Hy.
  - simpl in Hj. specialize (IH (k + 1) j Hj). lia.
Qed.

(** X18.  In the element records a parent always comes before its
    children: the [parentIndex] of the record at position [i] is [null]
    or a number from 0 to [i - 1].  The first record is that of the root
    element and has [null]. *)
Theorem parent_index_smaller (d : Snapshot) (i : nat) (r : JValue) :
  collectElementData_page d !! i = Some r ->
  get "parentIndex" r = Some JNull
  \/ exists j, get "parentIndex" r = Some (JNat j) /\ (j < i)%nat.
Proof.
  unfold collectElementData_page. intros Hr.
  apply list_lookup_imap_Some in Hr as (el & Hel & ->).
  destruct (parentElement el) as [p|] eqn:Hpar.
  - right.
    destruct (walk_parents_first (documentElement d) None [] i el Hel)
      as [H|(j & p' & Hj & Hp' & Hpar')]; [congruence|].
    assert (p' = p) as -> by congruence.
    pose proof (indexOf_from_le (all_elements d) p 0 j Hp') as Hle.
    exists (Z.to_nat (indexOf (all_elements d) p)). split.
    + unfold element_record. rewrite Hpar. unfold JNat.
      rewrite Z2Nat.id by (unfold indexOf; lia). reflexivity.
    + unfold indexOf. lia.
  - left. unfold element_record. rewrite Hpar. reflexivity.
Qed.

Lemma parent_index_smaller_witness :
  get "parentIndex" (element_record two_buttons 4 (element_at two_buttons 4))
  = Some JNull
  \/ exists j,
       get "parentIndex" (element_record two_buttons 4 (element_at two_buttons 4))
       = Some (JNat j) /\ (j < 4)%nat.
Proof.
  apply (parent_index_smaller two_buttons 4). reflexivity.
Defined.




(* ===================================================================== *)
(** * Landmarks and the measures of the layout *)
(* ===================================================================== *)

Lemma landmark_selectors :
  Forall (fun r =>
            parse_selector (fst (snd r))
            = Some [[mkCompound (Some (fst (snd r))) []]]
            /\ toLowerCase (fst (snd r)) = fst (snd r)
            /\ parse_selector (attr_equals "role" (snd (snd r)))
               = Some [[mkCompound None [AttrEq "role" (snd (snd r))]]])
    landmark_roles.
Proof. repeat constructor. Qed.

Lemma landmark_resolved (d : Snapshot) (key tag role : string) :
  (key, (tag, role)) ∈ landmark_roles ->
  landmark d tag role = Ok (resolved d tag role).
Proof.
  intros Hin.
  destruct (proj1 (Forall_forall _ _) landmark_selectors _ Hin)
    as (Htag & Hlow & Hrole).
  cbn [fst snd] in *.
  unfold landmark, resolved, first_where, qs, querySelector, querySelectorAll.
  rewrite Htag, Hrole. cbn [from_option res_bind].
  assert (H1 : filter (fun h => matches [[mkCompound (Some tag) []]] h = true)
                 (all_elements d)
               = filter (fun h => has_tag tag h = true) (all_elements d)).
  { apply list_filter_iff. intros h.
    unfold matches, match_complex, match_compound, has_tag. simpl.
    by rewrite !andb_true_r, orb_false_r, Hlow. }
  assert (H2 : filter (fun h => matches [[mkCompound None [AttrEq "role" role]]] h
                                = true) (all_elements d)
               = filter (fun h => has_role role h = true) (all_elements d)).
  { apply list_filter_iff. intros h.
    unfold matches, match_complex, match_compound, has_role. simpl.
    by rewrite !andb_true_r, orb_false_r. }
  rewrite H1, H2.
  by destruct (head (filter (fun h => has_tag tag h = true) (all_elements d))).
Qed.

Lemma collect_sections_resolved (d : Snapshot)
    (roles : list (string * (string * string))) (acc : Fields) :
  roles ⊆ landmark_roles ->
  collect_sections d roles acc
  = Ok (fold_left
          (fun o r => assoc_set (fst r)
                        (section_info (resolved d (fst (snd r)) (snd (snd r)))) o)
          roles acc).
Proof.
  revert acc. induction roles as [|[key [tag role]] roles IH]; intros acc Hsub;
    [done|].
  cbn [collect_sections fold_left fst snd].
  rewrite (landmark_resolved d key tag role)
    by (apply Hsub, list_elem_of_here).
  cbn [res_bind]. apply IH. intros r Hr. by apply Hsub, list_elem_of_further.
Qed.

Lemma matches_either (n1 v1 n2 v2 : string) (h : Handle) :
  matches [[mkCompound None [AttrContains n1 v1]];
           [mkCompound None [AttrContains n2 v2]]] h
  = (match getAttribute h n1 with
     | Some a => truthy v1 && includes a v1
     | None => false
     end)
    || (match getAttribute h n2 with
        | Some a => truthy v2 && includes a v2
        | None => false
        end).
Proof.
  unfold matches, match_complex, match_compound. simpl.
  by rewrite !andb_true_r, orb_false_r.
Qed.

Lemma layout_count (d : Snapshot) (v : string) :
  truthy v = true ->
  parse_selector (attr_contains "style" v +:+ ", " +:+ attr_contains "class" v)
  = Some [[mkCompound None [AttrContains "style" v]];
          [mkCompound None [AttrContains "class" v]]] ->
  qsa d (attr_contains "style" v +:+ ", " +:+ attr_contains "class" v)
  = Ok (filter (fun h => style_mentions v h || class_mentions v h = true)
          (all_elements d)).
Proof.
  intros Hv Hparse. unfold qsa, querySelectorAll. rewrite Hparse.
  cbn [from_option]. f_equal. apply list_filter_iff. intros h.
  rewrite matches_either, Hv. unfold style_mentions, class_mentions.
  by destruct (getAttribute h "style"), (getAttribute h "class").
Qed.

(** X16.  The layout has the five landmarks, in the order of the
    literal, and each is resolved tag first: the record under a key is
    that of the first element with the landmark's tag, wherever elements
    with its ARIA role stand, and that of the first element whose [role]
    attribute is exactly the role only when no element has the tag; with
    neither the record is [{exists: false}]. *)
Theorem landmarks_tag_first (d : Snapshot) (l : JValue) :
  collectLayoutStructure_page d = Ok l ->
  exists sections,
    get "sections" l = Some sections
    /\ keys sections = ["header"; "nav"; "main"; "aside"; "footer"]
    /\ (forall key tag role,
          (key, (tag, role)) ∈ landmark_roles ->
          get key sections = Some (section_info (resolved d tag role)))
    /\ (forall tag role el,
          first_where (has_tag tag) d = Some el -> resolved d tag role = Some el)
    /\ (forall tag role,
          first_where (has_tag tag) d = None ->
          first_where (has_role role) d = None ->
          section_info (resolved d tag role) = obj [("exists", JBool false)]).
Proof.
  unfold collectLayoutStructure_page.
  destruct (body d) as [b|]; [|done]. cbn [from_option res_bind].
  destruct (head (all_elements d)) as [html|]; [|done].
  cbn [from_option res_bind].
  rewrite collect_sections_resolved by done. cbn [res_bind].
  rewrite (layout_count d "grid") by done. cbn [res_bind].
  rewrite (layout_count d "flex") by done. cbn [res_bind].
  intros [= <-].
  cbn [landmark_roles fold_left fst snd].
  set (s1 := section_info (resolved d "header" "banner")).
  set (s2 := section_info (resolved d "nav" "navigation")).
  set (s3 := section_info (resolved d "main" "main")).
  set (s4 := section_info (resolved d "aside" "complementary")).
  set (s5 := section_info (resolved d "footer" "contentinfo")).
  eexists. split; [reflexivity|]. split; [reflexivity|]. split_and!.
  - intros key tag role Hin. unfold landmark_roles in Hin.
    repeat (apply elem_of_cons in Hin as [Heq|Hin];
            [simplify_eq; reflexivity|]).
    by apply elem_of_nil in Hin.
  - intros tag role el H. unfold resolved. by rewrite H.
  - intros tag role H1 H2. unfold resolved. by rewrite H1, H2.
Qed.

Lemma landmarks_tag_first_witness :
  exists sections,
    get "sections"
      (obj [("pageHeight", JNum 20); ("pageWidth", JNum 100);
            ("sections",
              obj [("header", section_info (Some (element_at role_before_tag 4)));
                   ("nav", section_info None); ("main", section_info None);
                   ("aside", section_info None); ("footer", section_info None)]);
            ("layoutTypes", obj [("grid", JNum 0); ("flex", JNum 1)]);
            ("scrollable", JBool false)])
    = Some sections
    /\ keys sections = ["header"; "nav"; "main"; "aside"; "footer"].
Proof.
  destruct (landmarks_tag_first role_before_tag _ eq_refl)
    as (sections & H1 & H2 & _).
  exists sections. split; [exact H1|exact H2].
Defined.

(** X17.  The other measures of the layout: [grid] and [flex] count the
    elements whose [style] or [class] attribute contains the word, each
    element once even when both do, and so never more than there are
    elements; the page is as high and as wide as the larger of the scroll
    sizes of [body] and of the root element; and it is scrollable exactly
    when the scroll height of [body] alone exceeds the window height. *)
Theorem layout_measures (d : Snapshot) (l : JValue) :
  collectLayoutStructure_page d = Ok l ->
  exists b html,
    body d = Some b /\ head (all_elements d) = Some html
    /\ keys l = ["pageHeight"; "pageWidth"; "sections"; "layoutTypes";
                 "scrollable"]
    /\ get "pageHeight" l
       = Some (JNum (Z.max (scrollHeight (h_info b)) (scrollHeight (h_info html))))
    /\ get "pageWidth" l
       = Some (JNum (Z.max (scrollWidth (h_info b)) (scrollWidth (h_info html))))
    /\ get "scrollable" l
       = Some (JBool (bool_decide (innerHeight d < scrollHeight (h_info b))))
    /\ exists grid flex,
         get "layoutTypes" l
         = Some (obj [("grid", JNat grid); ("flex", JNat flex)])
         /\ grid = length (filter (fun h => style_mentions "grid" h
                                            || class_mentions "grid" h = true)
                             (all_elements d))
         /\ flex = length (filter (fun h => style_mentions "flex" h
                                            || class_mentions "flex" h = true)
                             (all_elements d))
         /\ (grid <= length (all_elements d))%nat
         /\ (flex <= length (all_elements d))%nat.
Proof.
  unfold collectLayoutStructure_page.
  destruct (body d) as [b|]; [|done]. cbn [from_option res_bind].
  destruct (head (all_elements d)) as [html|]; [|done].
  cbn [from_option res_bind].
  rewrite collect_sections_resolved by done. cbn [res_bind].
  rewrite (layout_count d "grid") by done. cbn [res_bind].
  rewrite (layout_count d "flex") by done. cbn [res_bind].
  intros [= <-]. exists b, html.
  split; [done|]. split; [done|]. split; [reflexivity|].
  split; [reflexivity|]. split; [reflexivity|]. split.
  - transitivity (Some (JBool (innerHeight d <? scrollHeight (h_info b))));
      [reflexivity|].
    do 2 f_equal. case_bool_decide; [by apply Z.ltb_lt|by apply Z.ltb_ge; lia].
  - eexists _, _. split; [reflexivity|]. split; [reflexivity|].
    split; [reflexivity|]. split; apply length_filter.
Qed.

Lemma layout_measures_witness :
  exists b html,
    body role_before_tag = Some b
    /\ head (all_elements role_before_tag) = Some html.
Proof.
  destruct (layout_measures role_before_tag _ eq_refl)
    as (b & html & H1 & H2 & _).
  by exists b, html.
Defined.

Example role_before_tag_layout :
  first_where (has_role "banner") role_before_tag
  = Some (element_at role_before_tag 3)
  /\ resolved role_before_tag "header" "banner"
     = Some (element_at role_before_tag 4)
  /\ exists l, collectLayoutStructure_page role_before_tag = Ok l
               /\ get "layoutTypes" l
                  = Some (obj [("grid", JNum 0); ("flex", JNum 1)]).
Proof.
  split; [vm_compute; reflexivity|]. split; [vm_compute; reflexivity|].
  eexists. split; vm_compute; reflexivity.
Qed.

(* ===================================================================== *)
(** * Background images *)
(* ===================================================================== *)

Lemma append_cons (c : ascii) (s t : string) :
  String c s +:+ t = String c (s +:+ t).
Proof. reflexivity. Qed.

Lemma append_assoc (a b c : string) : (a +:+ b) +:+ c = a +:+ (b +:+ c).
Proof.
  induction a as [|x a IH]; [done|]. by rewrite !append_cons, IH.
Qed.

Lemma skip_quote_spec (s : string) :
  exists q, optional_quote q /\ s = q +:+ skip_quote s.
Proof.
  destruct s as [|c s]; [exists ""; split; [by left|done]|].
  simpl. unfold is_quote.
  destruct (Ascii.eqb_spec c dquote) as [->|H1].
  - exists dq. split; [right; by right|done].
  - destruct (Ascii.eqb_spec c "'") as [->|H2].
    + exists "'". split; [right; by left|done].
    + exists "". split; [by left|done].
Qed.

Lemma url_run_spec (s : string) :
  s = fst (url_run s) +:+ snd (url_run s)
  /\ Forall (fun c => url_char c = true) (chars (fst (url_run s)))
  /\ match snd (url_run s) with
     | String c _ => url_char c = false
     | EmptyString => True
     end.
Proof.
  induction s as [|c s (IH1 & IH2 & IH3)]; [by split_and!; try constructor|].
  simpl. destruct (url_char c) eqn:Hc.
  - destruct (url_run s) as [r rest]. cbn [fst snd] in *.
    split; [by rewrite append_cons, <- IH1|]. split; [by constructor|done].
  - cbn [fst snd]. split; [done|]. split; [constructor|done].
Qed.

Lemma url_run_app (u rest : string) :
  Forall (fun c => url_char c = true) (chars u) ->
  match rest with
  | String c _ => url_char c = false
  | EmptyString => True
  end ->
  url_run (u +:+ rest) = (u, rest).
Proof.
  intros Hu Hrest. induction u as [|c u IH].
  - change ("" +:+ rest) with rest. destruct rest as [|c rest]; [done|].
    simpl. by rewrite Hrest.
  - apply Forall_cons in Hu as [Hc Hu]. rewrite append_cons. simpl.
    by rewrite Hc, (IH Hu).
Qed.

Lemma skip_quote_run (u rest : string) :
  u <> "" -> Forall (fun c => url_char c = true) (chars u) ->
  skip_quote (u +:+ rest) = u +:+ rest.
Proof.
  intros Hne Hu. destruct u as [|c u]; [done|].
  apply Forall_cons in Hu as [Hc _]. rewrite append_cons. simpl.
  unfold url_char in Hc. apply negb_true_iff, orb_false_iff in Hc as [-> _].
  done.
Qed.

Lemma match_after_quoted (u q1 q2 post : string) :
  u <> "" -> Forall (fun c => url_char c = true) (chars u) ->
  optional_quote q1 -> optional_quote q2 ->
  match_after (q1 +:+ u +:+ q2 +:+ ")" +:+ post) = Some u.
Proof.
  intros Hne Hu Hq1 Hq2. unfold match_after.
  assert (H1 : skip_quote (q1 +:+ u +:+ q2 +:+ ")" +:+ post)
               = u +:+ q2 +:+ ")" +:+ post).
  { destruct Hq1 as [->|[->| ->]]; [|done|done].
    change ("" +:+ u +:+ q2 +:+ ")" +:+ post) with (u +:+ q2 +:+ ")" +:+ post).
    by apply skip_quote_run. }
  rewrite H1, url_run_app; [|done|by destruct Hq2 as [->|[->| ->]]].
  apply truthy_iff in Hne. rewrite Hne.
  by destruct Hq2 as [->|[->| ->]].
Qed.

Lemma match_url_eq (s : string) :
  match_url s =
  match (if String.prefix "url(" s then match_after (drop_chars 4 s)
         else None) with
  | Some u => Some u
  | None =>
      match s with
      | String _ s' => match_url s'
      | EmptyString => None
      end
  end.
Proof. by destruct s. Qed.

(** X13.  The pattern reads back a URL from the form in which a computed
    style gives it: [url(], an optional quote of either kind, the URL, an
    optional quote, [)], for every non-empty URL that holds no quote and
    no closing parenthesis, and whatever follows. *)
Theorem match_url_quoted (u q1 q2 post : string) :
  u <> "" -> Forall (fun c => url_char c = true) (chars u) ->
  optional_quote q1 -> optional_quote q2 ->
  match_url ("url(" +:+ q1 +:+ u +:+ q2 +:+ ")" +:+ post) = Some u.
Proof.
  intros Hne Hu Hq1 Hq2. rewrite match_url_eq.
  rewrite (proj2 (prefix_iff "url(" _)) by by eexists.
  change (drop_chars 4 ("url(" +:+ ?x)) with x.
  by rewrite match_after_quoted.
Qed.

Lemma match_url_quoted_witness :
  match_url ("url(" +:+ dq +:+ "/img/bg.png" +:+ dq +:+ ")" +:+ ", none")
  = Some "/img/bg.png".
Proof.
  apply (match_url_quoted "/img/bg.png" dq dq ", none").
  - discriminate.
  - vm_compute. repeat constructor.
  - right. right. reflexivity.
  - right. right. reflexivity.
Defined.

Lemma match_after_sound (s u : string) :
  match_after s = Some u ->
  u <> ""
  /\ Forall (fun c => url_char c = true) (chars u)
  /\ exists q1 q2 post,
       optional_quote q1 /\ optional_quote q2
       /\ s = q1 +:+ u +:+ q2 +:+ ")" +:+ post.
Proof.
  unfold match_after.
  destruct (skip_quote_spec s) as (q1 & Hq1 & Hs).
  destruct (url_run_spec (skip_quote s)) as (Hrun & Hchars & _).
  destruct (url_run (skip_quote s)) as [r rest]. cbn [fst snd] in *.
  destruct (truthy r) eqn:Hr; [|done].
  destruct (skip_quote_spec rest) as (q2 & Hq2 & Hrest).
  destruct (skip_quote rest) as [|c post]; [done|].
  destruct (Ascii.eqb_spec c ")") as [->|_]; [|done].
  intros [= <-]. split; [by apply truthy_iff|]. split; [done|].
  exists q1, q2, post. split; [done|]. split; [done|].
  rewrite Hs at 1. rewrite Hrun at 1. by rewrite Hrest at 1.
Qed.

(** A value in which the pattern finds a URL contains [url(]. *)
Lemma match_url_includes (s u : string) :
  match_url s = Some u -> includes s "url(" = true.
Proof.
  induction s as [|c s IH]; [done|].
  rewrite match_url_eq.
  change (includes (String c s) "url(")
    with (String.prefix "url(" (String c s) || includes s "url(").
  destruct (String.prefix "url(" (String c s)); [done|]. exact IH.
Qed.

(** X14.  What the pattern returns is a URL found in the value: it is not
    empty, holds no quote and no closing parenthesis, and stands in the
    value behind [url(] and an optional quote and before an optional
    quote and [)].  So a value without [url(] gives nothing, and neither
    does [url()]. *)
Theorem match_url_sound (s u : string) :
  match_url s = Some u ->
  u <> ""
  /\ Forall (fun c => url_char c = true) (chars u)
  /\ includes s "url(" = true
  /\ exists pre q1 q2 post,
       optional_quote q1 /\ optional_quote q2
       /\ s = pre +:+ "url(" +:+ q1 +:+ u +:+ q2 +:+ ")" +:+ post.
Proof.
  induction s as [|c s IH].
  - done.
  - rewrite match_url_eq.
    destruct (String.prefix "url(" (String c s)) eqn:Hp.
    + destruct (match_after (drop_chars 4 (String c s))) as [u'|] eqn:Hm.
      * intros [= ->]. apply prefix_iff in Hp as [rest Hrest].
        rewrite Hrest in Hm.
        change (drop_chars 4 ("url(" +:+ rest)) with rest in Hm.
        apply match_after_sound in Hm as (H1 & H2 & q1 & q2 & post & H3 & H4 & ->).
        split; [done|]. split; [done|]. split.
        -- apply includes_iff. exists "". eexists. by rewrite Hrest.
        -- exists "", q1, q2, post. by rewrite Hrest.
      * intros H. apply IH in H as (H1 & H2 & H3 & pre & q1 & q2 & post & H4 & H5 & ->).
        split; [done|]. split; [done|]. split.
        -- apply includes_iff. exists (String c pre). eexists.
           by rewrite append_cons.
        -- by exists (String c pre), q1, q2, post.
    + intros H. apply IH in H as (H1 & H2 & H3 & pre & q1 & q2 & post & H4 & H5 & ->).
      split; [done|]. split; [done|]. split.
      * apply includes_iff. exists (String c pre). eexists.
        by rewrite append_cons.
      * by exists (String c pre), q1, q2, post.
Qed.

Lemma match_url_sound_witness :
  includes ("linear-gradient(red, blue), url('a.png')") "url(" = true.
Proof.
  apply (match_url_sound "linear-gradient(red, blue), url('a.png')" "a.png").
  vm_compute. reflexivity.
Defined.

Lemma background_step_records (acc : list JValue) (el : Handle) :
  background_step acc el = (acc ++ background_records el)%list.
Proof.
  unfold background_step, background_records, background_url.
  change (getPropertyValue (getComputedStyle el) "background-image")
    with (style el "background-image").
  set (bg := style el "background-image").
  destruct (match_url bg) as [u|] eqn:Hm.
  - rewrite (match_url_includes bg u Hm), andb_true_r.
    assert (Ht : truthy bg = true).
    { apply truthy_iff. intros Hbg. rewrite Hbg in Hm. discriminate Hm. }
    rewrite Ht. cbn [andb].
    destruct (bg =? "none")%string; [by rewrite app_nil_r|done].
  - destruct (bg =? "none")%string; rewrite ?app_nil_r;
      by destruct (truthy bg && _ && _).
Qed.

Lemma background_fold_records (els : list Handle) (acc : list JValue) :
  fold_left background_step els acc
  = (acc ++ flat_map background_records els)%list.
Proof.
  revert acc. induction els as [|el els IH]; intros acc;
    [by rewrite app_nil_r|].
  cbn [fold_left flat_map].
  by rewrite IH, background_step_records, <- app_assoc.
Qed.

Lemma split_first (sep : ascii) (s : string) :
  exists first others,
    split sep s = first :: others
    /\ (s = first \/ exists rest, s = first +:+ String sep "" +:+ rest).
Proof.
  pose proof (join_split sep s) as Hjoin.
  destruct (split sep s) as [|first others] eqn:Hs;
    [by apply split_nonempty in Hs|].
  exists first, others. split; [done|].
  destruct others as [|x others]; [by left|].
  right. eexists. symmetry. exact Hjoin.
Qed.

(** X15.  The [backgroundImages] of the asset inventory are, in document
    order, the records of
    the elements whose computed background image is not [none] and holds a
    URL the pattern finds, one record for each such element and none for
    the others; the two other tests of the guard, for an empty value and
    for [url(], never decide.  The selector of a record is the id with a
    hash in front when the element has an id; otherwise, when the class
    name is a non-empty string, a dot followed by the class name up to
    its first space, which is a bare dot when the class name starts with
    a space; otherwise the lowercased tag name. *)
Theorem backgroundImages_records (d : Snapshot) :
  backgroundImages_page d = flat_map background_records (all_elements d)
  /\ (forall media,
        get "backgroundImages" (collectAssets_page media d)
        = Some (JArr (backgroundImages_page d)))
  /\ (forall el, (length (background_records el) <= 1)%nat)
  /\ (forall el url,
        background_records el
        = [obj [("url", JStr url);
                ("element", JStr (toLowerCase (tagName el)));
                ("selector", JStr (background_selector el))]]
        <-> style el "background-image" <> "none"
            /\ match_url (style el "background-image") = Some url)
  /\ (forall el, el_id el <> "" ->
                 background_selector el = "#" +:+ el_id el)
  /\ (forall el cn,
        el_id el = "" -> className el = Some cn -> cn <> "" ->
        exists first,
          background_selector el = "." +:+ first
          /\ (" "%char ∉ chars first)
          /\ (cn = first \/ exists rest, cn = first +:+ " " +:+ rest))
  /\ (forall el,
        el_id el = "" -> (className el = None \/ className el = Some "") ->
        background_selector el = toLowerCase (tagName el)).
Proof.
  split_and!.
  - unfold backgroundImages_page. by rewrite background_fold_records.
  - intros media. unfold collectAssets_page.
    by destruct (media d) as [[images stylesheets] scripts].
  - intros el. unfold background_records.
    destruct (background_url el); simpl; lia.
  - intros el url. unfold background_records, background_url.
    destruct (String.eqb_spec (style el "background-image") "none") as [->|Hne].
    + split; [done|]. by intros [H _].
    + destruct (match_url (style el "background-image")) as [u|]; split.
      * intros [= ->]. done.
      * intros [_ [= ->]]. done.
      * done.
      * by intros [_ H].
  - intros el Hid. unfold background_selector.
    apply truthy_iff in Hid. by rewrite Hid.
  - intros el cn Hid Hcn Hne. unfold background_selector.
    apply truthy_iff in Hne. rewrite Hid, Hcn, Hne.
    change (truthy "") with false. cbv iota.
    destruct (split_first " " cn) as (first & others & Hs & Hform).
    exists first. rewrite Hs. split; [done|]. split; [|done].
    apply (split_pieces " " cn). rewrite Hs. apply list_elem_of_here.
  - intros el Hid Hcn. unfold background_selector. rewrite Hid.
    change (truthy "") with false. cbv iota. by destruct Hcn as [-> | ->].
Qed.

Example background_of_body :
  backgroundImages_page with_background
  = [obj [("url", JStr "/img/bg.png"); ("element", JStr "body");
          ("selector", JStr "#top")]].
Proof. vm_compute. reflexivity. Qed.

(* ===================================================================== *)
(** * The default file name *)
(* ===================================================================== *)

Lemma chars_app (a b : string) : chars (a +:+ b) = (chars a ++ chars b)%list.
Proof.
  unfold chars. induction a as [|c a IH]; [done|].
  change (String c a +:+ b) with (String c (a +:+ b)). simpl. by rewrite IH.
Qed.

Lemma chars_replace (cls : ascii -> bool) (by_char : ascii) (s : string) :
  chars (replace_chars cls by_char s)
  = map (fun c => if cls c then by_char else c) (chars s).
Proof.
  unfold chars. induction s as [|c s IH]; [done|]. simpl. by rewrite IH.
Qed.

Lemma append_length (a b : string) :
  String.length (a +:+ b) = (String.length a + String.length b)%nat.
Proof.
  induction a as [|c a IH]; [done|].
  change (String c a +:+ b) with (String c (a +:+ b)). simpl. by rewrite IH.
Qed.

Lemma replace_chars_length (cls : ascii -> bool) (by_char : ascii) (s : string) :
  String.length (replace_chars cls by_char s) = String.length s.
Proof. induction s as [|c s IH]; [done|]. simpl. by rewrite IH. Qed.

Lemma replace_chars_idem (cls : ascii -> bool) (by_char : ascii) (s : string) :
  cls by_char = false ->
  replace_chars cls by_char (replace_chars cls by_char s)
  = replace_chars cls by_char s.
Proof.
  intros Hby. induction s as [|c s IH]; [done|]. simpl. rewrite IH.
  destruct (cls c) eqn:Hc; by rewrite ?Hby, ?Hc.
Qed.

(** X20.  The default file name is the host name, the word [analysis]
    and the time, joined by underscores, with the suffix [.json]; every
    dot of the host name has become an underscore and every colon and dot
    of the time a dash, so the only dot of the name is the one of the
    suffix.  A colon of the host name stays, and host names that differ
    only by a dot where the other has an underscore get the same name. *)
Theorem default_filename_shape (domain iso : string) :
  (exists stem,
     default_filename domain iso = stem +:+ ".json"
     /\ ("."%char ∉ chars stem)
     /\ (":"%char ∈ chars stem <-> ":"%char ∈ chars domain))
  /\ String.length (default_filename domain iso)
     = (String.length domain + String.length iso + 15)%nat
  /\ default_filename (replace_chars is_dot "_" domain) iso
     = default_filename domain iso.
Proof.
  split; [|split].
  - exists (replace_chars is_dot "_" domain +:+ "_analysis_"
            +:+ replace_chars is_colon_or_dot "-" iso).
    split.
    { unfold default_filename. by rewrite !append_assoc. }
    rewrite !chars_app, !chars_replace, !elem_of_app, !list_elem_of_fmap.
    split.
    + intros [(c & Hc & _)|[H|(c & Hc & _)]].
      * destruct (is_dot c) eqn:Hd; [done|]. subst c. done.
      * vm_compute in H. repeat (apply elem_of_cons in H as [H|H]; [done|]).
        by apply elem_of_nil in H.
      * destruct (is_colon_or_dot c) eqn:Hd; [done|]. subst c. done.
    + split.
      * intros [(c & Hc & Hin)|[H|(c & Hc & _)]].
        -- destruct (is_dot c) eqn:Hd; [done|]. by subst c.
        -- vm_compute in H. repeat (apply elem_of_cons in H as [H|H]; [done|]).
           by apply elem_of_nil in H.
        -- destruct (is_colon_or_dot c) eqn:Hd; [done|]. subst c. done.
      * intros H. left. by exists ":"%char.
  - unfold default_filename.
    rewrite !append_length, !replace_chars_length. simpl. lia.
  - unfold default_filename. by rewrite replace_chars_idem.
Qed.
